(** * deploy-report.mjs: the report-building pipeline, embedded and verified

    The script [.github/scripts/deploy-report.mjs] turns a Figma webhook
    payload into a changelog section and a Slack message.  This file embeds
    its pure stages ([readGitHub], [buildReport], the text splice of
    [writeGitHub], [buildSection] of [notifySlack]) and the request trace of
    [fetchFigma], on top of a small model of the JavaScript values the script
    manipulates: UTF-16 strings, integer-valued Numbers, plain objects used
    as dictionaries, and [Date]. *)

From Stdlib Require Import NArith ZArith List Lia Bool String Ascii.
From Stdlib Require Import Sorted Permutation DecimalN DecimalPos.
Import ListNotations.

Set Warnings "-register-all".

Local Open Scope N_scope.

(** ** JavaScript strings *)

Module JsString.

(** A string is its sequence of UTF-16 code units. *)
Definition jsstring := list N.

(** ASCII literals of the script. *)
Definition lit (s : string) : jsstring :=
  map N_of_ascii (list_ascii_of_string s).

Definition eqb (s t : jsstring) : bool :=
  if list_eq_dec N.eq_dec s t then true else false.

(** Truthiness of a string: only the empty string is falsy. *)
Definition truthy (s : jsstring) : bool :=
  match s with [] => false | _ => true end.

(** [Array.prototype.join]. *)
Fixpoint join (sep : jsstring) (l : list jsstring) : jsstring :=
  match l with
  | [] => []
  | [x] => x
  | x :: r => x ++ sep ++ join sep r
  end.

Definition LF : N := 10.
Definition DOT : N := 46.

Definition isDigit (c : N) : bool := (48 <=? c) && (c <=? 57).

(** [LineTerminator]: LF, CR, LS, PS. *)
Definition isLineTerminator (c : N) : bool :=
  (c =? 10) || (c =? 13) || (c =? 0x2028) || (c =? 0x2029).

(** [WhiteSpace] and [LineTerminator], the code units removed by
    [String.prototype.trimEnd] and [trim]. *)
Definition isTrimmable (c : N) : bool :=
  (c =? 9) || (c =? 11) || (c =? 12) || (c =? 32) || (c =? 0xA0)
  || (c =? 0x1680) || ((0x2000 <=? c) && (c <=? 0x200A))
  || (c =? 0x202F) || (c =? 0x205F) || (c =? 0x3000) || (c =? 0xFEFF)
  || isLineTerminator c.

Fixpoint trimStart (s : jsstring) : jsstring :=
  match s with
  | c :: t => if isTrimmable c then trimStart t else s
  | [] => []
  end.

Definition trimEnd (s : jsstring) : jsstring := rev (trimStart (rev s)).

Definition trim (s : jsstring) : jsstring := trimEnd (trimStart s).

(** [s.slice(i)] and [s.slice(0, i)] for [0 <= i <= s.length]. *)
Definition sliceFrom (i : nat) (s : jsstring) : jsstring := skipn i s.
Definition sliceTo (i : nat) (s : jsstring) : jsstring := firstn i s.

(** [s.split(".")]: never empty, one more piece than there are dots. *)
Fixpoint splitDot (s : jsstring) : list jsstring :=
  match s with
  | [] => [[]]
  | c :: t =>
      if c =? DOT then [] :: splitDot t
      else match splitDot t with
           | h :: r => (c :: h) :: r
           | [] => [[c]]
           end
  end.

(** Decimal digits of a natural number, most significant first. *)
Fixpoint ofUint (u : Decimal.uint) : jsstring :=
  match u with
  | Decimal.Nil => []
  | Decimal.D0 r => 48 :: ofUint r
  | Decimal.D1 r => 49 :: ofUint r
  | Decimal.D2 r => 50 :: ofUint r
  | Decimal.D3 r => 51 :: ofUint r
  | Decimal.D4 r => 52 :: ofUint r
  | Decimal.D5 r => 53 :: ofUint r
  | Decimal.D6 r => 54 :: ofUint r
  | Decimal.D7 r => 55 :: ofUint r
  | Decimal.D8 r => 56 :: ofUint r
  | Decimal.D9 r => 57 :: ofUint r
  end.

Definition decimal (n : N) : jsstring := ofUint (N.to_uint n).

(** Value of a run of decimal digits (leading zeros allowed). *)
Definition digitsValue (s : jsstring) : N :=
  fold_left (fun acc c => 10 * acc + (c - 48)) s 0.

Definition isDigitRun (s : jsstring) : bool :=
  truthy s && forallb isDigit s.

End JsString.

Import JsString.

(** ** JavaScript Numbers, as far as the script computes with them

    The script only ever holds non-negative integers in its Numbers: array
    lengths, variant counts and the three components of a version.  A Number
    is an IEEE-754 double, so an integer is held exactly only while it fits
    in 53 significant bits; [round53] is round-to-nearest, ties-to-even, on
    non-negative integers, overflowing to [Infinity]. *)

Module JsNumber.

Inductive number : Type :=
| Fin (n : N)
| Infinity.

Definition MAX_SAFE_INTEGER : N := 2 ^ 53 - 1.

Definition round53 (v : N) : number :=
  if v <? 2 ^ 53 then Fin v
  else
    let e := N.log2 v - 52 in
    let q := N.shiftr v e in
    let r := v mod 2 ^ e in
    let half := 2 ^ (e - 1) in
    let q' := if r <? half then q
              else if half <? r then q + 1
              else if N.even q then q else q + 1 in
    let m := q' * 2 ^ e in
    if 2 ^ 1024 <=? m then Infinity else Fin m.

(** [Number(s)] for a run of decimal digits [s]; [None] marks a string
    outside this fragment, which the version pattern of [readGitHub]
    never lets through. *)
Definition Number (s : jsstring) : option number :=
  if isDigitRun s then Some (round53 (digitsValue s)) else None.

(** [x + 1]. *)
Definition succ (x : number) : number :=
  match x with
  | Fin n => round53 (n + 1)
  | Infinity => Infinity
  end.

(** [x >= 1]. *)
Definition ge1 (x : number) : bool :=
  match x with
  | Fin n => 1 <=? n
  | Infinity => true
  end.

(** *** Number::toString

    The digits printed are those of the shortest decimal that rounds
    back to the Number; up to [2^53] that decimal is the integer itself.
    From [10^21] on the exponent notation is used. *)

Definition roundsTo (x v : N) : bool :=
  match round53 v with
  | Fin y => y =? x
  | Infinity => false
  end.

Definition dist (a b : N) : N := if a <? b then b - a else a - b.

(** The candidates with [k] significant digits among the neighbours of
    [x], for [x] of [D] digits. *)
Definition candidates (x : N) (D k : nat) : list N :=
  let p := 10 ^ N.of_nat (D - k) in
  let lo := x / p in
  filter (roundsTo x) [lo * p; (lo + 1) * p].

Definition closest (x : N) (D k : nat) (l : list N) : option N :=
  match l with
  | [] => None
  | [v] => Some v
  | v :: w :: _ =>
      let p := 10 ^ N.of_nat (D - k) in
      if dist v x <? dist w x then Some v
      else if dist w x <? dist v x then Some w
      else if N.even (v / p) then Some v else Some w
  end.

Fixpoint shortestFrom (x : N) (D k fuel : nat) : N :=
  match fuel with
  | O => x
  | S fuel' =>
      match closest x D k (candidates x D k) with
      | Some v => v
      | None => shortestFrom x D (S k) fuel'
      end
  end.

Definition shortest (x : N) : N :=
  let D := List.length (decimal x) in
  shortestFrom x D 1 D.

Fixpoint stripZeros (r : jsstring) : jsstring :=
  match r with
  | 48 :: t => stripZeros t
  | _ => r
  end.

(** Significant digits of a decimal string: trailing zeros removed. *)
Definition significant (d : jsstring) : jsstring :=
  rev (stripZeros (rev d)).

Definition exponential (v : N) : jsstring :=
  let d := decimal v in
  let e := decimal (N.of_nat (List.length d - 1)) in
  match significant d with
  | [] => d
  | [c] => c :: lit "e+" ++ e
  | c :: t => c :: DOT :: t ++ lit "e+" ++ e
  end.

Definition toString (x : number) : jsstring :=
  match x with
  | Infinity => lit "Infinity"
  | Fin n =>
      if n <=? 2 ^ 53 then decimal n
      else if n <? 10 ^ 21 then decimal (shortest n)
      else exponential (shortest n)
  end.

End JsNumber.

Import JsNumber.

(** ** [Date], as far as [buildReport] uses it

    A time value is a number of milliseconds since the epoch, valid up to
    [8.64e15] in absolute value ([TimeClip]); an invalid Date is [None]. *)

Module JsDate.

Local Open Scope Z_scope.

Definition msPerDay : Z := 86400000.

Definition TimeClip (t : Z) : option Z :=
  if Z.abs t <=? 8640000000000000 then Some t else None.

(** Proleptic Gregorian date of a day number (days since 1970-01-01). *)
Definition civil (day : Z) : Z * Z * Z :=
  let z := day + 719468 in
  let era := z / 146097 in
  let doe := z - era * 146097 in
  let yoe := (doe - doe / 1460 + doe / 36524 - doe / 146096) / 365 in
  let doy := doe - (365 * yoe + yoe / 4 - yoe / 100) in
  let mp := (5 * doy + 2) / 153 in
  let d := doy - (153 * mp + 2) / 5 + 1 in
  let m := if mp <? 10 then mp + 3 else mp - 9 in
  let y := yoe + era * 400 + (if m <=? 2 then 1 else 0) in
  (y, m, d).

Definition pad (width : nat) (n : Z) : jsstring :=
  let d := decimal (Z.to_N n) in
  repeat 48%N (width - List.length d) ++ d.

Definition isoYear (y : Z) : jsstring :=
  if (0 <=? y) && (y <=? 9999) then pad 4 y
  else (if y <? 0 then lit "-" else lit "+") ++ pad 6 (Z.abs y).

(** [Date.prototype.toISOString] of a valid time value. *)
Definition toISOString (t : Z) : jsstring :=
  let '(y, m, d) := civil (t / msPerDay) in
  let ms := t mod msPerDay in
  isoYear y ++ lit "-" ++ pad 2 m ++ lit "-" ++ pad 2 d ++ lit "T"
    ++ pad 2 (ms / 3600000) ++ lit ":" ++ pad 2 (ms / 60000 mod 60)
    ++ lit ":" ++ pad 2 (ms / 1000 mod 60) ++ lit "." ++ pad 3 (ms mod 1000)
    ++ lit "Z".

End JsDate.

(** ** A plain object used as a dictionary

    [groupBySet] accumulates into an object literal [{}].  Such an object
    keeps its own properties in creation order, but enumerates those whose
    key is an array index first, in ascending numeric order; and a read
    [acc[key]] that finds no own property goes on to [Object.prototype]. *)

Module JsObject.

(** Insertion sort by a numeric rank, ascending. *)
Fixpoint insertBy {A} (rank : A -> N) (a : A) (l : list A) : list A :=
  match l with
  | [] => [a]
  | b :: r => if rank a <=? rank b then a :: l else b :: insertBy rank a r
  end.

Definition sortBy {A} (rank : A -> N) (l : list A) : list A :=
  fold_right (insertBy rank) [] l.

Section Dict.

Context {V : Type}.

(** Own properties, in creation order. *)
Definition object := list (jsstring * V).

Definition empty : object := [].

Fixpoint getOwn (o : object) (k : jsstring) : option V :=
  match o with
  | [] => None
  | (k', v) :: r => if eqb k' k then Some v else getOwn r k
  end.

(** [o[k] = v]: an existing property keeps its place. *)
Fixpoint set (o : object) (k : jsstring) (v : V) : object :=
  match o with
  | [] => [(k, v)]
  | (k', v') :: r =>
      if eqb k' k then (k', v) :: r else (k', v') :: set r k v
  end.

(** A canonical numeric string denoting an integer up to [2^32 - 2]. *)
Definition isArrayIndex (k : jsstring) : bool :=
  isDigitRun k && eqb (decimal (digitsValue k)) k
  && (digitsValue k <=? 4294967294).

(** Numeric value of an array index. *)
Definition indexOf (p : jsstring * V) : N := digitsValue (fst p).

Definition sortByIndex (l : object) : object := sortBy indexOf l.

(** [OrdinaryOwnPropertyKeys]: array indices ascending, then the other
    keys in creation order. *)
Definition ownProperties (o : object) : object :=
  sortByIndex (filter (fun p => isArrayIndex (fst p)) o)
    ++ filter (fun p => negb (isArrayIndex (fst p))) o.

(** [Object.values(o)]. *)
Definition values (o : object) : list V := map snd (ownProperties o).

End Dict.

Arguments object : clear implicits.

(** The property names every plain object inherits from
    [Object.prototype]; each of them reads as a function or an object,
    hence as a truthy value. *)
Definition inheritedNames : list jsstring :=
  map lit
    [ "constructor"; "hasOwnProperty"; "isPrototypeOf";
      "propertyIsEnumerable"; "toLocaleString"; "toString"; "valueOf";
      "__proto__"; "__defineGetter__"; "__defineSetter__";
      "__lookupGetter__"; "__lookupSetter__" ]%string.

Definition isInherited (k : jsstring) : bool :=
  existsb (eqb k) inheritedNames.

(** What a read [o[k]] finds. *)
Inductive lookup (V : Type) : Type :=
| Own (v : V)
| Inherited
| Undefined.

Arguments Own {V} v.
Arguments Inherited {V}.
Arguments Undefined {V}.

Definition get {V} (o : object V) (k : jsstring) : lookup V :=
  match getOwn o k with
  | Some v => Own v
  | None => if isInherited k then Inherited else Undefined
  end.

End JsObject.

(** ** The data model of the script *)

(** An asset of the webhook payload: [{ name, key }]. *)
Record Asset : Type := mkAsset {
  name : jsstring;
  key : jsstring
}.

(** [webhook.timestamp]: absent (or [null]), a number of milliseconds, or a
    date string. *)
Inductive Timestamp : Type :=
| TsAbsent
| TsNumber (ms : Z)
| TsString (s : jsstring).

(** The normalised payload returned by [parseWebhook]; a list that the
    payload does not carry is [None]. *)
Record Webhook : Type := mkWebhook {
  created_variables : option (list Asset);
  deleted_variables : option (list Asset);
  modified_variables : option (list Asset);
  created_styles : option (list Asset);
  deleted_styles : option (list Asset);
  modified_styles : option (list Asset);
  created_components : option (list Asset);
  deleted_components : option (list Asset);
  modified_components : option (list Asset);
  file_key : option jsstring;
  timestamp : Timestamp;
  triggered_by_handle : option jsstring
}.

(** [x || []]. *)
Definition orEmpty {A} (x : option (list A)) : list A :=
  match x with Some l => l | None => [] end.

(** The [meta] object of a Figma metadata response. *)
Record Meta : Type := mkMeta {
  meta_key : jsstring;
  node_id : option jsstring;
  containing_component_set_name : option jsstring;
  containingComponentSet_name : option jsstring
}.

(** One slot of [componentMetas] or [styleMetas]: the parsed body of a
    successful lookup (with or without a [meta] field), or the
    [{ error, key }] record that [.catch] puts there. *)
Inductive Fetched : Type :=
| Body (meta : option Meta)
| Failure (error : jsstring) (failed_key : jsstring).

Definition metaOf (m : Fetched) : option Meta :=
  match m with
  | Body meta => meta
  | Failure _ _ => None
  end.

Record FetchResult : Type := mkFetchResult {
  componentMetas : list Fetched;
  styleMetas : list Fetched
}.

Record ReadResult : Type := mkReadResult {
  changelogContent : jsstring;
  currentVersion : jsstring
}.

(** [{ ...s, nodeId }]. *)
Record Style : Type := mkStyle {
  style_asset : Asset;
  style_nodeId : option jsstring
}.

(** [{ ...c, nodeId, setName }], and [variantCount] once grouped.  A count
    never exceeds the length of an array, far below [2^53]: it is held
    exactly, as a natural number. *)
Record Component : Type := mkComponent {
  asset : Asset;
  nodeId : option jsstring;
  setName : jsstring;
  variantCount : option N
}.

(** Truthiness of an optional string: [undefined] and the empty string are
    falsy. *)
Definition truthyOpt (x : option jsstring) : bool :=
  match x with Some s => truthy s | None => false end.

(** [a || b] on optional strings. *)
Definition orElse (a b : option jsstring) : option jsstring :=
  if truthyOpt a then a else b.

(** [`${x}`] for a possibly missing string. *)
Definition interpolate (x : option jsstring) : jsstring :=
  match x with Some s => s | None => lit "undefined" end.

(** ** Computations that may throw *)

Inductive failure : Type :=
| InvalidTimeValue   (* the RangeError of [toISOString] on an invalid Date *)
| NotAVersion.       (* [currentVersion] is not made of three digit runs *)

Inductive result (A : Type) : Type :=
| Ok (a : A)
| Err (e : failure).

Arguments Ok {A} a.
Arguments Err {A} e.

Definition bind {A B} (r : result A) (k : A -> result B) : result B :=
  match r with
  | Ok a => k a
  | Err e => Err e
  end.

Notation "x <- r ;; k" := (bind r (fun x => k))
  (at level 61, r at next level, right associativity).
Notation "' pat <- r ;; k" := (bind r (fun x => match x with pat => k end))
  (at level 61, pat pattern, r at next level, right associativity).

Definition orThrow {A} (e : failure) (o : option A) : result A :=
  match o with Some a => Ok a | None => Err e end.

(** ** 2. readGitHub *)

Module ReadGitHub.

(** The longest run of digits at the head of [s], and what follows. *)
Fixpoint digitRun (s : jsstring) : jsstring * jsstring :=
  match s with
  | c :: t =>
      if isDigit c then let '(d, r) := digitRun t in (c :: d, r)
      else ([], s)
  | [] => ([], [])
  end.

(** [\d+\.\d+\.\d+] matched at the head of [s]: the text matched. *)
Definition matchVersion (s : jsstring) : option jsstring :=
  match digitRun s with
  | ([], _) => None
  | (a, c1 :: r1) =>
      if c1 =? DOT then
        match digitRun r1 with
        | ([], _) => None
        | (b, c2 :: r2) =>
            if c2 =? DOT then
              match digitRun r2 with
              | ([], _) => None
              | (c, _) => Some (a ++ [DOT] ++ b ++ [DOT] ++ c)
              end
            else None
        | (_, []) => None
        end
      else None
  | (_, []) => None
  end.

(** [## ] at the head of [s]: what follows it. *)
Definition afterHashes (s : jsstring) : option jsstring :=
  match s with
  | 35 :: 35 :: 32 :: r => Some r
  | _ => None
  end.

(** [/^## (\d+\.\d+\.\d+)/m]: the first capture of the leftmost match.
    [bol] tells whether the head of [s] is at the beginning of a line. *)
Fixpoint versionMatch (bol : bool) (s : jsstring) : option jsstring :=
  let here :=
    if bol then
      match afterHashes s with
      | Some r => matchVersion r
      | None => None
      end
    else None in
  match here with
  | Some v => Some v
  | None =>
      match s with
      | [] => None
      | c :: t => versionMatch (isLineTerminator c) t
      end
  end.

Definition readGitHub (changelogContent : jsstring) : ReadResult :=
  let currentVersion :=
    match versionMatch true changelogContent with
    | Some v => v
    | None => lit "0.0.0"
    end in
  mkReadResult changelogContent currentVersion.

End ReadGitHub.

(** ** 4. buildReport *)

Record Report : Type := mkReport {
  newVersion : jsstring;
  changelogMd : jsstring;
  variablesAdded : list Asset;
  variablesDeleted : list Asset;
  variablesModified : list Asset;
  stylesAdded : list Style;
  stylesDeleted : list Asset;
  stylesModified : list Style;
  groupedAdded : list Component;
  groupedDeleted : list Component;
  groupedModified : list Component
}.

Module BuildReport.

(** [c.setName || c.name]. *)
Definition groupKey (c : Component) : jsstring :=
  if truthy (setName c) then setName c else name (asset c).

(** [{ ...c, variantCount: 1 }]. *)
Definition firstVariant (c : Component) : Component :=
  mkComponent (asset c) (nodeId c) (setName c) (Some 1).

(** [e.variantCount++]. *)
Definition nextVariant (e : Component) : Component :=
  mkComponent (asset e) (nodeId e) (setName e)
    (option_map N.succ (variantCount e)).

(** The reducer of [groupBySet].  When [acc[key]] is found on
    [Object.prototype] it is truthy, so the increment is applied to that
    builtin and [acc] gets no property. *)
Definition groupStep (acc : JsObject.object Component) (c : Component)
  : JsObject.object Component :=
  let key := groupKey c in
  match JsObject.get acc key with
  | JsObject.Undefined => JsObject.set acc key (firstVariant c)
  | JsObject.Own e => JsObject.set acc key (nextVariant e)
  | JsObject.Inherited => acc
  end.

Definition groupBySet (items : list Component) : list Component :=
  JsObject.values (fold_left groupStep items JsObject.empty).

(** [`${link(c.setName, c.nodeId)}${c.variantCount > 1 ? ` *(${c.variantCount})*` : ""}`]
    with the link already rendered. *)
Definition countSuffix (c : Component) : jsstring :=
  match variantCount c with
  | Some n => if 1 <? n then lit " *(" ++ decimal n ++ lit ")*" else []
  | None => []
  end.

(** The section titles of the changelog, as the source file spells
    them. *)
Definition titleAdded : jsstring :=
  [0x3bc; 0xb6; 0x201d; 0x3ba; 0xb0; 0x20ac].
Definition titleModified : jsstring := [0x3bc; 0x3bc; 0xa0; 0x2022].
Definition titleDeleted : jsstring := [0x3bc; 0x201a; 0xad; 0x3bc; 0xa0].

(** [`- ...(${n}...)`], the one line standing for all modified
    variables. *)
Definition modifiedVariablesLine (n : N) : jsstring :=
  lit "- " ++ [0x3bc; 0x3bc; 0xa0; 0x2022; 0x3bb; 32; 0x3bb; 0xb3; 0x20ac;
               0x3bc; 32; 0x3bc; 0x3bc; 32; 40]
    ++ decimal n
    ++ [0x3ba; 0xb0; 32; 0x3bb; 0x2015; 0x388; 0x3bd; 0x2122; 0x2022;
        0x3bc; 0x388; 41].

(** [if (lines.length > 0) md += `### title\n${lines.join("\n")}\n\n`]. *)
Definition section (title : jsstring) (lines : list jsstring) : jsstring :=
  match lines with
  | [] => []
  | _ => lit "### " ++ title ++ [LF] ++ join [LF] lines ++ [LF; LF]
  end.

Section Run.

Variable webhook : Webhook.
Variable readResult : ReadResult.
Variable fetchResult : FetchResult.

(** The environment: what [Date.now()] answers, and [Date.parse]. *)
Variable clock : Z.
Variable Date_parse : jsstring -> option Z.

Definition figmaBase : jsstring :=
  lit "https://www.figma.com/file/" ++ interpolate (file_key webhook).

Definition mdLink (name : jsstring) (nodeId : option jsstring) : jsstring :=
  if truthyOpt nodeId
  then lit "[" ++ name ++ lit "](" ++ figmaBase ++ lit "?node-id="
         ++ interpolate nodeId ++ lit ")"
  else name.

Definition findMeta (metas : list Fetched) (k : jsstring) : option Meta :=
  match find (fun m => match metaOf m with
                       | Some meta => eqb (meta_key meta) k
                       | None => false
                       end) metas with
  | Some m => metaOf m
  | None => None
  end.

Definition getCompMeta : jsstring -> option Meta :=
  findMeta (componentMetas fetchResult).
Definition getStyleMeta : jsstring -> option Meta :=
  findMeta (styleMetas fetchResult).

(** Variables *)
Definition variablesAdded : list Asset := orEmpty (created_variables webhook).
Definition variablesDeleted : list Asset := orEmpty (deleted_variables webhook).
Definition variablesModified : list Asset := orEmpty (modified_variables webhook).

(** Styles *)
Definition enrichStyle (s : Asset) : Style :=
  mkStyle s (match getStyleMeta (key s) with
             | Some meta => node_id meta
             | None => None
             end).

Definition stylesAdded : list Style := map enrichStyle (orEmpty (created_styles webhook)).
Definition stylesDeleted : list Asset := orEmpty (deleted_styles webhook).
Definition stylesModified : list Style := map enrichStyle (orEmpty (modified_styles webhook)).

(** Components *)
Definition enrichComp (c : Asset) : Component :=
  let meta := getCompMeta (key c) in
  mkComponent c
    (match meta with Some m => node_id m | None => None end)
    (interpolate
       (orElse (match meta with
                | Some m => containing_component_set_name m
                | None => None
                end)
          (orElse (match meta with
                   | Some m => containingComponentSet_name m
                   | None => None
                   end)
             (Some (name c)))))
    None.

Definition componentsAdded : list Component :=
  map enrichComp (orEmpty (created_components webhook)).
Definition componentsDeleted : list Component :=
  map (fun c => mkComponent c None (name c) None)
    (orEmpty (deleted_components webhook)).
Definition componentsModified : list Component :=
  map enrichComp (orEmpty (modified_components webhook)).

Definition groupedAdded : list Component := groupBySet componentsAdded.
Definition groupedDeleted : list Component := groupBySet componentsDeleted.
Definition groupedModified : list Component := groupBySet componentsModified.

(** SemVer *)
Definition len {A} (l : list A) : N := N.of_nat (List.length l).

Definition hasAdded : bool :=
  0 <? len variablesAdded + len stylesAdded + len componentsAdded.
Definition hasDeleted : bool :=
  0 <? len variablesDeleted + len stylesDeleted + len componentsDeleted.

(** [const [major, minor, patch] = currentVersion.split(".").map(Number)]. *)
Definition versionParts : option (number * number * number) :=
  match map Number (splitDot (currentVersion readResult)) with
  | Some major :: Some minor :: Some patch :: _ => Some (major, minor, patch)
  | _ => None
  end.

Definition newVersion : result jsstring :=
  '(major, minor, patch) <- orThrow NotAVersion versionParts ;;
  Ok (if ge1 major then
        if hasDeleted then toString (succ major) ++ lit ".0.0"
        else if hasAdded then
          toString major ++ lit "." ++ toString (succ minor) ++ lit ".0"
        else
          toString major ++ lit "." ++ toString minor ++ lit "."
            ++ toString (succ patch)
      else
        if hasAdded || hasDeleted then
          lit "0." ++ toString (succ minor) ++ lit ".0"
        else
          lit "0." ++ toString minor ++ lit "." ++ toString (succ patch)).

(** Changelog section *)

(** [webhook.timestamp || Date.now()], as the time value of
    [new Date(...)]: a falsy timestamp (absent, [0], the empty string)
    gives way to the clock. *)
Definition now : option Z :=
  match timestamp webhook with
  | TsAbsent => JsDate.TimeClip clock
  | TsNumber ms => if (ms =? 0)%Z then JsDate.TimeClip clock else JsDate.TimeClip ms
  | TsString s =>
      if truthy s
      then match Date_parse s with
           | Some t => JsDate.TimeClip t
           | None => None
           end
      else JsDate.TimeClip clock
  end.

Definition kst : option Z :=
  match now with
  | Some t => JsDate.TimeClip (t + 9 * 60 * 60 * 1000)
  | None => None
  end.

Definition dateStr : result jsstring :=
  t <- orThrow InvalidTimeValue kst ;;
  Ok (sliceTo 10 (JsDate.toISOString t)).

Definition addedLines : list jsstring :=
  map (fun v => lit "- " ++ name v) variablesAdded
    ++ map (fun s => lit "- " ++ mdLink (name (style_asset s)) (style_nodeId s))
         stylesAdded
    ++ map (fun c => lit "- " ++ mdLink (setName c) (nodeId c) ++ countSuffix c)
         groupedAdded.

Definition modifiedLines : list jsstring :=
  (if 0 <? len variablesModified
   then [modifiedVariablesLine (len variablesModified)] else [])
    ++ map (fun s => lit "- " ++ mdLink (name (style_asset s)) (style_nodeId s))
         stylesModified
    ++ map (fun c => lit "- " ++ mdLink (setName c) (nodeId c) ++ countSuffix c)
         groupedModified.

Definition deletedLines : list jsstring :=
  map (fun v => lit "- " ++ name v) variablesDeleted
    ++ map (fun s => lit "- " ++ name s) stylesDeleted
    ++ map (fun c => lit "- " ++ setName c ++ countSuffix c) groupedDeleted.

Definition buildReport : result Report :=
  version <- newVersion ;;
  date <- dateStr ;;
  let md := lit "## " ++ version ++ lit " - " ++ date ++ [LF; LF]
              ++ section titleAdded addedLines
              ++ section titleModified modifiedLines
              ++ section titleDeleted deletedLines in
  Ok (mkReport version md
        variablesAdded variablesDeleted variablesModified
        stylesAdded stylesDeleted stylesModified
        groupedAdded groupedDeleted groupedModified).

End Run.

End BuildReport.

(** ** 5. writeGitHub: the text committed *)

Module WriteGitHub.

(** [/^## \d/] matched at the head of [s]. *)
Definition headingHere (s : jsstring) : bool :=
  match s with
  | 35 :: 35 :: 32 :: c :: _ => isDigit c
  | _ => false
  end.

(** [s.search(/^## \d/m)]: the index of the leftmost match, [None] for
    [-1].  [bol] tells whether the head of [s] begins a line. *)
Fixpoint search (bol : bool) (s : jsstring) : option nat :=
  if bol && headingHere s then Some O
  else match s with
       | [] => None
       | c :: t => option_map S (search (isLineTerminator c) t)
       end.

Definition updatedChangelog (changelogContent changelogMd : jsstring)
  : jsstring :=
  match search true changelogContent with
  | Some firstVersionIdx =>
      sliceTo firstVersionIdx changelogContent ++ changelogMd
        ++ sliceFrom firstVersionIdx changelogContent
  | None => trimEnd changelogContent ++ [LF; LF] ++ changelogMd
  end.

End WriteGitHub.

(** ** 6. notifySlack: the message text *)

Module NotifySlack.

Definition MAX_ITEMS : nat := 20.

(** The bullet that starts each line, as the source file spells it. *)
Definition bullet : jsstring := [0x3b2; 0x20ac; 0x386; 32].

(** [`\n<bullet>_...<..> ${n}<..>_`]. *)
Definition extraLine (n : N) : jsstring :=
  [LF] ++ bullet ++ lit "_..." ++ [0x3bc; 0x2122; 0x388; 32] ++ decimal n
    ++ [0x3ba; 0xb1; 0x384] ++ lit "_".

(** [null] is [None]. *)
Definition buildSection (label : jsstring) (items : list jsstring)
  : option jsstring :=
  if Nat.eqb (List.length items) 0 then None
  else
    let shown := join [LF] (map (fun t => bullet ++ t) (firstn MAX_ITEMS items)) in
    let extra :=
      if Nat.ltb MAX_ITEMS (List.length items)
      then extraLine (N.of_nat (List.length items - MAX_ITEMS))
      else [] in
    Some (label ++ [LF] ++ shown ++ extra).

(** [.filter(Boolean)] on an array of strings and [null]s. *)
Fixpoint filterBoolean (l : list (option jsstring)) : list jsstring :=
  match l with
  | [] => []
  | Some s :: r => if truthy s then s :: filterBoolean r else filterBoolean r
  | None :: r => filterBoolean r
  end.

Definition labelAdded : jsstring :=
  [0x3c0; 0x386; 32; 42; 0x3bc; 0xb6; 0x201d; 0x3ba; 0xb0; 0x20ac; 42].
Definition labelModified : jsstring :=
  [0x3c0; 0xa0; 32; 42; 0x3bc; 0x3bc; 0xa0; 0x2022; 42].
Definition labelDeleted : jsstring :=
  [0x3c0; 0x201d; 0x384; 32; 42; 0x3bc; 0x201a; 0xad; 0x3bc; 0xa0; 42].

(** [`...${n}... (...)`], the one item standing for all modified
    variables. *)
Definition modifiedVariablesItem (n : N) : jsstring :=
  [0x3bc; 0x3bc; 0xa0; 0x2022; 0x3bb; 32; 0x3bb; 0xb3; 0x20ac; 0x3bc; 32]
    ++ decimal n
    ++ [0x3ba; 0xb0; 32; 40; 0x3bb; 0x2015; 0x388; 0x3bd; 0x2122; 0x2022;
        0x3bc; 0x388; 41].

Definition noChanges : jsstring :=
  [0x3bb; 0xb3; 0x20ac; 0x3ba; 0xb2; 0xbd; 32; 0x3bc; 0x201a; 0xac; 0x3bd;
   0x2022; 0xad; 32; 0x3bc; 0x2014; 0x2020; 0x3bc].

Section Message.

Variable webhook : Webhook.
Variable reportResult : Report.

Definition figmaBase : jsstring :=
  lit "https://www.figma.com/file/" ++ interpolate (file_key webhook).

Definition slackLink (name : jsstring) (nodeId : option jsstring) : jsstring :=
  if truthyOpt nodeId
  then lit "<" ++ figmaBase ++ lit "?node-id=" ++ interpolate nodeId
         ++ lit "|" ++ name ++ lit ">"
  else name.

Definition addedItems : list jsstring :=
  map name (variablesAdded reportResult)
    ++ map (fun s => slackLink (name (style_asset s)) (style_nodeId s))
         (stylesAdded reportResult)
    ++ map (fun c => slackLink (setName c) (nodeId c) ++ BuildReport.countSuffix c)
         (groupedAdded reportResult).

Definition modifiedItems : list jsstring :=
  (if Nat.ltb 0 (List.length (variablesModified reportResult))
   then [modifiedVariablesItem
           (N.of_nat (List.length (variablesModified reportResult)))]
   else [])
    ++ map (fun s => slackLink (name (style_asset s)) (style_nodeId s))
         (stylesModified reportResult)
    ++ map (fun c => slackLink (setName c) (nodeId c) ++ BuildReport.countSuffix c)
         (groupedModified reportResult).

Definition deletedItems : list jsstring :=
  map name (variablesDeleted reportResult)
    ++ map name (stylesDeleted reportResult)
    ++ map (fun c => setName c ++ BuildReport.countSuffix c)
         (groupedDeleted reportResult).

Definition sections : list jsstring :=
  filterBoolean
    [ buildSection labelAdded addedItems;
      buildSection labelModified modifiedItems;
      buildSection labelDeleted deletedItems ].

Definition itemsText : jsstring := trim (join [LF; LF] sections).

(** The text of the third block: [itemsText || "<no changes>"]. *)
Definition bodyText : jsstring :=
  if truthy itemsText then itemsText else noChanges.

End Message.

End NotifySlack.

(** ** 3. fetchFigma: the lookups issued

    The script awaits all lookups jointly; each [fetch] is started while the
    key arrays are mapped, so the requests leave in array order, components
    first.  A computation threads the log of the URLs requested so far; the
    service is an oracle that answers the [n]-th request for a URL. *)

Module FetchFigma.

(** What a lookup comes back with: a parsed body, or an exception with
    its message (a non-ok status, or a network failure). *)
Inductive Answer : Type :=
| Json (meta : option Meta)
| Rejected (message : jsstring).

Definition Net (A : Type) : Type := list jsstring -> A * list jsstring.

Definition ret {A} (a : A) : Net A := fun log => (a, log).

Definition andThen {A B} (m : Net A) (k : A -> Net B) : Net B :=
  fun log => let '(a, log') := m log in k a log'.

Fixpoint mapNet {A B} (f : A -> Net B) (l : list A) : Net (list B) :=
  match l with
  | [] => ret []
  | a :: r =>
      andThen (f a) (fun b => andThen (mapNet f r) (fun bs => ret (b :: bs)))
  end.

Section Service.

Variable service : nat -> jsstring -> Answer.

(** [fetch(url)]: one request. *)
Definition fetch (url : jsstring) : Net Answer :=
  fun log => (service (List.length log) url, log ++ [url]).

Definition figmaFetch (url : jsstring) : Net Answer :=
  fetch (lit "https://api.figma.com" ++ url).

(** [figmaFetch(`${path}${key}`).catch((e) => ({ error: e.message, key }))]. *)
Definition lookupKey (path : jsstring) (key : jsstring) : Net Fetched :=
  andThen (figmaFetch (path ++ key))
    (fun a => match a with
              | Json meta => ret (Body meta)
              | Rejected message => ret (Failure message key)
              end).

Definition componentKeys (webhook : Webhook) : list jsstring :=
  map key (orEmpty (created_components webhook)
             ++ orEmpty (modified_components webhook)).

Definition styleKeys (webhook : Webhook) : list jsstring :=
  map key (orEmpty (created_styles webhook)
             ++ orEmpty (modified_styles webhook)).

Definition fetchFigma (webhook : Webhook) : Net FetchResult :=
  andThen (mapNet (lookupKey (lit "/v1/components/")) (componentKeys webhook))
    (fun componentMetas =>
       andThen (mapNet (lookupKey (lit "/v1/styles/")) (styleKeys webhook))
         (fun styleMetas => ret (mkFetchResult componentMetas styleMetas))).

(** The URL a lookup of [key] requests. *)
Definition componentUrl (key : jsstring) : jsstring :=
  lit "https://api.figma.com" ++ lit "/v1/components/" ++ key.
Definition styleUrl (key : jsstring) : jsstring :=
  lit "https://api.figma.com" ++ lit "/v1/styles/" ++ key.

(** The requests issued by one run, from an empty log. *)
Definition requests (webhook : Webhook) : list jsstring :=
  snd (fetchFigma webhook []).

(** How many requests of a run ask for [url]. *)
Definition lookups (webhook : Webhook) (url : jsstring) : nat :=
  count_occ (list_eq_dec N.eq_dec) (requests webhook) url.

End Service.

End FetchFigma.

(** ** JSON values, as [JSON.parse] returns them *)

(** A number is [mantissa * 2 ^ exponent]; an object is its own
    properties in creation order. *)
Inductive json : Type :=
| JNull
| JBool (b : bool)
| JNumber (mantissa exponent : Z)
| JString (s : jsstring)
| JArray (items : list json)
| JObject (properties : JsObject.object json).

Module Json.

(** Truthiness. *)
Definition truthy (v : json) : bool :=
  match v with
  | JNull => false
  | JBool b => b
  | JNumber mantissa _ => negb (mantissa =? 0)%Z
  | JString s => JsString.truthy s
  | JArray _ | JObject _ => true
  end.

(** [v.k] for a property name [k] that no prototype defines and a [v] other
    than [null]: [None] is [undefined]. *)
Definition field (v : json) (k : jsstring) : option json :=
  match v with
  | JObject properties => JsObject.getOwn properties k
  | _ => None
  end.

(** [x === "literal"]. *)
Definition isString (x : option json) (literal : jsstring) : bool :=
  match x with
  | Some (JString s) => eqb s literal
  | _ => false
  end.

(** The elements of an array-like under their indices [0], [1], ... *)
Definition indexed (l : list json) : JsObject.object json :=
  combine (map (fun i => decimal (N.of_nat i)) (seq 0 (List.length l))) l.

(** The own enumerable properties that an object spread copies from [v],
    in the order in which it copies them. *)
Definition ownEnumerable (v : json) : JsObject.object json :=
  match v with
  | JObject properties => JsObject.ownProperties properties
  | JArray items => indexed items
  | JString s => indexed (map (fun c => JString [c]) s)
  | JNull | JBool _ | JNumber _ _ => []
  end.

(** [{ ...a, ...b }], given the properties copied from [a] and from [b]. *)
Definition spread (copied : JsObject.object json) : JsObject.object json :=
  fold_left (fun o p => JsObject.set o (fst p) (snd p)) copied JsObject.empty.

End Json.

(** ** 1. parseWebhook *)

Module ParseWebhook.

Inductive outcome : Type :=
| TypeError                                  (* a property read on [null] *)
| Null                                       (* [return null] *)
| Payload (webhook : JsObject.object json).

Definition PING : jsstring := lit "PING".
Definition passcode : jsstring := lit "ids-changelog-2026".

(** [changes || {}]. *)
Definition orEmptyObject (changes : option json) : json :=
  match changes with
  | Some v => if Json.truthy v then v else JObject []
  | None => JObject []
  end.

(** [parseWebhook], from the value [raw] that [JSON.parse] returned. *)
Definition parseWebhook (raw : json) : outcome :=
  match raw with
  | JNull => TypeError
  | _ =>
      if Json.isString (Json.field raw (lit "event_type")) PING then Null
      else if negb (Json.isString (Json.field raw (lit "passcode")) passcode)
      then Null
      else
        let changes := Json.field raw (lit "changes") in
        let rest := filter (fun p => negb (eqb (fst p) (lit "changes")))
                      (Json.ownEnumerable raw) in
        Payload (Json.spread (rest ++ Json.ownEnumerable (orEmptyObject changes)))
  end.

End ParseWebhook.

(** ** The payload as the later stages read it

    [fetchFigma], [buildReport] and [notifySlack] read a fixed set of
    fields from the object that [parseWebhook] returns.  [view] collects
    what they find there: a list field that is [undefined] or falsy counts
    as not carried ([x || []]), an array must hold objects with a string
    [name] and a string [key].  [None] marks a payload on which those reads
    would meet a value of another type; the later stages are not modelled
    there. *)

Module Payload.

Definition asset (v : json) : option Asset :=
  match Json.field v (lit "name"), Json.field v (lit "key") with
  | Some (JString name), Some (JString key) => Some (mkAsset name key)
  | _, _ => None
  end.

Fixpoint assets (l : list json) : option (list Asset) :=
  match l with
  | [] => Some []
  | v :: r =>
      match asset v, assets r with
      | Some a, Some rest => Some (a :: rest)
      | _, _ => None
      end
  end.

Definition assetList (x : option json) : option (option (list Asset)) :=
  match x with
  | None => Some None
  | Some (JArray items) => option_map Some (assets items)
  | Some v => if Json.truthy v then None else Some None
  end.

Definition fileKey (x : option json) : option (option jsstring) :=
  match x with
  | None => Some None
  | Some (JString s) => Some (Some s)
  | Some _ => None
  end.

Definition timestampOf (x : option json) : option Timestamp :=
  match x with
  | None | Some JNull | Some (JBool false) => Some TsAbsent
  | Some (JNumber ms 0) => Some (TsNumber ms)
  | Some (JString s) => Some (TsString s)
  | Some _ => None
  end.

(** [webhook.triggered_by?.handle]. *)
Definition handleOf (x : option json) : option (option jsstring) :=
  match x with
  | Some (JObject properties) =>
      match JsObject.getOwn properties (lit "handle") with
      | None => Some None
      | Some (JString s) => Some (Some s)
      | Some _ => None
      end
  | _ => Some None
  end.

Definition view (webhook : JsObject.object json) : option Webhook :=
  let get := JsObject.getOwn webhook in
  match assetList (get (lit "created_variables")),
        assetList (get (lit "deleted_variables")),
        assetList (get (lit "modified_variables")),
        assetList (get (lit "created_styles")),
        assetList (get (lit "deleted_styles")),
        assetList (get (lit "modified_styles")),
        assetList (get (lit "created_components")),
        assetList (get (lit "deleted_components")),
        assetList (get (lit "modified_components")),
        fileKey (get (lit "file_key")),
        timestampOf (get (lit "timestamp")),
        handleOf (get (lit "triggered_by")) with
  | Some cv, Some dv, Some mv, Some cs, Some ds, Some ms,
    Some cc, Some dc, Some mc, Some fk, Some ts, Some h =>
      Some (mkWebhook cv dv mv cs ds ms cc dc mc fk ts h)
  | _, _, _, _, _, _, _, _, _, _, _, _ => None
  end.

End Payload.

(** ** The run: [main], and the calls of [writeGitHub] and [notifySlack]

    A run leaves a trace of the requests it sends.  The collaborators are
    oracles: the Figma service as in [fetchFigma]; GitHub answers a call
    with the [sha] the script reads from the response, or makes it throw;
    Slack accepts a message or not.  [base64] stands for
    [Buffer.from(text).toString("base64")]. *)

Module Main.

(** The calls of [writeGitHub], with the arguments the script passes. *)
Inductive call : Type :=
| GetRef (owner repo : option jsstring) (ref : jsstring)
| GetCommit (owner repo : option jsstring) (commit_sha : jsstring)
| CreateBlob (owner repo : option jsstring) (content encoding : jsstring)
| CreateTree (owner repo : option jsstring) (base_tree path mode type sha : jsstring)
| CreateCommit (owner repo : option jsstring) (message tree : jsstring)
    (parents : list jsstring)
| UpdateRef (owner repo : option jsstring) (ref sha : jsstring).

Inductive effect : Type :=
| Figma (url : jsstring)
| GitHub (c : call)
| Slack (header body : jsstring).

(** A stage: it extends the trace, and returns or throws ([None]). *)
Definition IO (A : Type) : Type := list effect -> option A * list effect.

Definition ret {A} (a : A) : IO A := fun trace => (Some a, trace).

Definition throw {A} : IO A := fun trace => (None, trace).

Definition andThen {A B} (m : IO A) (k : A -> IO B) : IO B :=
  fun trace =>
    match m trace with
    | (Some a, trace') => k a trace'
    | (None, trace') => (None, trace')
    end.

(** [s.split("/")]. *)
Fixpoint splitSlash (s : jsstring) : list jsstring :=
  match s with
  | [] => [[]]
  | c :: t =>
      if c =? 47 then [] :: splitSlash t
      else match splitSlash t with
           | h :: r => (c :: h) :: r
           | [] => [[c]]
           end
  end.

Section Run.

(** The environment of the run. *)
Variable WEBHOOK_PAYLOAD : option json.     (* [None]: [JSON.parse] throws *)
Variable changelogFile : option jsstring.   (* [None]: [readFileSync] throws *)
Variable GITHUB_REPOSITORY : option jsstring.
Variable service : nat -> jsstring -> FetchFigma.Answer.
Variable github : call -> option jsstring.
Variable slack : jsstring -> jsstring -> bool.
Variable base64 : jsstring -> jsstring.
Variable clock : Z.
Variable Date_parse : jsstring -> option Z.

(** [const [owner, repo] = process.env.GITHUB_REPOSITORY.split("/")]. *)
Definition ownerAndRepo : IO (option jsstring * option jsstring) :=
  match GITHUB_REPOSITORY with
  | None => throw
  | Some s => let parts := splitSlash s in ret (nth_error parts 0, nth_error parts 1)
  end.

Definition octokit (c : call) : IO jsstring :=
  fun trace =>
    (github c, trace ++ [GitHub c]).

(** 5. writeGitHub *)
Definition writeGitHub (readResult : ReadResult) (reportResult : Report) : IO unit :=
  andThen ownerAndRepo (fun '(owner, repo) =>
  let branch := lit "main" in
  let updatedChangelog :=
    WriteGitHub.updatedChangelog (changelogContent readResult)
      (changelogMd reportResult) in
  andThen (octokit (GetRef owner repo (lit "heads/" ++ branch))) (fun latestCommitSha =>
  andThen (octokit (GetCommit owner repo latestCommitSha)) (fun baseTree =>
  andThen (octokit (CreateBlob owner repo (base64 updatedChangelog) (lit "base64")))
    (fun blob =>
  andThen (octokit (CreateTree owner repo baseTree (lit "changelog/CHANGELOG.md")
                      (lit "100644") (lit "blob") blob)) (fun tree =>
  andThen (octokit (CreateCommit owner repo (newVersion reportResult) tree
                      [latestCommitSha])) (fun commit =>
  andThen (octokit (UpdateRef owner repo (lit "heads/" ++ branch) commit))
    (fun _ => ret tt))))))).

(** The text of the first block:
    [`*<${changelogUrl}|${newVersion}>* <sep> ${deployer}`]. *)
Definition headerText (owner repo : option jsstring) (webhook : Webhook)
  (reportResult : Report) : jsstring :=
  let changelogUrl :=
    lit "https://github.com/" ++ interpolate owner ++ lit "/" ++ interpolate repo
      ++ lit "/blob/main/changelog/CHANGELOG.md" in
  let deployer :=
    if truthyOpt (triggered_by_handle webhook)
    then interpolate (triggered_by_handle webhook) else lit "Unknown" in
  let versionLink := lit "<" ++ changelogUrl ++ lit "|" ++ newVersion reportResult
                       ++ lit ">" in
  lit "*" ++ versionLink ++ lit "* " ++ [0x392; 0xb7; 32] ++ deployer.

(** 6. notifySlack *)
Definition notifySlack (webhook : Webhook) (reportResult : Report) : IO unit :=
  andThen ownerAndRepo (fun '(owner, repo) =>
  let header := headerText owner repo webhook reportResult in
  let body := NotifySlack.bodyText webhook reportResult in
  fun trace =>
    (if slack header body then Some tt else None, trace ++ [Slack header body])).

(** 3. fetchFigma, its requests added to the trace. *)
Definition fetchFigma (webhook : Webhook) : IO FetchResult :=
  fun trace =>
    let '(fetchResult, log) := FetchFigma.fetchFigma service webhook [] in
    (Some fetchResult, trace ++ map Figma log).

Definition buildReport (webhook : Webhook) (readResult : ReadResult)
  (fetchResult : FetchResult) : IO Report :=
  match BuildReport.buildReport webhook readResult fetchResult clock Date_parse with
  | Ok reportResult => ret reportResult
  | Err _ => throw
  end.

Definition readGitHub : IO ReadResult :=
  match changelogFile with
  | Some changelogContent => ret (ReadGitHub.readGitHub changelogContent)
  | None => throw
  end.

(** The stages that follow [parseWebhook]. *)
Definition stages (webhook : Webhook) : IO unit :=
  andThen readGitHub (fun readResult =>
  andThen (fetchFigma webhook) (fun fetchResult =>
  andThen (buildReport webhook readResult fetchResult) (fun reportResult =>
  andThen (writeGitHub readResult reportResult) (fun _ =>
  notifySlack webhook reportResult)))).

(** What a run amounts to: the requests sent, and the exit code. *)
Record outcome : Type := mkOutcome {
  effects : list effect;
  exitCode : N
}.

Definition finish (run : option unit * list effect) : outcome :=
  match run with
  | (Some _, trace) => mkOutcome trace 0
  | (None, trace) => mkOutcome trace 1
  end.

(** [main().catch(...)]; [None] where the payload is outside [view]. *)
Definition main : option outcome :=
  match WEBHOOK_PAYLOAD with
  | None => Some (mkOutcome [] 1)
  | Some raw =>
      match ParseWebhook.parseWebhook raw with
      | ParseWebhook.TypeError => Some (mkOutcome [] 1)
      | ParseWebhook.Null => Some (mkOutcome [] 0)
      | ParseWebhook.Payload object =>
          match Payload.view object with
          | Some webhook => Some (finish (stages webhook []))
          | None => None
          end
      end
  end.

End Run.

End Main.

(** * Vocabulary of the statements, and sample inputs *)

(** Three runs of digits separated by dots. *)
Definition versionShaped (v : jsstring) : Prop :=
  exists a b c,
    v = a ++ [DOT] ++ b ++ [DOT] ++ c
    /\ isDigitRun a = true /\ isDigitRun b = true /\ isDigitRun c = true.

(** A payload that reports no change at all. *)
Definition quietWebhook : Webhook :=
  mkWebhook None None None None None None None None None
    (Some (lit "FILE")) (TsString (lit "2026-01-05T03:00:00Z"))
    (Some (lit "june")).

Definition noMetas : FetchResult := mkFetchResult [] [].

Definition withDeletedVariables (l : list Asset) (w : Webhook) : Webhook :=
  mkWebhook (created_variables w) (Some l) (modified_variables w)
    (created_styles w) (deleted_styles w) (modified_styles w)
    (created_components w) (deleted_components w) (modified_components w)
    (file_key w) (timestamp w) (triggered_by_handle w).

Definition withCreatedVariables (l : list Asset) (w : Webhook) : Webhook :=
  mkWebhook (Some l) (deleted_variables w) (modified_variables w)
    (created_styles w) (deleted_styles w) (modified_styles w)
    (created_components w) (deleted_components w) (modified_components w)
    (file_key w) (timestamp w) (triggered_by_handle w).

Definition spacing : Asset := mkAsset (lit "spacing/4") (lit "V1").

Definition withModified (mv ms mc : option (list Asset)) (w : Webhook) : Webhook :=
  mkWebhook (created_variables w) (deleted_variables w) mv
    (created_styles w) (deleted_styles w) ms
    (created_components w) (deleted_components w) mc
    (file_key w) (timestamp w) (triggered_by_handle w).



(** A [Date.parse] that knows the one date string of the examples. *)
Definition parseSample (s : jsstring) : option Z :=
  if eqb s (lit "2026-01-05T03:00:00Z") then Some 1767582000000%Z
  else if eqb s (lit "2026-01-05T16:30:00Z") then Some 1767630600000%Z
  else None.


Definition button : Asset := mkAsset (lit "Button/Primary") (lit "K1").

Definition withComponents (created deleted modified : option (list Asset))
  (w : Webhook) : Webhook :=
  mkWebhook (created_variables w) (deleted_variables w) (modified_variables w)
    (created_styles w) (deleted_styles w) (modified_styles w)
    created deleted modified
    (file_key w) (timestamp w) (triggered_by_handle w).

(** Index [i] of [s] begins a line: it is the start of the text or follows
    a line terminator.  [bol] says what holds at index 0. *)
Definition beginsLineFrom (bol : bool) (s : jsstring) (i : nat) : bool :=
  match i with
  | O => bol
  | S j => match nth_error s j with
           | Some c => isLineTerminator c
           | None => false
           end
  end.

(** A line that starts with [## ] and a decimal digit begins at index [i]. *)
Definition headingAtFrom (bol : bool) (s : jsstring) (i : nat) : bool :=
  beginsLineFrom bol s i && WriteGitHub.headingHere (skipn i s).



Definition sampleChangelog : jsstring :=
  lit "# Changelog" ++ [LF; LF] ++ lit "## 1.2.3 - 2026-01-05" ++ [LF; LF]
    ++ lit "### x" ++ [LF].


Definition variants (n : list (string * string)) : list Component :=
  map (fun p => mkComponent (mkAsset (lit (fst p)) (lit (fst p))) None
                  (lit (snd p)) None) n.

(** [l] is in ascending order of [rank]. *)
Definition ascending {A} (rank : A -> N) : list A -> Prop :=
  Sorted.Sorted (fun a b => rank a <= rank b).

(** Every property of the accumulator is stored under the grouping key of
    its entry, no key occurs twice and none is an inherited name. *)
Definition wellKeyed (acc : JsObject.object Component) : Prop :=
  NoDup (map fst acc)
  /\ Forall (fun p => BuildReport.groupKey (snd p) = fst p
                      /\ JsObject.isInherited (fst p) = false) acc.

Definition mem (k : jsstring) (l : list jsstring) : bool := existsb (eqb k) l.

(** The keys of [l] in the order of their first occurrence, those already
    [seen] left out. *)
Fixpoint firstOccurrences (seen l : list jsstring) : list jsstring :=
  match l with
  | [] => []
  | k :: r =>
      if mem k seen then firstOccurrences seen r
      else k :: firstOccurrences (seen ++ [k]) r
  end.

Definition notInherited (k : jsstring) : bool := negb (JsObject.isInherited k).

(** Every grouping key of [items] can be a property of the accumulator. *)
Definition storable (items : list Component) : Prop :=
  forall c, In c items -> JsObject.isInherited (BuildReport.groupKey c) = false.

Definition iconSizes : list Component :=
  variants [("a", "Icon"); ("b", "24"); ("c", "16"); ("d", "Icon")]%string.

(** [{ ...e, variantCount: 1 }] under the key of [e]. *)
Definition restart (p : jsstring * Component) : jsstring * Component :=
  (fst p, BuildReport.firstVariant (snd p)).

(** The sum of [variantCount] over a list of entries. *)
Definition sumCounts (l : list Component) : N :=
  fold_right (fun e s => match variantCount e with
                         | Some n => n + s
                         | None => s
                         end) 0 l.

(** The first record of [items] with grouping key [k]. *)
Definition firstWithKey (k : jsstring) (items : list Component) : option Component :=
  find (fun c => eqb (BuildReport.groupKey c) k) items.

(** [e] carries the fields of [c] and a count of at least 1. *)
Definition standsFor (e c : Component) : Prop :=
  exists n, e = mkComponent (asset c) (nodeId c) (setName c) (Some n) /\ 1 <= n.

(** The records that grouping can store. *)
Definition stored (items : list Component) : list Component :=
  filter (fun c => notInherited (BuildReport.groupKey c)) items.

Record groupedFrom (items : list Component) (acc : JsObject.object Component)
  : Prop := mkGroupedFrom {
  gf_keyed : wellKeyed acc;
  gf_total : sumCounts (map snd acc) = N.of_nat (List.length (stored items));
  gf_first : forall k e, In (k, e) acc ->
               exists c, firstWithKey k items = Some c /\ standsFor e c;
  gf_keys : forall c, In c (stored items) ->
               In (BuildReport.groupKey c) (map fst acc)
}.

(** The payload and the metadata of the worked example: one created
    style, two modified variants of one component set. *)
Definition exampleWebhook : Webhook :=
  mkWebhook None None None
    (Some [mkAsset (lit "Primary") (lit "S1")]) None None
    None None
    (Some [mkAsset (lit "Button/S") (lit "C1"); mkAsset (lit "Button/L") (lit "C2")])
    (Some (lit "FILE")) (TsString (lit "2026-01-05T16:30:00Z"))
    (Some (lit "june")).

Definition exampleMetas : FetchResult :=
  mkFetchResult
    [ Body (Some (mkMeta (lit "C1") (Some (lit "1:2")) (Some (lit "Button")) None));
      Body (Some (mkMeta (lit "C2") (Some (lit "1:3")) None (Some (lit "Button")))) ]
    [ Body (Some (mkMeta (lit "S1") (Some (lit "10:1")) None None)) ].

(** A deleted component whose name is a method of every object. *)
Definition constructorAsset : Asset := mkAsset (lit "constructor") (lit "K9").

(** [`${a}.${b}.${c}`] for three natural numbers printed in decimal. *)
Definition renderVersion (a b c : N) : jsstring :=
  decimal a ++ [DOT] ++ decimal b ++ [DOT] ++ decimal c.

(** A version whose three components are safe integers, and their
    values. *)
Definition safeVersion (v : jsstring) (a b c : N) : Prop :=
  exists da db dc,
    v = da ++ [DOT] ++ db ++ [DOT] ++ dc
    /\ isDigitRun da = true /\ isDigitRun db = true /\ isDigitRun dc = true
    /\ digitsValue da = a /\ digitsValue db = b /\ digitsValue dc = c
    /\ a <= MAX_SAFE_INTEGER /\ b <= MAX_SAFE_INTEGER /\ c <= MAX_SAFE_INTEGER.

(** Precedence of versions: major first, then minor, then patch. *)
Definition versionLt (v v' : N * N * N) : Prop :=
  let '(a, b, c) := v in
  let '(a', b', c') := v' in
  a < a' \/ (a = a' /\ (b < b' \/ (b = b' /\ c < c'))).

(** Whether the position after [pre] begins a line, [bol] telling it for
    the position before [pre]. *)
Definition lineStartAfter (bol : bool) (pre : jsstring) : bool :=
  fold_left (fun _ c => isLineTerminator c) pre bol.

(** [/^## (\d+\.\d+\.\d+)/] matched at the head of [s]: the capture. *)
Definition versionHere (s : jsstring) : option jsstring :=
  match ReadGitHub.afterHashes s with
  | Some r => ReadGitHub.matchVersion r
  | None => None
  end.

(** The version captured at index [i] of [s], when a version heading
    begins there. *)
Definition versionAtFrom (bol : bool) (s : jsstring) (i : nat) : option jsstring :=
  if beginsLineFrom bol s i then versionHere (skipn i s) else None.

Definition versionAt : jsstring -> nat -> option jsstring := versionAtFrom true.

(** The slot that the answer to a lookup of [key] fills. *)
Definition slot (answer : FetchFigma.Answer) (key : jsstring) : Fetched :=
  match answer with
  | FetchFigma.Json meta => Body meta
  | FetchFigma.Rejected message => Failure message key
  end.

(** The slots of the keys [keys], looked up under [path] as the requests
    number [first], [first + 1], ... *)
Definition slots (service : nat -> jsstring -> FetchFigma.Answer)
  (path : jsstring) (first : nat) (keys : list jsstring) : list Fetched :=
  map (fun p => slot (service (fst p) (lit "https://api.figma.com" ++ path ++ snd p))
                  (snd p))
    (combine (seq first (List.length keys)) keys).

(** A service that rejects every lookup. *)
Definition unreachable (_ : nat) (_ : jsstring) : FetchFigma.Answer :=
  FetchFigma.Rejected (lit "fetch failed").

(** A service that knows one node per key. *)
Definition sampleService (_ : nat) (url : jsstring) : FetchFigma.Answer :=
  if eqb url (lit "https://api.figma.com/v1/styles/S1")
  then FetchFigma.Json (Some (mkMeta (lit "S1") (Some (lit "10:1")) None None))
  else if eqb url (lit "https://api.figma.com/v1/components/C1")
  then FetchFigma.Json (Some (mkMeta (lit "C1") (Some (lit "1:2")) (Some (lit "Button")) None))
  else FetchFigma.Rejected (lit "Figma API 404").

(** A service that answers every lookup with a node named after the key. *)
Definition echoMeta (k : jsstring) : Meta :=
  mkMeta k (Some (lit "1:" ++ k)) None None.

Definition echoService (_ : nat) (url : jsstring) : FetchFigma.Answer :=
  match nth_error url 25 with
  | Some 99 => FetchFigma.Json (Some (echoMeta (skipn 36 url)))
  | _ => FetchFigma.Json (Some (echoMeta (skipn 32 url)))
  end.

(** How many records of [items] have the grouping key [k]. *)
Definition withKey (k : jsstring) (items : list Component) : nat :=
  List.length (filter (fun c => eqb (BuildReport.groupKey c) k) items).

(** Every entry of the accumulator counts the records with its key. *)
Definition countedFrom (items : list Component) (acc : JsObject.object Component)
  : Prop :=
  forall k e, In (k, e) acc -> variantCount e = Some (N.of_nat (withKey k items)).

(** A payload with a top-level [file_key] and a [changes] object. *)
Definition samplePayload : json :=
  JObject
    [ (lit "event_type", JString (lit "LIBRARY_PUBLISH"));
      (lit "passcode", JString (lit "ids-changelog-2026"));
      (lit "file_key", JString (lit "FILE"));
      (lit "changes",
        JObject [ (lit "file_key", JString (lit "OTHER"));
                  (lit "created_styles", JArray []) ]) ].

(** The environment of a run, bundled. *)
Record Environment : Type := mkEnvironment {
  env_payload : option json;
  env_changelog : option jsstring;
  env_repository : option jsstring;
  env_service : nat -> jsstring -> FetchFigma.Answer;
  env_github : Main.call -> option jsstring;
  env_slack : jsstring -> jsstring -> bool;
  env_base64 : jsstring -> jsstring;
  env_clock : Z;
  env_Date_parse : jsstring -> option Z
}.

Definition runMain (e : Environment) : option Main.outcome :=
  Main.main (env_payload e) (env_changelog e) (env_repository e) (env_service e)
    (env_github e) (env_slack e) (env_base64 e) (env_clock e) (env_Date_parse e).

Definition runStages (e : Environment) (webhook : Webhook)
  : option unit * list Main.effect :=
  Main.stages (env_changelog e) (env_repository e) (env_service e)
    (env_github e) (env_slack e) (env_base64 e) (env_clock e) (env_Date_parse e)
    webhook [].

(** The trace holds a call that moved the branch: an [updateRef] that
    GitHub answered. *)
Definition branchMoved (e : Environment) (trace : list Main.effect) : Prop :=
  exists owner repo ref sha,
    In (Main.GitHub (Main.UpdateRef owner repo ref sha)) trace
    /\ env_github e (Main.UpdateRef owner repo ref sha) <> None.

(** The trace holds a message sent to Slack. *)
Definition slackContacted (trace : list Main.effect) : Prop :=
  exists header body, In (Main.Slack header body) trace.

Definition isFigma (x : Main.effect) : bool :=
  match x with Main.Figma _ => true | _ => false end.

Definition isGitHub (x : Main.effect) : bool :=
  match x with Main.GitHub _ => true | _ => false end.

Definition isSlack (x : Main.effect) : bool :=
  match x with Main.Slack _ _ => true | _ => false end.

(** A GitHub that answers every call, a Slack that accepts or refuses. *)
Definition sampleGitHub (c : Main.call) : option jsstring :=
  match c with
  | Main.GetRef _ _ _ => Some (lit "sha-head")
  | Main.GetCommit _ _ _ => Some (lit "sha-tree")
  | Main.CreateBlob _ _ _ _ => Some (lit "sha-blob")
  | Main.CreateTree _ _ _ _ _ _ _ => Some (lit "sha-new-tree")
  | Main.CreateCommit _ _ _ _ _ => Some (lit "sha-commit")
  | Main.UpdateRef _ _ _ _ => Some (lit "sha-commit")
  end.

Definition sampleEnvironment (payload : json) (slackOk : bool) : Environment :=
  mkEnvironment (Some payload) (Some sampleChangelog) (Some (lit "june/ids"))
    sampleService sampleGitHub (fun _ _ => slackOk) (fun text => text)
    0%Z parseSample.

(** A PING, and a publication of one created style. *)
Definition pingPayload : json :=
  JObject [ (lit "event_type", JString (lit "PING"));
            (lit "passcode", JString (lit "ids-changelog-2026")) ].

Definition publishPayload : json :=
  JObject
    [ (lit "event_type", JString (lit "LIBRARY_PUBLISH"));
      (lit "passcode", JString (lit "ids-changelog-2026"));
      (lit "file_key", JString (lit "FILE"));
      (lit "timestamp", JString (lit "2026-01-05T16:30:00Z"));
      (lit "triggered_by", JObject [ (lit "handle", JString (lit "june")) ]);
      (lit "created_styles",
        JArray [ JObject [ (lit "key", JString (lit "S1"));
                           (lit "name", JString (lit "Primary")) ] ]) ].

(** A run either sent nothing, or went through the stages for the payload
    it accepted. *)
Definition effects_nil_or_stages (e : Environment) (out : Main.outcome) : Prop :=
  Main.effects out = []
  \/ exists webhook, out = Main.finish (runStages e webhook).

(** * Properties *)

(** ** The runtime model on known values *)

Example toString_2_60 :
  toString (Fin (2 ^ 60)) = lit "1152921504606847000".
Proof. vm_compute. reflexivity. Qed.

Example toString_2_70 :
  toString (Fin (2 ^ 70)) = lit "1.1805916207174113e+21".
Proof. vm_compute. reflexivity. Qed.

Example toString_1e21 :
  toString (round53 (10 ^ 21)) = lit "1e+21".
Proof. vm_compute. reflexivity. Qed.

Example toString_safe_is_shortest :
  decimal (shortest 9007199254740991) = decimal 9007199254740991
  /\ decimal (shortest 1200) = decimal 1200
  /\ decimal (shortest (2 ^ 53)) = decimal (2 ^ 53).
Proof. vm_compute. repeat split; reflexivity. Qed.

Example round53_tie_even :
  round53 (2 ^ 53 + 1) = Fin (2 ^ 53) /\ round53 (2 ^ 53 + 3) = Fin (2 ^ 53 + 4).
Proof. vm_compute. split; reflexivity. Qed.

Example toISOString_epoch :
  JsDate.toISOString 0 = lit "1970-01-01T00:00:00.000Z".
Proof. vm_compute. reflexivity. Qed.

Example toISOString_leap :
  JsDate.toISOString 1709251199999 = lit "2024-02-29T23:59:59.999Z".
Proof. vm_compute. reflexivity. Qed.

Example toISOString_before_epoch :
  JsDate.toISOString (-1) = lit "1969-12-31T23:59:59.999Z".
Proof. vm_compute. reflexivity. Qed.

Example toISOString_max :
  JsDate.toISOString 8640000000000000 = lit "+275760-09-13T00:00:00.000Z".
Proof. vm_compute. reflexivity. Qed.

Example readGitHub_finds_first_version :
  currentVersion
    (ReadGitHub.readGitHub
       (lit "# Changelog" ++ [LF; LF] ++ lit "## 1.2.3 - 2026-01-05" ++ [LF]
          ++ lit "## 1.2.2 - 2026-01-01" ++ [LF]))
  = lit "1.2.3".
Proof. vm_compute. reflexivity. Qed.

Example readGitHub_default_version :
  currentVersion (ReadGitHub.readGitHub (lit "# Changelog  ## 1.2.3"))
  = lit "0.0.0".
Proof. vm_compute. reflexivity. Qed.

(** ** Strings and Numbers *)

Lemma eqb_eq (s t : jsstring) : eqb s t = true <-> s = t.
Proof.
  unfold eqb. destruct (list_eq_dec N.eq_dec s t); split; congruence.
Qed.

Lemma eqb_refl (s : jsstring) : eqb s s = true.
Proof. now apply eqb_eq. Qed.

Lemma eqb_neq (s t : jsstring) : eqb s t = false <-> s <> t.
Proof.
  unfold eqb. destruct (list_eq_dec N.eq_dec s t); split; congruence.
Qed.

Lemma eqb_sym (s t : jsstring) : eqb s t = eqb t s.
Proof.
  destruct (eqb t s) eqn:E.
  - apply eqb_eq in E. subst. apply eqb_refl.
  - apply eqb_neq. apply eqb_neq in E. congruence.
Qed.

Lemma splitDot_nonempty (s : jsstring) : splitDot s <> [].
Proof.
  destruct s as [|c t]; simpl; [discriminate|].
  destruct (c =? DOT); [discriminate|].
  destruct (splitDot t); discriminate.
Qed.

Lemma splitDot_digits_dot (d rest : jsstring) :
  forallb isDigit d = true ->
  splitDot (d ++ DOT :: rest) = d :: splitDot rest.
Proof.
  induction d as [|c d IH]; intros Hd.
  - simpl. reflexivity.
  - simpl in Hd. apply andb_prop in Hd as [Hc Hd].
    cbn [app splitDot]. rewrite (IH Hd).
    destruct (c =? DOT) eqn:E; [|reflexivity].
    apply N.eqb_eq in E. subst c. discriminate Hc.
Qed.

Lemma splitDot_digits (d : jsstring) :
  forallb isDigit d = true -> splitDot d = [d].
Proof.
  induction d as [|c d IH]; intros Hd; [reflexivity|].
  simpl in Hd. apply andb_prop in Hd as [Hc Hd].
  cbn [splitDot]. rewrite (IH Hd).
  destruct (c =? DOT) eqn:E; [|reflexivity].
  apply N.eqb_eq in E. subst c. discriminate Hc.
Qed.

Lemma isDigitRun_digits (d : jsstring) :
  isDigitRun d = true -> forallb isDigit d = true.
Proof. unfold isDigitRun. intros H. now apply andb_prop in H. Qed.

Lemma round53_exact (v : N) : v < 2 ^ 53 -> round53 v = Fin v.
Proof.
  intros H. unfold round53.
  destruct (N.ltb_spec v (2 ^ 53)) as [_|H']; [reflexivity|].
  exfalso. apply (N.lt_irrefl v). eapply N.lt_le_trans; eassumption.
Qed.

Lemma pow_2_53 : 2 ^ 53 = 9007199254740992.
Proof. reflexivity. Qed.

Lemma succ_safe (n : N) : n <= MAX_SAFE_INTEGER -> succ (Fin n) = Fin (n + 1).
Proof.
  unfold MAX_SAFE_INTEGER. rewrite pow_2_53. intros H. cbn [succ].
  destruct (N.eq_dec (n + 1) 9007199254740992) as [E|E].
  - rewrite E. vm_compute. reflexivity.
  - apply round53_exact. rewrite pow_2_53. lia.
Qed.

Lemma toString_exact (n : N) : n <= 2 ^ 53 -> toString (Fin n) = decimal n.
Proof.
  intros H. unfold toString.
  destruct (N.leb_spec n (2 ^ 53)) as [_|H']; [reflexivity|].
  exfalso. apply (N.lt_irrefl n). eapply N.le_lt_trans; eassumption.
Qed.

Lemma Number_safe (d : jsstring) :
  isDigitRun d = true -> digitsValue d <= MAX_SAFE_INTEGER ->
  Number d = Some (Fin (digitsValue d)).
Proof.
  intros Hd Hs. unfold Number. rewrite Hd. f_equal.
  apply round53_exact. unfold MAX_SAFE_INTEGER in Hs. rewrite pow_2_53 in *. lia.
Qed.

(** ** The version that [readGitHub] hands over *)

Lemma digitRun_digits (s : jsstring) :
  forallb isDigit (fst (ReadGitHub.digitRun s)) = true.
Proof.
  induction s as [|c t IH]; [reflexivity|].
  cbn [ReadGitHub.digitRun]. destruct (isDigit c) eqn:D; [|reflexivity].
  destruct (ReadGitHub.digitRun t) as [d r]. cbn [fst forallb] in *.
  now rewrite D, IH.
Qed.

Lemma digitRun_isDigitRun (s d r : jsstring) :
  ReadGitHub.digitRun s = (d, r) -> d <> [] -> isDigitRun d = true.
Proof.
  intros E Hd. pose proof (digitRun_digits s) as H. rewrite E in H.
  cbn [fst] in H. unfold isDigitRun. rewrite H.
  destruct d; [contradiction|reflexivity].
Qed.

Lemma matchVersion_shaped (s v : jsstring) :
  ReadGitHub.matchVersion s = Some v -> versionShaped v.
Proof.
  unfold ReadGitHub.matchVersion.
  destruct (ReadGitHub.digitRun s) as [a r0] eqn:Ea.
  destruct a as [|a0 a]; [discriminate|].
  destruct r0 as [|c1 r1]; [discriminate|].
  destruct (c1 =? DOT); [|discriminate].
  destruct (ReadGitHub.digitRun r1) as [b r] eqn:Eb.
  destruct b as [|b0 b]; [discriminate|].
  destruct r as [|c2 r2]; [discriminate|].
  destruct (c2 =? DOT); [|discriminate].
  destruct (ReadGitHub.digitRun r2) as [c r3] eqn:Ec.
  destruct c as [|c0 c]; [discriminate|].
  intros [= <-]. exists (a0 :: a), (b0 :: b), (c0 :: c).
  split; [reflexivity|].
  repeat split; eapply digitRun_isDigitRun; try eassumption; discriminate.
Qed.

Lemma versionMatch_shaped (s : jsstring) :
  forall bol v, ReadGitHub.versionMatch bol s = Some v -> versionShaped v.
Proof.
  induction s as [|c t IH]; intros bol v; cbn [ReadGitHub.versionMatch].
  - destruct bol; cbn; discriminate.
  - destruct (if bol then
                match ReadGitHub.afterHashes (c :: t) with
                | Some r => ReadGitHub.matchVersion r
                | None => None
                end
              else None) as [v'|] eqn:H.
    + intros [= <-]. destruct bol; [|discriminate].
      destruct (ReadGitHub.afterHashes (c :: t)); [|discriminate].
      now apply matchVersion_shaped in H.
    + apply IH.
Qed.

(** Whatever the changelog holds, the current version is three runs of
    digits: [buildReport] always finds its three Numbers. *)
Lemma readGitHub_versionShaped (content : jsstring) :
  versionShaped (currentVersion (ReadGitHub.readGitHub content)).
Proof.
  unfold ReadGitHub.readGitHub. cbn [currentVersion].
  destruct (ReadGitHub.versionMatch true content) as [v|] eqn:E.
  - now apply versionMatch_shaped in E.
  - exists (lit "0"), (lit "0"), (lit "0"). repeat split.
Qed.

Lemma versionParts_defined (r : ReadResult) :
  versionShaped (currentVersion r) -> BuildReport.versionParts r <> None.
Proof.
  intros [a [b [c [E [Ha [Hb Hc]]]]]]. unfold BuildReport.versionParts.
  rewrite E. cbn [app].
  rewrite (splitDot_digits_dot a _ (isDigitRun_digits _ Ha)).
  rewrite (splitDot_digits_dot b _ (isDigitRun_digits _ Hb)).
  rewrite (splitDot_digits c (isDigitRun_digits _ Hc)).
  cbn [map]. unfold Number. rewrite Ha, Hb, Hc. discriminate.
Qed.

(** ** The version bump *)

Section VersionBump.

Variable webhook : Webhook.
Variable readResult : ReadResult.
Variable fetchResult : FetchResult.

(** The previous version, as the three digit runs of the heading. *)
Variables dmajor dminor dpatch : jsstring.

Hypothesis major_digits : isDigitRun dmajor = true.
Hypothesis minor_digits : isDigitRun dminor = true.
Hypothesis patch_digits : isDigitRun dpatch = true.
Hypothesis version_read :
  currentVersion readResult = dmajor ++ [DOT] ++ dminor ++ [DOT] ++ dpatch.

Hypothesis major_safe : digitsValue dmajor <= MAX_SAFE_INTEGER.
Hypothesis minor_safe : digitsValue dminor <= MAX_SAFE_INTEGER.
Hypothesis patch_safe : digitsValue dpatch <= MAX_SAFE_INTEGER.

Local Notation "'major'" := (digitsValue dmajor).
Local Notation "'minor'" := (digitsValue dminor).
Local Notation "'patch'" := (digitsValue dpatch).

Lemma versionParts_safe :
  BuildReport.versionParts readResult = Some (Fin major, Fin minor, Fin patch).
Proof.
  unfold BuildReport.versionParts. rewrite version_read.
  cbn [app].
  rewrite (splitDot_digits_dot dmajor _ (isDigitRun_digits _ major_digits)).
  rewrite (splitDot_digits_dot dminor _ (isDigitRun_digits _ minor_digits)).
  rewrite (splitDot_digits dpatch (isDigitRun_digits _ patch_digits)).
  cbn [map].
  rewrite (Number_safe dmajor major_digits major_safe).
  rewrite (Number_safe dminor minor_digits minor_safe).
  rewrite (Number_safe dpatch patch_digits patch_safe).
  reflexivity.
Qed.

Lemma newVersion_safe :
  BuildReport.newVersion webhook readResult fetchResult =
  Ok (if 1 <=? major then
        if BuildReport.hasDeleted webhook then decimal (major + 1) ++ lit ".0.0"
        else if BuildReport.hasAdded webhook fetchResult then
          decimal major ++ lit "." ++ decimal (minor + 1) ++ lit ".0"
        else
          decimal major ++ lit "." ++ decimal minor ++ lit "."
            ++ decimal (patch + 1)
      else
        if BuildReport.hasAdded webhook fetchResult
           || BuildReport.hasDeleted webhook then
          lit "0." ++ decimal (minor + 1) ++ lit ".0"
        else
          lit "0." ++ decimal minor ++ lit "." ++ decimal (patch + 1)).
Proof.
  unfold BuildReport.newVersion. rewrite versionParts_safe.
  cbn [orThrow bind ge1].
  rewrite (succ_safe major major_safe), (succ_safe minor minor_safe),
    (succ_safe patch patch_safe).
  assert (S : forall n, n <= MAX_SAFE_INTEGER -> toString (Fin n) = decimal n).
  { intros n Hn. apply toString_exact. unfold MAX_SAFE_INTEGER in Hn.
    rewrite pow_2_53 in *. lia. }
  assert (S1 : forall n, n <= MAX_SAFE_INTEGER -> toString (Fin (n + 1)) = decimal (n + 1)).
  { intros n Hn. apply toString_exact. unfold MAX_SAFE_INTEGER in Hn.
    rewrite pow_2_53 in *. lia. }
  rewrite (S major major_safe), (S minor minor_safe), (S1 major major_safe),
    (S1 minor minor_safe), (S1 patch patch_safe).
  reflexivity.
Qed.

End VersionBump.

(** C1 (as amended).  For every previous version whose three components are
    safe integers (at most [2^53 - 1]) and whose major is at least 1: when
    something was deleted the new version is [(major+1).0.0], whether or not
    something was added too; otherwise, when something was added, it is
    [major.(minor+1).0]; otherwise it is [major.minor.(patch+1)]. *)
Theorem C1_bump_from_major_1 :
  forall webhook readResult fetchResult (dmajor dminor dpatch : jsstring),
    isDigitRun dmajor = true ->
    isDigitRun dminor = true ->
    isDigitRun dpatch = true ->
    currentVersion readResult = dmajor ++ [DOT] ++ dminor ++ [DOT] ++ dpatch ->
    digitsValue dmajor <= MAX_SAFE_INTEGER ->
    digitsValue dminor <= MAX_SAFE_INTEGER ->
    digitsValue dpatch <= MAX_SAFE_INTEGER ->
    1 <= digitsValue dmajor ->
    let major := digitsValue dmajor in
    let minor := digitsValue dminor in
    let patch := digitsValue dpatch in
    let hasAdded := BuildReport.hasAdded webhook fetchResult in
    let hasDeleted := BuildReport.hasDeleted webhook in
    let newVersion := BuildReport.newVersion webhook readResult fetchResult in
    (hasDeleted = true ->
     newVersion = Ok (decimal (major + 1) ++ lit ".0.0"))
    /\ (hasDeleted = false -> hasAdded = true ->
        newVersion = Ok (decimal major ++ lit "." ++ decimal (minor + 1) ++ lit ".0"))
    /\ (hasDeleted = false -> hasAdded = false ->
        newVersion = Ok (decimal major ++ lit "." ++ decimal minor ++ lit "."
                           ++ decimal (patch + 1))).
Proof.
  intros w r f dM dm dp HM Hm Hp Hv SM Sm Sp Hge.
  cbv zeta.
  rewrite (newVersion_safe w r f dM dm dp HM Hm Hp Hv SM Sm Sp).
  apply N.leb_le in Hge. rewrite Hge.
  repeat split; intros; repeat match goal with H : _ = _ :> bool |- _ => rewrite H end;
    reflexivity.
Qed.

Lemma C1_bump_from_major_1_witness :
  let w := withDeletedVariables [spacing] (withCreatedVariables [spacing] quietWebhook) in
  let r := mkReadResult [] (lit "1.2.3") in
  BuildReport.hasDeleted w = true
  /\ BuildReport.hasAdded w noMetas = true
  /\ BuildReport.newVersion w r noMetas = Ok (lit "2.0.0").
Proof.
  cbv zeta. split; [reflexivity|]. split; [reflexivity|].
  refine (proj1 (C1_bump_from_major_1 _ (mkReadResult [] (lit "1.2.3")) noMetas
                   (lit "1") (lit "2") (lit "3") _ _ _ _ _ _ _ _) _);
    try reflexivity; vm_compute; discriminate.
Defined.

(** At a major of [2^53] the Number [major + 1] is [major] again. *)
Lemma C1_counterexample :
  let w := withDeletedVariables [spacing] quietWebhook in
  let r := mkReadResult [] (lit "9007199254740992.0.0") in
  BuildReport.hasDeleted w = true
  /\ BuildReport.versionParts r = Some (Fin 9007199254740992, Fin 0, Fin 0)
  /\ BuildReport.newVersion w r noMetas = Ok (lit "9007199254740992.0.0")
  /\ BuildReport.newVersion w r noMetas
     <> Ok (decimal (9007199254740992 + 1) ++ lit ".0.0").
Proof.
  cbv zeta. split; [reflexivity|]. split; [vm_compute; reflexivity|].
  split; [vm_compute; reflexivity|]. vm_compute. discriminate.
Qed.

(** C2 (as amended).  For every previous version whose components are safe
    integers and whose major is 0: when something was added or deleted (one
    of the two, or both) the new version is [0.(minor+1).0]; otherwise it is
    [0.minor.(patch+1)]. *)
Theorem C2_bump_before_1_0 :
  forall webhook readResult fetchResult (dmajor dminor dpatch : jsstring),
    isDigitRun dmajor = true ->
    isDigitRun dminor = true ->
    isDigitRun dpatch = true ->
    currentVersion readResult = dmajor ++ [DOT] ++ dminor ++ [DOT] ++ dpatch ->
    digitsValue dmajor = 0 ->
    digitsValue dminor <= MAX_SAFE_INTEGER ->
    digitsValue dpatch <= MAX_SAFE_INTEGER ->
    let minor := digitsValue dminor in
    let patch := digitsValue dpatch in
    let hasAdded := BuildReport.hasAdded webhook fetchResult in
    let hasDeleted := BuildReport.hasDeleted webhook in
    let newVersion := BuildReport.newVersion webhook readResult fetchResult in
    (hasAdded || hasDeleted = true ->
     newVersion = Ok (lit "0." ++ decimal (minor + 1) ++ lit ".0"))
    /\ (hasAdded = false -> hasDeleted = false ->
        newVersion = Ok (lit "0." ++ decimal minor ++ lit "." ++ decimal (patch + 1))).
Proof.
  intros w r f dM dm dp HM Hm Hp Hv ZM Sm Sp.
  cbv zeta.
  assert (SM : digitsValue dM <= MAX_SAFE_INTEGER) by (rewrite ZM; discriminate).
  rewrite (newVersion_safe w r f dM dm dp HM Hm Hp Hv SM Sm Sp).
  rewrite ZM. change (1 <=? 0) with false. cbv iota.
  split.
  - intros H. rewrite H. reflexivity.
  - intros Ha Hd. rewrite Ha, Hd. reflexivity.
Qed.

Lemma C2_bump_before_1_0_witness :
  let w := withDeletedVariables [spacing] quietWebhook in
  let r := mkReadResult [] (lit "0.4.9") in
  BuildReport.hasAdded w noMetas || BuildReport.hasDeleted w = true
  /\ BuildReport.newVersion w r noMetas = Ok (lit "0.5.0").
Proof.
  cbv zeta. split; [reflexivity|].
  refine (proj1 (C2_bump_before_1_0 _ (mkReadResult [] (lit "0.4.9")) noMetas
                   (lit "0") (lit "4") (lit "9") _ _ _ _ _ _ _) _);
    try reflexivity; vm_compute; discriminate.
Defined.

(** At a minor of [2^53] the Number [minor + 1] is [minor] again. *)
Lemma C2_counterexample :
  let w := withCreatedVariables [spacing] quietWebhook in
  let r := mkReadResult [] (lit "0.9007199254740992.0") in
  BuildReport.hasAdded w noMetas = true
  /\ BuildReport.versionParts r = Some (Fin 0, Fin 9007199254740992, Fin 0)
  /\ BuildReport.newVersion w r noMetas = Ok (lit "0.9007199254740992.0")
  /\ BuildReport.newVersion w r noMetas
     <> Ok (lit "0." ++ decimal (9007199254740992 + 1) ++ lit ".0").
Proof.
  cbv zeta. split; [reflexivity|]. split; [vm_compute; reflexivity|].
  split; [vm_compute; reflexivity|]. vm_compute. discriminate.
Qed.

(** ** The flags that drive the bump *)

Lemma len_positive {A} (a b c : list A) :
  (0 <? BuildReport.len a + BuildReport.len b + BuildReport.len c) = true
  <-> a ++ b ++ c <> [].
Proof.
  unfold BuildReport.len. rewrite N.ltb_lt. split.
  - intros H E. apply app_eq_nil in E as [-> E].
    apply app_eq_nil in E as [-> ->]. simpl in H. lia.
  - intros H. destruct a; [destruct b; [destruct c; [now elim H|]|]|];
      simpl List.length; lia.
Qed.

(** C3.  [hasAdded] holds exactly when the created variables, styles and
    (ungrouped) components together are not empty, [hasDeleted] likewise for
    the deleted ones; replacing the modified variables, styles and
    components, and whatever metadata was fetched, changes neither flag nor
    the new version. *)
Theorem C3_flags_ignore_modifications :
  forall (webhook : Webhook) (readResult : ReadResult) (fetchResult : FetchResult),
    (BuildReport.hasAdded webhook fetchResult = true
     <-> orEmpty (created_variables webhook) ++ orEmpty (created_styles webhook)
           ++ orEmpty (created_components webhook) <> [])
    /\ (BuildReport.hasDeleted webhook = true
        <-> orEmpty (deleted_variables webhook) ++ orEmpty (deleted_styles webhook)
              ++ orEmpty (deleted_components webhook) <> [])
    /\ (forall mv ms mc fetchResult',
          let webhook' := withModified mv ms mc webhook in
          BuildReport.hasAdded webhook' fetchResult'
            = BuildReport.hasAdded webhook fetchResult
          /\ BuildReport.hasDeleted webhook' = BuildReport.hasDeleted webhook
          /\ BuildReport.newVersion webhook' readResult fetchResult'
             = BuildReport.newVersion webhook readResult fetchResult).
Proof.
  intros w r f.
  assert (A : forall w f,
             BuildReport.hasAdded w f
             = (0 <? BuildReport.len (orEmpty (created_variables w))
                     + BuildReport.len (orEmpty (created_styles w))
                     + BuildReport.len (orEmpty (created_components w)))).
  { intros. unfold BuildReport.hasAdded, BuildReport.stylesAdded,
      BuildReport.componentsAdded, BuildReport.variablesAdded, BuildReport.len.
    now rewrite !length_map. }
  assert (D : forall w,
             BuildReport.hasDeleted w
             = (0 <? BuildReport.len (orEmpty (deleted_variables w))
                     + BuildReport.len (orEmpty (deleted_styles w))
                     + BuildReport.len (orEmpty (deleted_components w)))).
  { intros. unfold BuildReport.hasDeleted, BuildReport.stylesDeleted,
      BuildReport.componentsDeleted, BuildReport.variablesDeleted, BuildReport.len.
    now rewrite !length_map. }
  split; [rewrite A; apply len_positive|].
  split; [rewrite D; apply len_positive|].
  intros mv ms mc f' w'.
  assert (EA : BuildReport.hasAdded w' f' = BuildReport.hasAdded w f)
    by (rewrite !A; reflexivity).
  assert (ED : BuildReport.hasDeleted w' = BuildReport.hasDeleted w)
    by (rewrite !D; reflexivity).
  repeat split; try assumption.
  unfold BuildReport.newVersion. rewrite EA, ED. reflexivity.
Qed.

(** ** Truncation of a notification section *)



(** ** The clock *)





(** ** The lookups of [fetchFigma] *)

Section Lookups.

Variable service : nat -> jsstring -> FetchFigma.Answer.

Lemma mapNet_lookupKey_log (path : jsstring) (keys : list jsstring) (log : list jsstring) :
  snd (FetchFigma.mapNet (FetchFigma.lookupKey service path) keys log)
  = log ++ map (fun k => lit "https://api.figma.com" ++ path ++ k) keys.
Proof.
  revert log. induction keys as [|k keys IH]; intros log.
  - simpl. now rewrite app_nil_r.
  - cbn [FetchFigma.mapNet map]. unfold FetchFigma.andThen at 1.
    unfold FetchFigma.lookupKey at 1, FetchFigma.andThen at 1,
      FetchFigma.figmaFetch, FetchFigma.fetch.
    destruct (service (List.length log) (lit "https://api.figma.com" ++ path ++ k));
      unfold FetchFigma.ret at 1;
      unfold FetchFigma.andThen;
      specialize (IH (log ++ [lit "https://api.figma.com" ++ path ++ k]));
      destruct (FetchFigma.mapNet _ keys _) as [bs log'];
      cbn [snd FetchFigma.ret] in *; subst log';
      now rewrite <- app_assoc.
Qed.

Lemma mapNet_lookupKey_length (path : jsstring) (keys : list jsstring) (log : list jsstring) :
  List.length (fst (FetchFigma.mapNet (FetchFigma.lookupKey service path) keys log))
  = List.length keys.
Proof.
  revert log. induction keys as [|k keys IH]; intros log; [reflexivity|].
  cbn [FetchFigma.mapNet]. unfold FetchFigma.andThen at 1.
  destruct (FetchFigma.lookupKey service path k log) as [b log1].
  unfold FetchFigma.andThen. specialize (IH log1).
  destruct (FetchFigma.mapNet _ keys log1) as [bs log2].
  cbn [fst FetchFigma.ret List.length] in *. now rewrite IH.
Qed.

Lemma requests_trace (w : Webhook) :
  FetchFigma.requests service w
  = map FetchFigma.componentUrl (FetchFigma.componentKeys w)
      ++ map FetchFigma.styleUrl (FetchFigma.styleKeys w).
Proof.
  unfold FetchFigma.requests, FetchFigma.fetchFigma.
  unfold FetchFigma.andThen at 1.
  pose proof (mapNet_lookupKey_log (lit "/v1/components/")
                (FetchFigma.componentKeys w) []) as H1.
  destruct (FetchFigma.mapNet _ (FetchFigma.componentKeys w) []) as [cm log1].
  unfold FetchFigma.andThen.
  pose proof (mapNet_lookupKey_log (lit "/v1/styles/")
                (FetchFigma.styleKeys w) log1) as H2.
  destruct (FetchFigma.mapNet _ (FetchFigma.styleKeys w) log1) as [sm log2].
  cbn [snd FetchFigma.ret] in *. subst. reflexivity.
Qed.

End Lookups.

Lemma componentUrl_injective (k k' : jsstring) :
  FetchFigma.componentUrl k = FetchFigma.componentUrl k' -> k = k'.
Proof.
  unfold FetchFigma.componentUrl. intros H.
  apply app_inv_head in H. now apply app_inv_head in H.
Qed.

Lemma styleUrl_injective (k k' : jsstring) :
  FetchFigma.styleUrl k = FetchFigma.styleUrl k' -> k = k'.
Proof.
  unfold FetchFigma.styleUrl. intros H.
  apply app_inv_head in H. now apply app_inv_head in H.
Qed.

Lemma componentUrl_not_styleUrl (k k' : jsstring) :
  FetchFigma.componentUrl k <> FetchFigma.styleUrl k'.
Proof.
  unfold FetchFigma.componentUrl, FetchFigma.styleUrl. intros H.
  apply app_inv_head in H. discriminate H.
Qed.

Lemma count_occ_other_urls {A} (f : A -> jsstring) (l : list A) (u : jsstring) :
  (forall a, f a <> u) ->
  count_occ (list_eq_dec N.eq_dec) (map f l) u = O.
Proof.
  intros H. apply count_occ_not_In. intros I.
  apply in_map_iff in I as [a [E _]]. now apply (H a).
Qed.

(** C9 (as amended).  Whatever the service answers, [fetchFigma] issues one
    request per entry of the created and modified components, then one per
    entry of the created and modified styles, in that order and with no
    second attempt: a key is looked up as many times as it occurs in the two
    lists together, so twice when it is both created and modified. *)
Theorem C9_one_lookup_per_entry :
  forall (service : nat -> jsstring -> FetchFigma.Answer) (webhook : Webhook),
    FetchFigma.requests service webhook
    = map FetchFigma.componentUrl
        (map key (orEmpty (created_components webhook)
                    ++ orEmpty (modified_components webhook)))
        ++ map FetchFigma.styleUrl
             (map key (orEmpty (created_styles webhook)
                         ++ orEmpty (modified_styles webhook)))
    /\ (forall k,
          FetchFigma.lookups service webhook (FetchFigma.componentUrl k)
          = (count_occ (list_eq_dec N.eq_dec)
               (map key (orEmpty (created_components webhook))) k
             + count_occ (list_eq_dec N.eq_dec)
                 (map key (orEmpty (modified_components webhook))) k)%nat)
    /\ (forall k,
          FetchFigma.lookups service webhook (FetchFigma.styleUrl k)
          = (count_occ (list_eq_dec N.eq_dec)
               (map key (orEmpty (created_styles webhook))) k
             + count_occ (list_eq_dec N.eq_dec)
                 (map key (orEmpty (modified_styles webhook))) k)%nat).
Proof.
  intros service w.
  split; [apply requests_trace|].
  unfold FetchFigma.lookups. rewrite requests_trace.
  unfold FetchFigma.componentKeys, FetchFigma.styleKeys.
  split; intros k; rewrite count_occ_app.
  - rewrite (count_occ_other_urls FetchFigma.styleUrl)
      by (intros a E; now apply (componentUrl_not_styleUrl k a)).
    rewrite Nat.add_0_r.
    rewrite <- (count_occ_map FetchFigma.componentUrl (list_eq_dec N.eq_dec)
                  (list_eq_dec N.eq_dec) componentUrl_injective).
    now rewrite map_app, count_occ_app.
  - rewrite (count_occ_other_urls FetchFigma.componentUrl)
      by (intros a E; now apply (componentUrl_not_styleUrl a k)).
    rewrite Nat.add_0_l.
    rewrite <- (count_occ_map FetchFigma.styleUrl (list_eq_dec N.eq_dec)
                  (list_eq_dec N.eq_dec) styleUrl_injective).
    now rewrite map_app, count_occ_app.
Qed.

(** A component that is both created and modified is looked up twice. *)
Lemma C9_counterexample :
  let w := withComponents (Some [button]) None (Some [button]) quietWebhook in
  let service := fun (_ : nat) (_ : jsstring) => FetchFigma.Json None in
  FetchFigma.requests service w
  = [lit "https://api.figma.com/v1/components/K1";
     lit "https://api.figma.com/v1/components/K1"]
  /\ FetchFigma.lookups service w (FetchFigma.componentUrl (key button)) = 2%nat
  /\ FetchFigma.lookups service w (FetchFigma.componentUrl (key button)) <> 1%nat.
Proof.
  cbv zeta. split; [vm_compute; reflexivity|]. split; [vm_compute; reflexivity|].
  vm_compute. discriminate.
Qed.

(** ** Where the new section goes *)

Lemma headingAtFrom_shift (bol : bool) (c : N) (t : jsstring) (j : nat) :
  headingAtFrom bol (c :: t) (S j) = headingAtFrom (isLineTerminator c) t j.
Proof. destruct j; reflexivity. Qed.

Lemma search_some (s : jsstring) :
  forall bol i,
    WriteGitHub.search bol s = Some i ->
    headingAtFrom bol s i = true
    /\ forall j, (j < i)%nat -> headingAtFrom bol s j = false.
Proof.
  induction s as [|c t IH]; intros bol i H.
  - cbn [WriteGitHub.search] in H.
    destruct (bol && WriteGitHub.headingHere []) eqn:E; [|discriminate].
    injection H as <-. split; [exact E|]. intros j Hj. lia.
  - cbn [WriteGitHub.search] in H.
    destruct (bol && WriteGitHub.headingHere (c :: t)) eqn:E.
    + injection H as <-. split; [exact E|]. intros j Hj. lia.
    + destruct (WriteGitHub.search (isLineTerminator c) t) as [i'|] eqn:S';
        [|discriminate].
      injection H as <-. destruct (IH _ _ S') as [Hi Hlt].
      split; [now rewrite headingAtFrom_shift|].
      intros [|j] Hj; [exact E|].
      rewrite headingAtFrom_shift. apply Hlt. lia.
Qed.

Lemma search_none (s : jsstring) :
  forall bol,
    WriteGitHub.search bol s = None ->
    forall j, headingAtFrom bol s j = false.
Proof.
  induction s as [|c t IH]; intros bol H j.
  - cbn [WriteGitHub.search] in H.
    destruct (bol && WriteGitHub.headingHere []) eqn:E; [discriminate|].
    destruct j as [|j]; [exact E|]. unfold headingAtFrom. cbn.
    now destruct j.
  - cbn [WriteGitHub.search] in H.
    destruct (bol && WriteGitHub.headingHere (c :: t)) eqn:E; [discriminate|].
    destruct (WriteGitHub.search (isLineTerminator c) t) eqn:S'; [discriminate|].
    destruct j as [|j]; [exact E|].
    rewrite headingAtFrom_shift. now apply IH.
Qed.


Lemma trimStart_spec (s : jsstring) :
  exists ws,
    s = ws ++ trimStart s
    /\ forallb isTrimmable ws = true
    /\ match trimStart s with
       | c :: _ => isTrimmable c = false
       | [] => True
       end.
Proof.
  induction s as [|c t [ws [E [W H]]]].
  - exists []. repeat split.
  - cbn [trimStart]. destruct (isTrimmable c) eqn:T.
    + exists (c :: ws). cbn [app forallb]. rewrite T, W, <- E. repeat split.
      exact H.
    + exists []. repeat split. exact T.
Qed.

(** [trimEnd] removes a suffix of white space and line terminators, and
    all of it. *)
Lemma trimEnd_spec (s : jsstring) :
  exists ws,
    s = trimEnd s ++ ws
    /\ forallb isTrimmable ws = true
    /\ match rev (trimEnd s) with
       | c :: _ => isTrimmable c = false
       | [] => True
       end.
Proof.
  unfold trimEnd. destruct (trimStart_spec (rev s)) as [ws [E [W H]]].
  exists (rev ws). split; [|split].
  - rewrite <- rev_app_distr, <- E. now rewrite rev_involutive.
  - rewrite forallb_forall in *. intros x I. apply W. now apply in_rev.
  - now rewrite rev_involutive.
Qed.




(** ** Grouping *)

Example firstOccurrences_keeps_first :
  firstOccurrences [] [lit "b"; lit "a"; lit "b"; lit "c"; lit "a"]
  = [lit "b"; lit "a"; lit "c"].
Proof. vm_compute. reflexivity. Qed.

Example groupBySet_counts :
  BuildReport.groupBySet
    (variants [("Button/S", "Button"); ("Card", "Card"); ("Button/L", "Button")]%string)
  = [ mkComponent (mkAsset (lit "Button/S") (lit "Button/S")) None (lit "Button") (Some 2);
      mkComponent (mkAsset (lit "Card") (lit "Card")) None (lit "Card") (Some 1) ].
Proof. vm_compute. reflexivity. Qed.

Example groupBySet_index_keys_first :
  map BuildReport.groupKey
    (BuildReport.groupBySet
       (variants [("a", "Icon"); ("b", "24"); ("c", "16"); ("d", "016")]%string))
  = [lit "16"; lit "24"; lit "Icon"; lit "016"].
Proof. vm_compute. reflexivity. Qed.

(** *** Insertion sort *)

Section SortBy.

Context {A : Type} (rank : A -> N).

Lemma insertBy_In (a x : A) (l : list A) :
  In x (JsObject.insertBy rank a l) <-> x = a \/ In x l.
Proof.
  induction l as [|b r IH]; cbn [JsObject.insertBy].
  - simpl. intuition.
  - destruct (rank a <=? rank b); simpl in *; intuition.
Qed.

Lemma sortBy_In (x : A) (l : list A) :
  In x (JsObject.sortBy rank l) <-> In x l.
Proof.
  induction l as [|a r IH]; [reflexivity|].
  unfold JsObject.sortBy in *. cbn [fold_right]. rewrite insertBy_In, IH.
  simpl. intuition.
Qed.

Lemma insertBy_ascending (a : A) (l : list A) :
  ascending rank l -> ascending rank (JsObject.insertBy rank a l).
Proof.
  unfold ascending. induction l as [|b r IH]; intros H; cbn [JsObject.insertBy].
  - repeat constructor.
  - destruct (N.leb_spec (rank a) (rank b)) as [L|L].
    + constructor; [exact H|]. now constructor.
    + inversion H as [|? ? Hr Hb]; subst. constructor; [now apply IH|].
      destruct r as [|c r']; cbn [JsObject.insertBy].
      * constructor. lia.
      * inversion Hb; subst.
        destruct (rank a <=? rank c); constructor; [lia|assumption].
Qed.

Lemma sortBy_ascending (l : list A) : ascending rank (JsObject.sortBy rank l).
Proof.
  induction l as [|a r IH]; [constructor|].
  unfold JsObject.sortBy in *. cbn [fold_right]. now apply insertBy_ascending.
Qed.

Lemma sortBy_of_ascending (l : list A) :
  ascending rank l -> JsObject.sortBy rank l = l.
Proof.
  unfold ascending. induction l as [|a r IH]; intros H; [reflexivity|].
  inversion H as [|? ? Hr Ha]; subst.
  unfold JsObject.sortBy in *. cbn [fold_right]. rewrite (IH Hr).
  destruct r as [|b r']; [reflexivity|].
  inversion Ha; subst. cbn [JsObject.insertBy].
  destruct (N.leb_spec (rank a) (rank b)); [reflexivity|lia].
Qed.

Lemma sortBy_idempotent (l : list A) :
  JsObject.sortBy rank (JsObject.sortBy rank l) = JsObject.sortBy rank l.
Proof. apply sortBy_of_ascending, sortBy_ascending. Qed.

End SortBy.

Lemma insertBy_map {A B} (rank : B -> N) (g : A -> B) (a : A) (l : list A) :
  map g (JsObject.insertBy (fun x => rank (g x)) a l)
  = JsObject.insertBy rank (g a) (map g l).
Proof.
  induction l as [|b r IH]; [reflexivity|].
  cbn [JsObject.insertBy map]. destruct (rank (g a) <=? rank (g b)).
  - reflexivity.
  - cbn [map]. now rewrite IH.
Qed.

Lemma sortBy_map {A B} (rank : B -> N) (g : A -> B) (l : list A) :
  map g (JsObject.sortBy (fun x => rank (g x)) l)
  = JsObject.sortBy rank (map g l).
Proof.
  induction l as [|a r IH]; [reflexivity|].
  unfold JsObject.sortBy in *. cbn [fold_right map].
  now rewrite insertBy_map, IH.
Qed.

Lemma filter_map_comm {A B} (f : B -> bool) (g : A -> B) (l : list A) :
  filter f (map g l) = map g (filter (fun x => f (g x)) l).
Proof.
  induction l as [|a r IH]; [reflexivity|].
  cbn [map filter]. destruct (f (g a)); cbn [map]; now rewrite IH.
Qed.

Lemma filter_all {A} (f : A -> bool) (l : list A) :
  (forall x, In x l -> f x = true) -> filter f l = l.
Proof.
  induction l as [|a r IH]; intros H; [reflexivity|].
  cbn [filter]. rewrite (H a (or_introl eq_refl)).
  f_equal. apply IH. intros x I. apply H. now right.
Qed.

Lemma filter_none {A} (f : A -> bool) (l : list A) :
  (forall x, In x l -> f x = false) -> filter f l = [].
Proof.
  induction l as [|a r IH]; intros H; [reflexivity|].
  cbn [filter]. rewrite (H a (or_introl eq_refl)).
  apply IH. intros x I. apply H. now right.
Qed.

(** *** Reads and writes of the accumulator *)

Section ObjectFacts.

Context {V : Type}.

Implicit Types (o : JsObject.object V) (k : jsstring) (v : V).

Lemma getOwn_None o k :
  JsObject.getOwn o k = None <-> ~ In k (map fst o).
Proof.
  induction o as [|[k' v'] r IH]; cbn [JsObject.getOwn map fst In].
  - intuition.
  - destruct (eqb k' k) eqn:E.
    + apply eqb_eq in E. split; [discriminate|]. intros H. elim H. now left.
    + apply eqb_neq in E. rewrite IH. intuition.
Qed.

Lemma getOwn_Some o k v :
  JsObject.getOwn o k = Some v -> In (k, v) o.
Proof.
  induction o as [|[k' v'] r IH]; cbn [JsObject.getOwn]; [discriminate|].
  destruct (eqb k' k) eqn:E.
  - apply eqb_eq in E. intros [= ->]. subst. now left.
  - intros H. right. now apply IH.
Qed.

Lemma set_fresh o k v :
  JsObject.getOwn o k = None -> JsObject.set o k v = o ++ [(k, v)].
Proof.
  induction o as [|[k' v'] r IH]; cbn [JsObject.getOwn JsObject.set app];
    [reflexivity|].
  destruct (eqb k' k); [discriminate|]. intros H. now rewrite IH.
Qed.

Lemma set_keys o k v e :
  JsObject.getOwn o k = Some e -> map fst (JsObject.set o k v) = map fst o.
Proof.
  induction o as [|[k' v'] r IH]; cbn [JsObject.getOwn JsObject.set];
    [discriminate|].
  destruct (eqb k' k) eqn:E; [reflexivity|].
  intros H. cbn [map fst]. now rewrite IH.
Qed.

Lemma set_In o k v p :
  In p (JsObject.set o k v) -> p = (k, v) \/ In p o.
Proof.
  induction o as [|[k' v'] r IH]; cbn [JsObject.set].
  - simpl. intuition.
  - destruct (eqb k' k) eqn:E.
    + apply eqb_eq in E. subst. simpl. intuition.
    + simpl. intuition.
Qed.

End ObjectFacts.

(** *** The accumulator of [groupBySet] *)

Lemma groupKey_firstVariant (c : Component) :
  BuildReport.groupKey (BuildReport.firstVariant c) = BuildReport.groupKey c.
Proof. reflexivity. Qed.

Lemma groupKey_nextVariant (c : Component) :
  BuildReport.groupKey (BuildReport.nextVariant c) = BuildReport.groupKey c.
Proof. reflexivity. Qed.

Lemma groupStep_wellKeyed (acc : JsObject.object Component) (c : Component) :
  wellKeyed acc -> wellKeyed (BuildReport.groupStep acc c).
Proof.
  intros [ND F]. unfold BuildReport.groupStep, JsObject.get.
  destruct (JsObject.getOwn acc (BuildReport.groupKey c)) as [e|] eqn:G.
  - split.
    + now rewrite (set_keys _ _ _ _ G).
    + rewrite Forall_forall in *. intros p I.
      apply set_In in I as [->|I]; [|now apply F].
      cbn [fst snd]. rewrite groupKey_nextVariant.
      apply getOwn_Some in G. exact (F _ G).
  - destruct (JsObject.isInherited (BuildReport.groupKey c)) eqn:Inh;
      [now split|].
    rewrite (set_fresh _ _ _ G). split.
    + rewrite map_app. cbn [map fst].
      apply NoDup_app; [exact ND|repeat constructor; simpl; tauto|].
      intros x Hx [<-|[]]. now apply getOwn_None in G.
    + apply Forall_app. split; [exact F|].
      constructor; [|constructor]. cbn [fst snd]. now split.
Qed.

Lemma fold_groupStep_wellKeyed (items : list Component) :
  forall acc, wellKeyed acc -> wellKeyed (fold_left BuildReport.groupStep items acc).
Proof.
  induction items as [|c r IH]; intros acc H; [exact H|].
  cbn [fold_left]. apply IH. now apply groupStep_wellKeyed.
Qed.

Lemma empty_wellKeyed : wellKeyed JsObject.empty.
Proof. split; constructor. Qed.

(** *** The order of the keys *)

Lemma mem_In (k : jsstring) (l : list jsstring) : mem k l = true <-> In k l.
Proof.
  unfold mem. rewrite existsb_exists. split.
  - intros [x [I E]]. apply eqb_eq in E. now subst.
  - intros I. exists k. split; [exact I|apply eqb_refl].
Qed.

Lemma groupStep_keys (acc : JsObject.object Component) (c : Component) :
  map fst (BuildReport.groupStep acc c)
  = let k := BuildReport.groupKey c in
    if mem k (map fst acc) then map fst acc
    else if JsObject.isInherited k then map fst acc
    else map fst acc ++ [k].
Proof.
  cbv zeta. unfold BuildReport.groupStep, JsObject.get.
  destruct (JsObject.getOwn acc (BuildReport.groupKey c)) as [e|] eqn:G.
  - rewrite (set_keys _ _ _ _ G).
    apply getOwn_Some in G. apply (in_map fst) in G. cbn [fst] in G.
    apply mem_In in G. now rewrite G.
  - pose proof G as G'. apply getOwn_None in G'.
    destruct (mem (BuildReport.groupKey c) (map fst acc)) eqn:M;
      [apply mem_In in M; contradiction|].
    destruct (JsObject.isInherited (BuildReport.groupKey c)); [reflexivity|].
    rewrite (set_fresh _ _ _ G), map_app. reflexivity.
Qed.

Lemma fold_groupStep_keys (items : list Component) :
  forall acc,
    map fst (fold_left BuildReport.groupStep items acc)
    = map fst acc
        ++ firstOccurrences (map fst acc)
             (filter notInherited (map BuildReport.groupKey items)).
Proof.
  induction items as [|c r IH]; intros acc.
  - simpl. now rewrite app_nil_r.
  - cbn [fold_left map filter]. rewrite IH, groupStep_keys. cbv zeta.
    unfold notInherited at 2.
    destruct (JsObject.isInherited (BuildReport.groupKey c)) eqn:Inh; cbn [negb].
    + destruct (mem (BuildReport.groupKey c) (map fst acc)); reflexivity.
    + cbn [firstOccurrences].
      destruct (mem (BuildReport.groupKey c) (map fst acc)); [reflexivity|].
      now rewrite <- app_assoc.
Qed.

Lemma ownProperties_In {V} (o : JsObject.object V) (p : jsstring * V) :
  In p (JsObject.ownProperties o) <-> In p o.
Proof.
  unfold JsObject.ownProperties, JsObject.sortByIndex.
  rewrite in_app_iff, sortBy_In, !filter_In.
  destruct (JsObject.isArrayIndex (fst p)); simpl; intuition congruence.
Qed.

Lemma ownProperties_keys {V} (o : JsObject.object V) :
  map fst (JsObject.ownProperties o)
  = JsObject.sortBy digitsValue (filter JsObject.isArrayIndex (map fst o))
      ++ filter (fun k => negb (JsObject.isArrayIndex k)) (map fst o).
Proof.
  unfold JsObject.ownProperties, JsObject.sortByIndex, JsObject.indexOf.
  rewrite map_app, (sortBy_map digitsValue fst), !filter_map_comm.
  reflexivity.
Qed.

Lemma values_keys (acc : JsObject.object Component) :
  wellKeyed acc ->
  map BuildReport.groupKey (JsObject.values acc)
  = map fst (JsObject.ownProperties acc).
Proof.
  intros [_ F]. unfold JsObject.values. rewrite map_map.
  apply map_ext_in. intros p I. apply (proj1 (ownProperties_In _ _)) in I.
  rewrite Forall_forall in F. exact (proj1 (F p I)).
Qed.

Lemma firstOccurrences_In (k : jsstring) (l : list jsstring) :
  forall seen, In k (firstOccurrences seen l) -> In k l.
Proof.
  induction l as [|a r IH]; intros seen; cbn [firstOccurrences]; [tauto|].
  destruct (mem a seen).
  - intros I. right. now apply (IH seen).
  - intros [->|I]; [now left|]. right. now apply (IH _ I).
Qed.

Lemma storable_keys (items : list Component) :
  storable items ->
  filter notInherited (map BuildReport.groupKey items)
  = map BuildReport.groupKey items.
Proof.
  intros H. apply filter_all. intros k I.
  apply in_map_iff in I as [c [<- I]]. unfold notInherited. now rewrite (H c I).
Qed.

Lemma groupBySet_keys (items : list Component) :
  map BuildReport.groupKey (BuildReport.groupBySet items)
  = let keys := firstOccurrences []
                  (filter notInherited (map BuildReport.groupKey items)) in
    JsObject.sortBy digitsValue (filter JsObject.isArrayIndex keys)
      ++ filter (fun k => negb (JsObject.isArrayIndex k)) keys.
Proof.
  unfold BuildReport.groupBySet.
  rewrite (values_keys _ (fold_groupStep_wellKeyed items _ empty_wellKeyed)).
  rewrite ownProperties_keys, fold_groupStep_keys. reflexivity.
Qed.

(** C4 (as amended).  For component records whose grouping keys are not
    names inherited from [Object.prototype]: the grouped result lists first
    the entries whose key is an array index, by ascending index, and then
    the other entries in the order in which their key first occurs in the
    input.  When no key is an array index, that is the order of first
    occurrence throughout. *)
Theorem C4_grouped_order :
  forall items : list Component,
    storable items ->
    let keys := firstOccurrences [] (map BuildReport.groupKey items) in
    let indices := JsObject.sortBy digitsValue (filter JsObject.isArrayIndex keys) in
    map BuildReport.groupKey (BuildReport.groupBySet items)
    = indices ++ filter (fun k => negb (JsObject.isArrayIndex k)) keys
    /\ ascending digitsValue indices
    /\ (forall k, In k indices <-> In k keys /\ JsObject.isArrayIndex k = true)
    /\ ((forall c, In c items -> JsObject.isArrayIndex (BuildReport.groupKey c) = false) ->
        map BuildReport.groupKey (BuildReport.groupBySet items) = keys).
Proof.
  intros items St keys indices.
  assert (E : map BuildReport.groupKey (BuildReport.groupBySet items)
              = indices ++ filter (fun k => negb (JsObject.isArrayIndex k)) keys).
  { rewrite groupBySet_keys. cbv zeta. rewrite (storable_keys items St).
    reflexivity. }
  split; [exact E|]. split; [apply sortBy_ascending|]. split.
  - intros k. unfold indices. now rewrite sortBy_In, filter_In.
  - intros NoIdx. rewrite E.
    assert (K : forall k, In k keys -> JsObject.isArrayIndex k = false).
    { intros k I. apply firstOccurrences_In in I.
      apply in_map_iff in I as [c [<- I]]. now apply NoIdx. }
    unfold indices. rewrite (filter_none _ _ K). cbn [JsObject.sortBy fold_right app].
    apply filter_all. intros k I. now rewrite (K k I).
Qed.

Lemma C4_grouped_order_witness :
  map BuildReport.groupKey (BuildReport.groupBySet iconSizes)
  = [lit "16"; lit "24"; lit "Icon"].
Proof.
  refine (proj1 (C4_grouped_order iconSizes _)).
  intros c I. repeat (destruct I as [<-|I]; [reflexivity|]). destruct I.
Defined.

(** Keys that are array indices jump the queue: [b] comes first in the
    input, [1] comes first in the result. *)
Lemma C4_counterexample :
  let items := variants [("x", "b"); ("y", "1")]%string in
  firstOccurrences [] (map BuildReport.groupKey items) = [lit "b"; lit "1"]
  /\ map BuildReport.groupKey (BuildReport.groupBySet items) = [lit "1"; lit "b"]
  /\ map BuildReport.groupKey (BuildReport.groupBySet items)
     <> firstOccurrences [] (map BuildReport.groupKey items).
Proof.
  cbv zeta. split; [vm_compute; reflexivity|]. split; [vm_compute; reflexivity|].
  vm_compute. discriminate.
Qed.

(** *** Grouping what is already grouped *)

Lemma insertBy_Permutation {A} (rank : A -> N) (a : A) (l : list A) :
  Permutation (JsObject.insertBy rank a l) (a :: l).
Proof.
  induction l as [|b r IH]; cbn [JsObject.insertBy]; [reflexivity|].
  destruct (rank a <=? rank b); [reflexivity|].
  rewrite IH. apply perm_swap.
Qed.

Lemma sortBy_Permutation {A} (rank : A -> N) (l : list A) :
  Permutation (JsObject.sortBy rank l) l.
Proof.
  induction l as [|a r IH]; [reflexivity|].
  unfold JsObject.sortBy in *. cbn [fold_right].
  rewrite insertBy_Permutation. now constructor.
Qed.

Lemma filter_split_Permutation {A} (f : A -> bool) (l : list A) :
  Permutation (filter f l ++ filter (fun x => negb (f x)) l) l.
Proof.
  induction l as [|a r IH]; [reflexivity|].
  cbn [filter]. destruct (f a); cbn [negb app].
  - now constructor.
  - rewrite <- Permutation_middle. now constructor.
Qed.

Lemma ownProperties_Permutation {V} (o : JsObject.object V) :
  Permutation (JsObject.ownProperties o) o.
Proof.
  unfold JsObject.ownProperties, JsObject.sortByIndex.
  rewrite sortBy_Permutation. apply filter_split_Permutation.
Qed.

Lemma ownProperties_wellKeyed (acc : JsObject.object Component) :
  wellKeyed acc -> wellKeyed (JsObject.ownProperties acc).
Proof.
  intros [ND F]. split.
  - eapply Permutation_NoDup; [|exact ND].
    apply Permutation_map, Permutation_sym, ownProperties_Permutation.
  - rewrite Forall_forall in *. intros p I. apply F.
    now apply (proj1 (ownProperties_In _ _)).
Qed.

Lemma ownProperties_app {V} (A B : JsObject.object V) :
  (forall p, In p A -> JsObject.isArrayIndex (fst p) = true) ->
  (forall p, In p B -> JsObject.isArrayIndex (fst p) = false) ->
  JsObject.ownProperties (A ++ B) = JsObject.sortByIndex A ++ B.
Proof.
  intros HA HB. unfold JsObject.ownProperties. rewrite !filter_app.
  rewrite (filter_all _ A HA), (filter_none _ B HB), app_nil_r.
  rewrite (filter_none _ A), (filter_all _ B); [reflexivity| |].
  - intros p I. now rewrite (HB p I).
  - intros p I. now rewrite (HA p I).
Qed.

Lemma ownProperties_idempotent {V} (o : JsObject.object V) :
  JsObject.ownProperties (JsObject.ownProperties o) = JsObject.ownProperties o.
Proof.
  unfold JsObject.ownProperties at 2 3. rewrite ownProperties_app.
  - unfold JsObject.sortByIndex. now rewrite sortBy_idempotent.
  - intros p I. unfold JsObject.sortByIndex in I.
    apply (proj1 (sortBy_In _ _ _)) in I. now apply filter_In in I.
  - intros p I. apply filter_In in I as [_ I]. now apply negb_true_iff in I.
Qed.

Lemma ownProperties_restart (o : JsObject.object Component) :
  JsObject.ownProperties (map restart o) = map restart (JsObject.ownProperties o).
Proof.
  unfold JsObject.ownProperties, JsObject.sortByIndex.
  rewrite map_app, !filter_map_comm. f_equal.
  symmetry. apply (sortBy_map JsObject.indexOf restart).
Qed.

Lemma regroup_fresh (P : list (jsstring * Component)) :
  forall acc,
    NoDup (map fst acc ++ map fst P) ->
    Forall (fun p => BuildReport.groupKey (snd p) = fst p
                     /\ JsObject.isInherited (fst p) = false) P ->
    fold_left BuildReport.groupStep (map snd P) acc = acc ++ map restart P.
Proof.
  induction P as [|[k e] P IH]; intros acc ND F.
  - simpl. now rewrite app_nil_r.
  - inversion F as [|? ? [Hk Hi] F']; subst. cbn [fst snd] in Hk, Hi.
    cbn [map fold_left snd fst] in *.
    assert (G : JsObject.getOwn acc k = None).
    { apply getOwn_None. intros I. apply NoDup_remove_2 in ND.
      apply ND, in_or_app. now left. }
    assert (St : BuildReport.groupStep acc e
                 = acc ++ [(k, BuildReport.firstVariant e)]).
    { unfold BuildReport.groupStep, JsObject.get. rewrite Hk, G, Hi.
      now apply set_fresh. }
    rewrite St, IH.
    + rewrite <- app_assoc. reflexivity.
    + rewrite map_app, <- app_assoc. exact ND.
    + exact F'.
Qed.

Lemma groupBySet_values (acc : JsObject.object Component) :
  wellKeyed acc ->
  BuildReport.groupBySet (JsObject.values acc)
  = map BuildReport.firstVariant (JsObject.values acc).
Proof.
  intros W. apply ownProperties_wellKeyed in W as [ND F].
  unfold BuildReport.groupBySet, JsObject.values at 2.
  rewrite (regroup_fresh _ JsObject.empty ND F). cbn [JsObject.empty app].
  unfold JsObject.values.
  rewrite ownProperties_restart, ownProperties_idempotent, !map_map.
  reflexivity.
Qed.

Lemma firstVariant_fixed (e : Component) :
  variantCount e = Some 1 -> BuildReport.firstVariant e = e.
Proof. destruct e as [a n s v]. cbn. now intros ->. Qed.

(** C5 (as amended).  Grouping the result of a grouping again yields the
    same entries in the same order, each with its [variantCount] set back to
    1; the result is therefore unchanged exactly when no entry stood for
    more than one variant. *)
Theorem C5_regrouping_restarts_counts :
  forall items : list Component,
    let grouped := BuildReport.groupBySet items in
    BuildReport.groupBySet grouped = map BuildReport.firstVariant grouped
    /\ map BuildReport.groupKey (BuildReport.groupBySet grouped)
       = map BuildReport.groupKey grouped
    /\ (forall e, In e (BuildReport.groupBySet grouped) -> variantCount e = Some 1)
    /\ (BuildReport.groupBySet grouped = grouped
        <-> forall e, In e grouped -> variantCount e = Some 1).
Proof.
  intros items grouped.
  assert (E : BuildReport.groupBySet grouped = map BuildReport.firstVariant grouped).
  { apply groupBySet_values, fold_groupStep_wellKeyed, empty_wellKeyed. }
  split; [exact E|]. rewrite E. split; [|split].
  - rewrite map_map. apply map_ext. intros e. apply groupKey_firstVariant.
  - intros e I. apply in_map_iff in I as [e' [<- _]]. reflexivity.
  - split.
    + intros Fix e I. rewrite <- Fix in I.
      apply in_map_iff in I as [e' [<- _]]. reflexivity.
    + intros One. rewrite <- (map_id grouped) at 2.
      apply map_ext_in. intros e I. now apply firstVariant_fixed, One.
Qed.

(** Two variants of one set group into an entry that counts 2; grouped
    again, the entry counts 1. *)
Lemma C5_counterexample :
  let grouped :=
    BuildReport.groupBySet
      (variants [("Button/S", "Button"); ("Button/L", "Button")]%string) in
  map BuildReport.groupKey grouped = [lit "Button"]
  /\ map variantCount grouped = [Some 2]
  /\ map variantCount (BuildReport.groupBySet grouped) = [Some 1]
  /\ BuildReport.groupBySet grouped <> grouped.
Proof.
  cbv zeta. split; [vm_compute; reflexivity|]. split; [vm_compute; reflexivity|].
  split; [vm_compute; reflexivity|]. vm_compute. discriminate.
Qed.

(** *** What grouping counts *)

Lemma sumCounts_app (l l' : list Component) :
  sumCounts (l ++ l') = sumCounts l + sumCounts l'.
Proof.
  induction l as [|e r IH]; [reflexivity|].
  cbn [app sumCounts fold_right] in *. fold (sumCounts (r ++ l')).
  fold (sumCounts r). rewrite IH. destruct (variantCount e); lia.
Qed.

Lemma sumCounts_Permutation (l l' : list Component) :
  Permutation l l' -> sumCounts l = sumCounts l'.
Proof.
  induction 1 as [|e l l' _ IH|e e' l|l l' l'' _ IH1 _ IH2].
  - reflexivity.
  - cbn [sumCounts fold_right] in *. fold (sumCounts l). fold (sumCounts l').
    now rewrite IH.
  - cbn [sumCounts fold_right]. destruct (variantCount e), (variantCount e'); lia.
  - congruence.
Qed.

Lemma set_present {V} (o : JsObject.object V) (k : jsstring) (v e : V) :
  JsObject.getOwn o k = Some e ->
  exists o1 o2, o = o1 ++ (k, e) :: o2 /\ JsObject.set o k v = o1 ++ (k, v) :: o2.
Proof.
  induction o as [|[k' v'] r IH]; cbn [JsObject.getOwn JsObject.set];
    [discriminate|].
  destruct (eqb k' k) eqn:E.
  - apply eqb_eq in E. intros [= ->]. subst. now exists [], r.
  - intros G. destruct (IH G) as [o1 [o2 [-> ->]]].
    now exists ((k', v') :: o1), o2.
Qed.

Lemma find_app {A} (f : A -> bool) (l l' : list A) :
  find f (l ++ l') = match find f l with
                     | Some a => Some a
                     | None => find f l'
                     end.
Proof.
  induction l as [|a r IH]; [reflexivity|].
  cbn [app find]. now destruct (f a).
Qed.

Lemma groupedFrom_nil : groupedFrom [] JsObject.empty.
Proof.
  split; [apply empty_wellKeyed|reflexivity|intros k e []|intros c []].
Qed.

Lemma firstWithKey_snoc_found (k : jsstring) (items : list Component) (c c0 : Component) :
  firstWithKey k items = Some c0 -> firstWithKey k (items ++ [c]) = Some c0.
Proof. unfold firstWithKey. rewrite find_app. now intros ->. Qed.

Lemma firstWithKey_missing (k : jsstring) (items : list Component) :
  (forall c, In c items -> BuildReport.groupKey c <> k) ->
  firstWithKey k items = None.
Proof.
  intros H. unfold firstWithKey.
  destruct (find _ items) as [c|] eqn:F; [|reflexivity].
  apply find_some in F as [I E]. apply eqb_eq in E. now elim (H c I).
Qed.

Lemma stored_snoc (items : list Component) (c : Component) :
  stored (items ++ [c])
  = stored items
      ++ (if JsObject.isInherited (BuildReport.groupKey c) then [] else [c]).
Proof.
  unfold stored. rewrite filter_app. cbn [filter]. unfold notInherited.
  now destruct (JsObject.isInherited (BuildReport.groupKey c)).
Qed.

Lemma groupedFrom_step (items : list Component) (acc : JsObject.object Component)
  (c : Component) :
  groupedFrom items acc ->
  groupedFrom (items ++ [c]) (BuildReport.groupStep acc c).
Proof.
  intros [W T F K].
  pose proof (groupStep_wellKeyed acc c W) as W'.
  pose proof (groupStep_keys acc c) as Keys. cbv zeta in Keys.
  unfold BuildReport.groupStep, JsObject.get in *.
  destruct (JsObject.getOwn acc (BuildReport.groupKey c)) as [e|] eqn:G.
  - (* the key is there: one more variant *)
    pose proof (getOwn_Some _ _ _ G) as Ie.
    destruct W as [_ WF]. rewrite Forall_forall in WF.
    destruct (WF _ Ie) as [_ Inh]. cbn [fst] in Inh.
    destruct (F _ _ Ie) as [c0 [F0 [n [-> Hn]]]].
    destruct (set_present acc _ (BuildReport.nextVariant
                (mkComponent (asset c0) (nodeId c0) (setName c0) (Some n))) _ G)
      as [o1 [o2 [Eacc Eset]]].
    split.
    + exact W'.
    + rewrite stored_snoc, Inh, length_app, Eset. rewrite Eacc in T.
      rewrite !map_app, !sumCounts_app in *. cbn [map snd sumCounts fold_right] in *.
      cbn [BuildReport.nextVariant variantCount option_map List.length] in *.
      fold (sumCounts (map snd o2)) in *. lia.
    + intros k e I. apply set_In in I as [[= -> ->]|I].
      * exists c0. split; [now apply firstWithKey_snoc_found|].
        exists (N.succ n). split; [reflexivity|lia].
      * destruct (F _ _ I) as [c1 [F1 S1]]. exists c1.
        split; [now apply firstWithKey_snoc_found|exact S1].
    + intros c' I. rewrite (set_keys _ _ _ _ G).
      rewrite stored_snoc, Inh in I. apply in_app_or in I as [I|[<-|[]]].
      * now apply K.
      * apply (in_map fst) in Ie. exact Ie.
  - destruct (JsObject.isInherited (BuildReport.groupKey c)) eqn:Inh.
    + (* an inherited name: nothing is stored *)
      split.
      * exact W'.
      * now rewrite stored_snoc, Inh, app_nil_r.
      * intros k e I. destruct (F _ _ I) as [c1 [F1 S1]]. exists c1.
        split; [now apply firstWithKey_snoc_found|exact S1].
      * intros c' I. rewrite stored_snoc, Inh, app_nil_r in I. now apply K.
    + (* a new key: a new entry *)
      rewrite (set_fresh _ _ _ G) in *. split.
      * exact W'.
      * rewrite stored_snoc, Inh, length_app, map_app, sumCounts_app, T.
        cbn. lia.
      * intros k e I. apply in_app_or in I as [I|[[= <- <-]|[]]].
        -- destruct (F _ _ I) as [c1 [F1 S1]]. exists c1.
           split; [now apply firstWithKey_snoc_found|exact S1].
        -- exists c. split.
           ++ unfold firstWithKey. rewrite find_app.
              fold (firstWithKey (BuildReport.groupKey c) items).
              rewrite firstWithKey_missing.
              ** cbn [find]. now rewrite eqb_refl.
              ** intros c' I' E. apply getOwn_None in G. apply G.
                 rewrite <- E. apply K. unfold stored. apply filter_In.
                 split; [exact I'|]. unfold notInherited. now rewrite E, Inh.
           ++ exists 1. split; [reflexivity|lia].
      * intros c' I. rewrite map_app. apply in_or_app.
        rewrite stored_snoc, Inh in I. apply in_app_or in I as [I|[<-|[]]].
        -- left. now apply K.
        -- right. now left.
Qed.

Lemma groupedFrom_fold (items : list Component) :
  groupedFrom items (fold_left BuildReport.groupStep items JsObject.empty).
Proof.
  induction items as [|c items IH] using rev_ind; [apply groupedFrom_nil|].
  rewrite fold_left_app. cbn [fold_left]. now apply groupedFrom_step.
Qed.

(** Grouping partitions the records it can store: the counts add up to
    their number, and each entry stands for the first record with its key. *)
Lemma groupBySet_partition (items : list Component) :
  sumCounts (BuildReport.groupBySet items) = N.of_nat (List.length (stored items))
  /\ forall e, In e (BuildReport.groupBySet items) ->
       exists c, firstWithKey (BuildReport.groupKey e) items = Some c
                 /\ standsFor e c.
Proof.
  destruct (groupedFrom_fold items) as [W T F _].
  unfold BuildReport.groupBySet, JsObject.values. split.
  - rewrite <- T. apply sumCounts_Permutation, Permutation_map,
      ownProperties_Permutation.
  - intros e I. apply in_map_iff in I as [[k e'] [E I]]. cbn [snd] in E. subst e'.
    apply (proj1 (ownProperties_In _ _)) in I.
    destruct W as [_ WF]. rewrite Forall_forall in WF.
    destruct (WF _ I) as [Hk _]. cbn [fst snd] in Hk. rewrite Hk.
    now apply F.
Qed.

(** C10 (the code on a failing input).  A record whose grouping key is a
    name inherited from [Object.prototype] is counted by no entry: for the
    single deleted component [constructor] the grouped result is empty, so
    the counts add up to 0 and not to 1; the version is bumped for the
    deletion, and the changelog section lists nothing. *)
Theorem C10_inherited_name_is_dropped :
  let items := [mkComponent constructorAsset None (lit "constructor") None] in
  let w := withComponents None (Some [constructorAsset]) None quietWebhook in
  BuildReport.componentsDeleted w = items
  /\ BuildReport.groupBySet items = []
  /\ sumCounts (BuildReport.groupBySet items) = 0
  /\ N.of_nat (List.length items) = 1
  /\ BuildReport.hasDeleted w = true
  /\ BuildReport.buildReport w (mkReadResult [] (lit "1.2.3")) noMetas 0%Z parseSample
     = Ok (mkReport (lit "2.0.0") (lit "## 2.0.0 - 2026-01-05" ++ [LF; LF])
             [] [] [] [] [] [] [] [] []).
Proof.
  cbv zeta. repeat split; vm_compute; reflexivity.
Qed.

(** ** Worked examples, end to end *)

Example example_minor_bump :
  let r := ReadGitHub.readGitHub sampleChangelog in
  currentVersion r = lit "1.2.3"
  /\ exists report,
      BuildReport.buildReport exampleWebhook r exampleMetas 0%Z parseSample = Ok report
      /\ newVersion report = lit "1.3.0"
      /\ changelogMd report
         = lit "## 1.3.0 - 2026-01-06" ++ [LF; LF]
             ++ lit "### " ++ BuildReport.titleAdded ++ [LF]
             ++ lit "- [Primary](https://www.figma.com/file/FILE?node-id=10:1)"
             ++ [LF; LF]
             ++ lit "### " ++ BuildReport.titleModified ++ [LF]
             ++ lit "- [Button](https://www.figma.com/file/FILE?node-id=1:2) *(2)*"
             ++ [LF; LF]
      /\ WriteGitHub.updatedChangelog (changelogContent r) (changelogMd report)
         = lit "# Changelog" ++ [LF; LF] ++ changelogMd report
             ++ lit "## 1.2.3 - 2026-01-05" ++ [LF; LF] ++ lit "### x" ++ [LF].
Proof.
  cbv zeta. split; [vm_compute; reflexivity|].
  eexists. split; [vm_compute; reflexivity|].
  repeat split; vm_compute; reflexivity.
Qed.

Example example_no_changes :
  exists report,
    BuildReport.buildReport quietWebhook (mkReadResult [] (lit "0.4.9")) noMetas
      0%Z parseSample = Ok report
    /\ newVersion report = lit "0.4.10"
    /\ changelogMd report = lit "## 0.4.10 - 2026-01-05" ++ [LF; LF]
    /\ NotifySlack.bodyText quietWebhook report = NotifySlack.noChanges.
Proof.
  eexists. split; [vm_compute; reflexivity|].
  repeat split; vm_compute; reflexivity.
Qed.

(** * Further properties of the script *)

(** ** Decimal digits *)

Lemma digitsValue_acc (u : Decimal.uint) :
  forall acc : positive,
    fold_left (fun a c => 10 * a + (c - 48)) (ofUint u) (N.pos acc)
    = N.pos (Pos.of_uint_acc u acc).
Proof.
  induction u; intros acc; cbn [ofUint fold_left Pos.of_uint_acc];
    try reflexivity;
    match goal with
    | |- fold_left _ _ ?a = _ =>
        match goal with
        | |- _ = N.pos (Pos.of_uint_acc _ ?b) =>
            replace a with (N.pos b) by lia
        end
    end; apply IHu.
Qed.

Lemma digitsValue_ofUint (u : Decimal.uint) :
  digitsValue (ofUint u) = Pos.of_uint u.
Proof.
  unfold digitsValue.
  induction u; cbn [ofUint fold_left Pos.of_uint]; try reflexivity;
    try exact IHu;
    match goal with
    | |- fold_left _ _ ?a = N.pos (Pos.of_uint_acc _ ?b) =>
        change a with (N.pos b); apply digitsValue_acc
    end.
Qed.

(** Printing a natural number and reading the digits back is the
    identity. *)
Lemma digitsValue_decimal (n : N) : digitsValue (decimal n) = n.
Proof.
  unfold decimal. rewrite digitsValue_ofUint. apply DecimalN.Unsigned.of_to.
Qed.

Lemma ofUint_digits (u : Decimal.uint) : forallb isDigit (ofUint u) = true.
Proof. induction u; cbn [ofUint forallb]; try reflexivity; exact IHu. Qed.

Lemma ofUint_nil (u : Decimal.uint) : ofUint u = [] -> u = Decimal.Nil.
Proof. destruct u; cbn [ofUint]; congruence. Qed.

Lemma decimal_isDigitRun (n : N) : isDigitRun (decimal n) = true.
Proof.
  unfold isDigitRun, decimal. rewrite ofUint_digits, andb_true_r.
  destruct (ofUint (N.to_uint n)) eqn:E; [|reflexivity].
  apply ofUint_nil in E. destruct n as [|p]; [discriminate E|].
  now apply DecimalPos.Unsigned.to_uint_nonnil in E.
Qed.

(** ** From one version to the next *)

Lemma newVersion_rendered (w : Webhook) (r : ReadResult) (f : FetchResult)
  (a b c : N) :
  safeVersion (currentVersion r) a b c ->
  BuildReport.newVersion w r f
  = Ok (if 1 <=? a then
          if BuildReport.hasDeleted w then renderVersion (a + 1) 0 0
          else if BuildReport.hasAdded w f then renderVersion a (b + 1) 0
          else renderVersion a b (c + 1)
        else
          if BuildReport.hasAdded w f || BuildReport.hasDeleted w
          then renderVersion 0 (b + 1) 0
          else renderVersion 0 b (c + 1)).
Proof.
  intros [da [db [dc [E [Ha [Hb [Hc [Va [Vb [Vc [Sa [Sb Sc]]]]]]]]]]]].
  subst a b c.
  rewrite (newVersion_safe w r f da db dc Ha Hb Hc E Sa Sb Sc).
  unfold renderVersion. reflexivity.
Qed.

(** X4.  Within the safe range the new version is the rendering of a
    triple that strictly follows the previous one in version precedence:
    the version never stays, and never goes back. *)
Theorem newVersion_increases :
  forall (webhook : Webhook) (readResult : ReadResult) (fetchResult : FetchResult)
         (a b c : N),
    safeVersion (currentVersion readResult) a b c ->
    exists a' b' c',
      BuildReport.newVersion webhook readResult fetchResult
      = Ok (renderVersion a' b' c')
      /\ versionLt (a, b, c) (a', b', c').
Proof.
  intros w r f a b c S. rewrite (newVersion_rendered w r f a b c S).
  destruct (N.leb_spec 1 a) as [L|L].
  - destruct (BuildReport.hasDeleted w);
      [|destruct (BuildReport.hasAdded w f)];
      eexists _, _, _; (split; [reflexivity|]); cbn; lia.
  - assert (a = 0) by lia. subst a.
    destruct (BuildReport.hasAdded w f || BuildReport.hasDeleted w);
      eexists _, _, _; (split; [reflexivity|]); cbn; lia.
Qed.

Lemma safeVersion_1_2_3 : safeVersion (lit "1.2.3") 1 2 3.
Proof.
  exists (lit "1"), (lit "2"), (lit "3").
  repeat split; try reflexivity; vm_compute; discriminate.
Qed.

Lemma newVersion_increases_witness :
  exists a' b' c',
    BuildReport.newVersion quietWebhook (mkReadResult [] (lit "1.2.3")) noMetas
    = Ok (renderVersion a' b' c')
    /\ versionLt (1, 2, 3) (a', b', c').
Proof.
  exact (newVersion_increases quietWebhook (mkReadResult [] (lit "1.2.3")) noMetas
           1 2 3 safeVersion_1_2_3).
Defined.

(** ** What the next run reads *)

(** Destructs a code unit down to the bits that tell it from a literal. *)
Ltac split_code a :=
  destruct a as [|a]; [try reflexivity|];
  do 7 (try (destruct a as [a|a|]; try reflexivity)).

Lemma headingHere_test (s : jsstring) :
  WriteGitHub.headingHere s
  = match s with
    | a :: b :: d :: e :: _ => (a =? 35) && (b =? 35) && (d =? 32) && isDigit e
    | _ => false
    end.
Proof.
  destruct s as [|a [|b [|d [|e s]]]];
    try reflexivity; try (split_code a; fail);
    try (split_code a; split_code b; fail).
  - split_code a; split_code b; split_code d.
  - split_code a; split_code b; split_code d.
Qed.

Lemma afterHashes_test (s r : jsstring) :
  ReadGitHub.afterHashes s = Some r <-> s = 35 :: 35 :: 32 :: r.
Proof.
  split; [|now intros ->].
  destruct s as [|a [|b [|d s]]]; try discriminate;
    try (split_code a; discriminate);
    try (split_code a; split_code b; discriminate).
  split_code a; try discriminate; split_code b; try discriminate;
    split_code d; try discriminate. now intros [= ->].
Qed.

Lemma digitRun_app (d rest : jsstring) :
  forallb isDigit d = true ->
  match rest with c :: _ => isDigit c = false | [] => True end ->
  ReadGitHub.digitRun (d ++ rest) = (d, rest).
Proof.
  intros Hd Hr. induction d as [|c d IH].
  - destruct rest as [|c r]; [reflexivity|].
    cbn [app ReadGitHub.digitRun]. now rewrite Hr.
  - cbn [forallb] in Hd. apply andb_prop in Hd as [Hc Hd].
    cbn [app ReadGitHub.digitRun]. now rewrite Hc, (IH Hd).
Qed.

Lemma digitRun_head (s d r : jsstring) (c : N) :
  ReadGitHub.digitRun s = (c :: d, r) -> exists t, s = c :: t /\ isDigit c = true.
Proof.
  destruct s as [|c' t]; cbn [ReadGitHub.digitRun]; [discriminate|].
  destruct (isDigit c') eqn:D; [|discriminate].
  destruct (ReadGitHub.digitRun t). intros [= -> _ _]. now exists t.
Qed.

(** A version heading is, in particular, a line that starts with [## ]
    and a digit. *)
Lemma version_here_heading (s r v : jsstring) :
  ReadGitHub.afterHashes s = Some r ->
  ReadGitHub.matchVersion r = Some v ->
  WriteGitHub.headingHere s = true.
Proof.
  intros A M. apply afterHashes_test in A. subst s.
  unfold ReadGitHub.matchVersion in M.
  destruct (ReadGitHub.digitRun r) as [[|c d] r'] eqn:E; [discriminate|].
  apply digitRun_head in E as [t [-> D]].
  rewrite headingHere_test. cbn. exact D.
Qed.

Lemma matchVersion_render (a b c : N) (rest : jsstring) :
  match rest with x :: _ => isDigit x = false | [] => True end ->
  ReadGitHub.matchVersion (renderVersion a b c ++ rest) = Some (renderVersion a b c).
Proof.
  intros Hr. unfold renderVersion, ReadGitHub.matchVersion.
  assert (Dig : forall n, forallb isDigit (decimal n) = true)
    by (intros n; apply ofUint_digits).
  assert (NE : forall n, exists x t, decimal n = x :: t).
  { intros n. pose proof (decimal_isDigitRun n) as H. unfold isDigitRun in H.
    destruct (decimal n) as [|x t]; [discriminate|]. now exists x, t. }
  rewrite <- !app_assoc. cbn [app].
  rewrite (digitRun_app (decimal a)) by (auto; reflexivity).
  destruct (NE a) as [xa [ta Ea]]. rewrite Ea. rewrite <- Ea.
  rewrite N.eqb_refl.
  rewrite (digitRun_app (decimal b)) by (auto; reflexivity).
  destruct (NE b) as [xb [tb Eb]]. rewrite Eb. rewrite <- Eb.
  rewrite N.eqb_refl.
  rewrite (digitRun_app (decimal c)) by auto.
  destruct (NE c) as [xc [tc Ec]]. rewrite Ec. reflexivity.
Qed.

Lemma versionMatch_skip (pre rest : jsstring) :
  forall bol,
    (forall j, (j < List.length pre)%nat -> headingAtFrom bol (pre ++ rest) j = false) ->
    ReadGitHub.versionMatch bol (pre ++ rest)
    = ReadGitHub.versionMatch (lineStartAfter bol pre) rest.
Proof.
  induction pre as [|c t IH]; intros bol H; [reflexivity|].
  cbn [app ReadGitHub.versionMatch lineStartAfter fold_left].
  assert (Here : (if bol
                  then match ReadGitHub.afterHashes (c :: t ++ rest) with
                       | Some r => ReadGitHub.matchVersion r
                       | None => None
                       end
                  else None) = None).
  { destruct bol; [|reflexivity].
    pose proof (H O ltac:(cbn; lia)) as H0.
    unfold headingAtFrom in H0. cbn [beginsLineFrom skipn andb app] in H0.
    destruct (ReadGitHub.afterHashes (c :: t ++ rest)) as [r|] eqn:A; [|reflexivity].
    destruct (ReadGitHub.matchVersion r) as [v|] eqn:M; [|reflexivity].
    rewrite (version_here_heading _ _ _ A M) in H0. discriminate. }
  rewrite Here. apply IH. intros j Hj.
  rewrite <- headingAtFrom_shift with (bol := bol). apply H. cbn. lia.
Qed.

Lemma digit_not_terminator (c : N) :
  isDigit c = true -> isLineTerminator c = false.
Proof.
  unfold isDigit, isLineTerminator. intros H.
  apply andb_prop in H as [L U]. apply N.leb_le in L, U.
  repeat (apply orb_false_intro); apply N.eqb_neq; lia.
Qed.

(** A heading cannot run over a line terminator: if one begins at or
    before the end of [P] in [P ++ c :: X], it lies within [P]. *)
Lemma heading_within (P X suf : jsstring) (c : N) (j : nat) :
  isLineTerminator c = true ->
  (j <= List.length P)%nat ->
  headingAtFrom true (P ++ c :: X) j = true ->
  headingAtFrom true (P ++ suf) j = true.
Proof.
  intros LT Hj H. unfold headingAtFrom in *.
  apply andb_prop in H as [B Hh]. apply andb_true_intro. split.
  - destruct j as [|k]; [reflexivity|]. cbn [beginsLineFrom] in *.
    rewrite nth_error_app1 in * by lia. exact B.
  - rewrite skipn_app in *. replace (j - List.length P)%nat with O in * by lia.
    cbn [skipn] in *. rewrite headingHere_test in *.
    destruct (skipn j P) as [|a [|b [|d [|e w]]]]; cbn [app] in *.
    + destruct X as [|x [|y [|z X]]]; try discriminate Hh.
      apply andb_prop in Hh as [Hh _]. apply andb_prop in Hh as [Hh _].
      apply andb_prop in Hh as [Hh _]. apply N.eqb_eq in Hh. subst c.
      discriminate LT.
    + destruct X as [|x [|y X]]; try discriminate Hh.
      apply andb_prop in Hh as [Hh _]. apply andb_prop in Hh as [Hh _].
      apply andb_prop in Hh as [_ Hh]. apply N.eqb_eq in Hh. subst c.
      discriminate LT.
    + destruct X as [|x X]; try discriminate Hh.
      apply andb_prop in Hh as [Hh _]. apply andb_prop in Hh as [_ Hh].
      apply N.eqb_eq in Hh. subst c. discriminate LT.
    + apply andb_prop in Hh as [_ Hh]. apply digit_not_terminator in Hh.
      congruence.
    + exact Hh.
Qed.

Lemma lineStartAfter_snoc (bol : bool) (P : jsstring) (c : N) :
  lineStartAfter bol (P ++ [c]) = isLineTerminator c.
Proof. unfold lineStartAfter. now rewrite fold_left_app. Qed.

(** The section just written heads the text that follows it. *)
Lemma versionMatch_section (a b c : N) (rest : jsstring) :
  ReadGitHub.versionMatch true
    (lit "## " ++ renderVersion a b c ++ lit " - " ++ rest)
  = Some (renderVersion a b c).
Proof.
  pose proof (matchVersion_render a b c (lit " - " ++ rest) eq_refl) as M.
  destruct (renderVersion a b c ++ lit " - " ++ rest) as [|x t] eqn:E.
  - destruct (renderVersion a b c); discriminate E.
  - change (lit "## " ++ x :: t) with (35 :: 35 :: 32 :: x :: t).
    cbn [ReadGitHub.versionMatch ReadGitHub.afterHashes]. now rewrite M.
Qed.

(** Wherever the section lands, it is the first version heading of the
    text committed. *)
Lemma versionMatch_updatedChangelog (content : jsstring) (a b c : N)
  (rest : jsstring) :
  ReadGitHub.versionMatch true
    (WriteGitHub.updatedChangelog content
       (lit "## " ++ renderVersion a b c ++ lit " - " ++ rest))
  = Some (renderVersion a b c).
Proof.
  set (md := lit "## " ++ renderVersion a b c ++ lit " - " ++ rest).
  unfold WriteGitHub.updatedChangelog, sliceTo, sliceFrom.
  destruct (WriteGitHub.search true content) as [i|] eqn:Sr.
  - destruct (search_some content true i Sr) as [Hi Hlt].
    destruct i as [|k].
    + cbn [firstn skipn app]. unfold md. rewrite <- !app_assoc.
      apply versionMatch_section.
    + assert (B : beginsLineFrom true content (S k) = true).
      { unfold headingAtFrom in Hi. now apply andb_prop in Hi. }
      cbn [beginsLineFrom] in B.
      destruct (nth_error content k) as [x|] eqn:Nk; [|discriminate].
      pose proof (nth_error_split content k Nk) as [P [Q [Ec Lk]]].
      assert (F : firstn (S k) content = P ++ [x]).
      { rewrite Ec. rewrite <- Lk.
        replace (S (List.length P)) with (List.length (P ++ [x]))
          by (rewrite length_app; cbn; lia).
        change (P ++ x :: Q) with (P ++ [x] ++ Q).
        rewrite (app_assoc P [x] Q).
        rewrite <- (Nat.add_0_r (List.length (P ++ [x]))).
        now rewrite firstn_app_2, firstn_O, app_nil_r. }
      assert (K : skipn (S k) content = Q).
      { rewrite Ec, <- Lk.
        replace (S (List.length P)) with (List.length (P ++ [x]))
          by (rewrite length_app; cbn; lia).
        change (P ++ x :: Q) with (P ++ [x] ++ Q).
        rewrite (app_assoc P [x] Q). now rewrite skipn_app, skipn_all, Nat.sub_diag. }
      rewrite F, K, versionMatch_skip.
      * rewrite lineStartAfter_snoc, B. unfold md. rewrite <- !app_assoc.
        apply versionMatch_section.
      * intros j Hj. rewrite length_app in Hj. cbn in Hj.
        destruct (headingAtFrom true ((P ++ [x]) ++ md ++ Q) j) eqn:H;
          [|reflexivity].
        rewrite <- app_assoc in H. cbn [app] in H.
        apply (heading_within P (md ++ Q) (x :: Q) x j B ltac:(lia)) in H.
        rewrite <- Ec in H. rewrite (Hlt j ltac:(lia)) in H. discriminate.
  - pose proof (search_none content true Sr) as Hno.
    destruct (trimEnd_spec content) as [ws [Ec _]].
    set (T := trimEnd content) in *.
    change (T ++ [LF; LF] ++ md) with (T ++ LF :: LF :: md).
    replace (T ++ LF :: LF :: md) with ((T ++ [LF]) ++ LF :: md)
      by (now rewrite <- app_assoc).
    rewrite versionMatch_skip.
    + rewrite lineStartAfter_snoc.
      change (isLineTerminator LF) with true.
      cbn [ReadGitHub.versionMatch ReadGitHub.afterHashes].
      change (isLineTerminator LF) with true.
      exact (versionMatch_section a b c rest).
    + intros j Hj. rewrite length_app in Hj. cbn in Hj.
      destruct (headingAtFrom true ((T ++ [LF]) ++ LF :: md) j) eqn:H;
        [|reflexivity].
      rewrite <- app_assoc in H. cbn [app] in H.
      apply (heading_within T (LF :: md) ws LF j eq_refl ltac:(lia)) in H.
      rewrite <- Ec in H. rewrite (Hno j) in H. discriminate.
Qed.

(** X3.  Whatever the previous changelog holds, once a section headed
    [## a.b.c - ...] has been spliced in by [writeGitHub], [readGitHub]
    reads [a.b.c] as the current version. *)
Theorem written_version_is_read_back :
  forall (changelogContent : jsstring) (a b c : N) (rest : jsstring),
    let changelogMd := lit "## " ++ renderVersion a b c ++ lit " - " ++ rest in
    currentVersion
      (ReadGitHub.readGitHub
         (WriteGitHub.updatedChangelog changelogContent changelogMd))
    = renderVersion a b c.
Proof.
  intros content a b c rest md. unfold md.
  unfold ReadGitHub.readGitHub. cbn [currentVersion].
  now rewrite versionMatch_updatedChangelog.
Qed.

(** Within the safe range the report is headed by a rendered version. *)
Lemma buildReport_heading (w : Webhook) (r : ReadResult) (f : FetchResult)
  (clock : Z) (parse : jsstring -> option Z) (report : Report) (a b c : N) :
  safeVersion (currentVersion r) a b c ->
  BuildReport.buildReport w r f clock parse = Ok report ->
  exists a' b' c' rest,
    newVersion report = renderVersion a' b' c'
    /\ changelogMd report
       = lit "## " ++ renderVersion a' b' c' ++ lit " - " ++ rest.
Proof.
  intros Safe Run. unfold BuildReport.buildReport in Run.
  rewrite (newVersion_rendered w r f a b c Safe) in Run.
  cbn [bind] in Run.
  destruct (BuildReport.dateStr w clock parse) as [date|e]; [|discriminate].
  cbn [bind] in Run. injection Run as <-. cbn [changelogMd newVersion].
  destruct (1 <=? a);
    [destruct (BuildReport.hasDeleted w);
       [|destruct (BuildReport.hasAdded w f)]
    |destruct (BuildReport.hasAdded w f || BuildReport.hasDeleted w)];
    eexists _, _, _, _; split; reflexivity.
Qed.

Lemma readGitHub_after_commit (w : Webhook) (content : jsstring)
  (f : FetchResult) (clock : Z) (parse : jsstring -> option Z)
  (report : Report) (a b c : N) :
  safeVersion (currentVersion (ReadGitHub.readGitHub content)) a b c ->
  BuildReport.buildReport w (ReadGitHub.readGitHub content) f clock parse
  = Ok report ->
  ReadGitHub.versionMatch true
    (WriteGitHub.updatedChangelog content (changelogMd report))
  = Some (newVersion report).
Proof.
  intros Safe Run.
  destruct (buildReport_heading _ _ _ _ _ _ a b c Safe Run)
    as [a' [b' [c' [rest [-> ->]]]]].
  apply versionMatch_updatedChangelog.
Qed.

(** X5.  Across runs: when the previous version is within the safe range
    and [buildReport] returns, the changelog that [writeGitHub] commits
    makes the next [readGitHub] start from the version just announced. *)
Theorem report_version_is_read_back :
  forall (webhook : Webhook) (changelogContent : jsstring) (fetchResult : FetchResult)
         (clock : Z) (Date_parse : jsstring -> option Z) (report : Report)
         (a b c : N),
    let readResult := ReadGitHub.readGitHub changelogContent in
    safeVersion (currentVersion readResult) a b c ->
    BuildReport.buildReport webhook readResult fetchResult clock Date_parse
    = Ok report ->
    currentVersion
      (ReadGitHub.readGitHub
         (WriteGitHub.updatedChangelog changelogContent (changelogMd report)))
    = newVersion report.
Proof.
  intros w content f clock parse report a b c r Safe Run.
  unfold ReadGitHub.readGitHub at 1. cbn [currentVersion].
  now rewrite (readGitHub_after_commit w content f clock parse report a b c Safe Run).
Qed.

Lemma sampleChangelog_safe :
  safeVersion (currentVersion (ReadGitHub.readGitHub sampleChangelog)) 1 2 3.
Proof. exact safeVersion_1_2_3. Qed.

Lemma report_version_is_read_back_witness :
  exists report,
    BuildReport.buildReport exampleWebhook (ReadGitHub.readGitHub sampleChangelog)
      exampleMetas 0%Z parseSample = Ok report
    /\ currentVersion
         (ReadGitHub.readGitHub
            (WriteGitHub.updatedChangelog sampleChangelog (changelogMd report)))
       = lit "1.3.0".
Proof.
  eexists. split; [vm_compute; reflexivity|].
  refine (eq_trans
            (report_version_is_read_back exampleWebhook sampleChangelog exampleMetas
               0%Z parseSample _ 1 2 3 sampleChangelog_safe _) _).
  - vm_compute. reflexivity.
  - reflexivity.
Defined.

(** ** What [readGitHub] reads *)

Lemma newVersion_defined (w : Webhook) (r : ReadResult) (f : FetchResult) :
  versionShaped (currentVersion r) ->
  exists version, BuildReport.newVersion w r f = Ok version.
Proof.
  intros Sh. unfold BuildReport.newVersion.
  pose proof (versionParts_defined _ Sh) as D.
  destruct (BuildReport.versionParts r) as [[[major minor] patch]|];
    [|contradiction].
  cbn [orThrow bind]. eexists. reflexivity.
Qed.

(** X1.  Whatever the changelog holds, [buildReport] finds three Numbers
    in the version that [readGitHub] hands over, and computes a new
    version. *)
Theorem newVersion_after_readGitHub :
  forall (changelogContent : jsstring) (webhook : Webhook) (fetchResult : FetchResult),
    exists version,
      BuildReport.newVersion webhook (ReadGitHub.readGitHub changelogContent)
        fetchResult = Ok version.
Proof.
  intros content w f. apply newVersion_defined.
  apply readGitHub_versionShaped.
Qed.

Lemma digitRun_spec (s : jsstring) :
  s = fst (ReadGitHub.digitRun s) ++ snd (ReadGitHub.digitRun s)
  /\ match snd (ReadGitHub.digitRun s) with
     | c :: _ => isDigit c = false
     | [] => True
     end.
Proof.
  induction s as [|c t [E H]]; [now split|].
  cbn [ReadGitHub.digitRun]. destruct (isDigit c) eqn:D.
  - destruct (ReadGitHub.digitRun t) as [d r]. cbn [fst snd] in *.
    split; [now rewrite E at 1|exact H].
  - cbn [fst snd app]. now split.
Qed.

(** The capture is the text that follows [## ], up to the end of its third
    run of digits. *)
Lemma matchVersion_prefix (r v : jsstring) :
  ReadGitHub.matchVersion r = Some v ->
  exists tail,
    r = v ++ tail
    /\ match tail with c :: _ => isDigit c = false | [] => True end.
Proof.
  unfold ReadGitHub.matchVersion.
  pose proof (digitRun_spec r) as [E1 _].
  destruct (ReadGitHub.digitRun r) as [a r0]. cbn [fst snd] in E1.
  destruct a as [|a0 a]; [discriminate|].
  destruct r0 as [|c1 r1]; [discriminate|].
  destruct (N.eqb_spec c1 DOT) as [->|]; [|discriminate].
  pose proof (digitRun_spec r1) as [E2 _].
  destruct (ReadGitHub.digitRun r1) as [b r2]. cbn [fst snd] in E2.
  destruct b as [|b0 b]; [discriminate|].
  destruct r2 as [|c2 r3]; [discriminate|].
  destruct (N.eqb_spec c2 DOT) as [->|]; [|discriminate].
  pose proof (digitRun_spec r3) as [E3 H3].
  destruct (ReadGitHub.digitRun r3) as [c r4]. cbn [fst snd] in E3, H3.
  destruct c as [|c0 c]; [discriminate|].
  intros [= <-]. exists r4. split; [|exact H3].
  rewrite E1, E2, E3. cbn [app].
  repeat (rewrite <- app_assoc; cbn [app]). reflexivity.
Qed.

Lemma versionAtFrom_shift (bol : bool) (c : N) (t : jsstring) (j : nat) :
  versionAtFrom bol (c :: t) (S j) = versionAtFrom (isLineTerminator c) t j.
Proof. destruct j; reflexivity. Qed.

Lemma versionMatch_some (s : jsstring) :
  forall bol v,
    ReadGitHub.versionMatch bol s = Some v ->
    exists i, versionAtFrom bol s i = Some v
              /\ forall j, (j < i)%nat -> versionAtFrom bol s j = None.
Proof.
  induction s as [|c t IH]; intros bol v H.
  - cbn [ReadGitHub.versionMatch] in H. destruct bol; discriminate.
  - cbn [ReadGitHub.versionMatch] in H.
    fold (versionHere (c :: t)) in H.
    destruct (if bol then versionHere (c :: t) else None) as [v'|] eqn:E.
    + injection H as ->. exists O. split; [exact E|]. intros j Hj. lia.
    + destruct (IH _ _ H) as [i [Hi Hlt]]. exists (S i).
      split; [now rewrite versionAtFrom_shift|].
      intros [|j] Hj; [exact E|]. rewrite versionAtFrom_shift. apply Hlt. lia.
Qed.

Lemma versionMatch_none (s : jsstring) :
  forall bol,
    ReadGitHub.versionMatch bol s = None ->
    forall j, versionAtFrom bol s j = None.
Proof.
  induction s as [|c t IH]; intros bol H j.
  - destruct j as [|j]; [destruct bol; reflexivity|].
    unfold versionAtFrom. cbn. now destruct j.
  - cbn [ReadGitHub.versionMatch] in H.
    fold (versionHere (c :: t)) in H.
    destruct (if bol then versionHere (c :: t) else None) as [v'|] eqn:E;
      [discriminate|].
    destruct j as [|j]; [exact E|].
    rewrite versionAtFrom_shift. now apply IH.
Qed.

(** X2.  [readGitHub] reads the version of the first version heading of
    the changelog: the text [a.b.c] that follows [## ] on the first line
    of that form, ending where its third run of digits ends.  Without such
    a line the current version is [0.0.0]. *)
Theorem readGitHub_first_version_heading :
  forall (changelogContent : jsstring),
    let currentVersion := currentVersion (ReadGitHub.readGitHub changelogContent) in
    (forall i v,
        versionAt changelogContent i = Some v ->
        (forall j, (j < i)%nat -> versionAt changelogContent j = None) ->
        currentVersion = v
        /\ versionShaped v
        /\ exists tail,
            skipn i changelogContent = lit "## " ++ v ++ tail
            /\ match tail with c :: _ => isDigit c = false | [] => True end)
    /\ ((forall j, versionAt changelogContent j = None) ->
        currentVersion = lit "0.0.0").
Proof.
  intros content cv. unfold cv, ReadGitHub.readGitHub. cbn [currentVersion].
  split.
  - intros i v Hi Hlt.
    assert (E : ReadGitHub.versionMatch true content = Some v).
    { destruct (ReadGitHub.versionMatch true content) as [v'|] eqn:E.
      - destruct (versionMatch_some content true v' E) as [i' [Hi' Hlt']].
        destruct (Nat.lt_trichotomy i i') as [L|[->|L]].
        + specialize (Hlt' i L). unfold versionAt in Hi. congruence.
        + unfold versionAt in Hi. congruence.
        + specialize (Hlt i' L). unfold versionAt in Hlt. congruence.
      - pose proof (versionMatch_none content true E i) as N0.
        unfold versionAt in Hi. congruence. }
    rewrite E. split; [reflexivity|].
    unfold versionAt, versionAtFrom in Hi.
    destruct (beginsLineFrom true content i); [|discriminate].
    unfold versionHere in Hi.
    destruct (ReadGitHub.afterHashes (skipn i content)) as [r|] eqn:A;
      [|discriminate].
    apply afterHashes_test in A. split; [now apply matchVersion_shaped in Hi|].
    destruct (matchVersion_prefix r v Hi) as [tail [Er Ht]].
    exists tail. split; [|exact Ht]. now rewrite A, Er.
  - intros Hno.
    destruct (ReadGitHub.versionMatch true content) as [v|] eqn:E; [|reflexivity].
    destruct (versionMatch_some content true v E) as [i [Hi _]].
    specialize (Hno i). unfold versionAt in Hno. congruence.
Qed.

Lemma readGitHub_first_version_heading_witness :
  currentVersion (ReadGitHub.readGitHub sampleChangelog) = lit "1.2.3".
Proof.
  refine (proj1 (proj1 (readGitHub_first_version_heading sampleChangelog)
                   13%nat (lit "1.2.3") _ _)).
  - reflexivity.
  - intros j Hj. do 13 (destruct j as [|j]; [reflexivity|]). lia.
Defined.

(** ** What [fetchFigma] returns *)

Section Fetched.

Variable service : nat -> jsstring -> FetchFigma.Answer.

Lemma mapNet_lookupKey_slots (path : jsstring) (keys : list jsstring) :
  forall log,
    fst (FetchFigma.mapNet (FetchFigma.lookupKey service path) keys log)
    = slots service path (List.length log) keys.
Proof.
  induction keys as [|k keys IH]; intros log; [reflexivity|].
  cbn [FetchFigma.mapNet]. unfold FetchFigma.andThen at 1.
  unfold FetchFigma.lookupKey at 1, FetchFigma.andThen at 1,
    FetchFigma.figmaFetch, FetchFigma.fetch.
  unfold slots. cbn [List.length seq combine map fst snd].
  fold (slots service path (S (List.length log)) keys).
  specialize (IH (log ++ [lit "https://api.figma.com" ++ path ++ k])).
  rewrite length_app, Nat.add_1_r in IH.
  destruct (service (List.length log) (lit "https://api.figma.com" ++ path ++ k));
    unfold FetchFigma.ret at 1; unfold FetchFigma.andThen;
    destruct (FetchFigma.mapNet _ keys _) as [bs log'];
    cbn [fst FetchFigma.ret slot] in *; now rewrite IH.
Qed.

(** The value [fetchFigma] resolves to. *)
Lemma fetchFigma_result (webhook : Webhook) :
  fst (FetchFigma.fetchFigma service webhook [])
  = mkFetchResult
      (slots service (lit "/v1/components/") 0 (FetchFigma.componentKeys webhook))
      (slots service (lit "/v1/styles/")
         (List.length (FetchFigma.componentKeys webhook))
         (FetchFigma.styleKeys webhook)).
Proof.
  unfold FetchFigma.fetchFigma. unfold FetchFigma.andThen at 1.
  pose proof (mapNet_lookupKey_slots (lit "/v1/components/")
                (FetchFigma.componentKeys webhook) []) as C.
  pose proof (mapNet_lookupKey_log service (lit "/v1/components/")
                (FetchFigma.componentKeys webhook) []) as L.
  destruct (FetchFigma.mapNet _ (FetchFigma.componentKeys webhook) [])
    as [cm log1].
  cbn [fst snd List.length app] in C, L.
  unfold FetchFigma.andThen.
  pose proof (mapNet_lookupKey_slots (lit "/v1/styles/")
                (FetchFigma.styleKeys webhook) log1) as S'.
  destruct (FetchFigma.mapNet _ (FetchFigma.styleKeys webhook) log1)
    as [sm log2].
  cbn [fst FetchFigma.ret] in *. subst cm sm log1.
  now rewrite length_map.
Qed.

(** X6.  [fetchFigma] fills one slot per entry of its key lists, in
    order: the slot of the [i]-th request holds the body the service
    answered, or [{ error, key }] with the key of that entry when the lookup
    was rejected.  A rejected lookup changes no other slot, and the run
    goes on. *)
Theorem fetchFigma_slots :
  forall webhook : Webhook,
    let result := fst (FetchFigma.fetchFigma service webhook []) in
    componentMetas result
    = slots service (lit "/v1/components/") 0 (FetchFigma.componentKeys webhook)
    /\ styleMetas result
       = slots service (lit "/v1/styles/")
           (List.length (FetchFigma.componentKeys webhook))
           (FetchFigma.styleKeys webhook)
    /\ List.length (componentMetas result)
       = List.length (FetchFigma.componentKeys webhook)
    /\ List.length (styleMetas result)
       = List.length (FetchFigma.styleKeys webhook).
Proof.
  intros w result. unfold result. rewrite fetchFigma_result.
  cbn [componentMetas styleMetas]. unfold slots.
  repeat split; rewrite length_map, length_combine, length_seq; apply Nat.min_id.
Qed.

End Fetched.

Lemma findMeta_failures (metas : list Fetched) (k : jsstring) :
  Forall (fun m => metaOf m = None) metas ->
  BuildReport.findMeta metas k = None.
Proof.
  intros H. unfold BuildReport.findMeta.
  destruct (find _ metas) as [m|] eqn:F; [|reflexivity].
  apply find_some in F as [I E]. rewrite Forall_forall in H.
  now rewrite (H m I) in E.
Qed.

Lemma slots_rejected (service : nat -> jsstring -> FetchFigma.Answer)
  (path : jsstring) (keys : list jsstring) :
  (forall i url, exists message, service i url = FetchFigma.Rejected message) ->
  forall first, Forall (fun m => metaOf m = None) (slots service path first keys).
Proof.
  intros R. unfold slots.
  induction keys as [|k keys IH]; intros first; [constructor|].
  cbn [List.length seq combine map fst snd]. constructor; [|apply IH].
  destruct (R first (lit "https://api.figma.com" ++ path ++ k)) as [msg ->].
  reflexivity.
Qed.

(** X7.  When every lookup is rejected, enrichment degrades and nothing
    else does: each style comes without node, each component without node
    and under its own name as set name, so that components group by their
    names and every item is rendered without link. *)
Theorem rejected_lookups_leave_plain_names :
  forall (service : nat -> jsstring -> FetchFigma.Answer) (webhook : Webhook),
    (forall i url, exists message, service i url = FetchFigma.Rejected message) ->
    let fetchResult := fst (FetchFigma.fetchFigma service webhook []) in
    BuildReport.stylesAdded webhook fetchResult
    = map (fun s => mkStyle s None) (orEmpty (created_styles webhook))
    /\ BuildReport.stylesModified webhook fetchResult
       = map (fun s => mkStyle s None) (orEmpty (modified_styles webhook))
    /\ BuildReport.componentsAdded webhook fetchResult
       = map (fun c => mkComponent c None (name c) None)
           (orEmpty (created_components webhook))
    /\ BuildReport.componentsModified webhook fetchResult
       = map (fun c => mkComponent c None (name c) None)
           (orEmpty (modified_components webhook))
    /\ (forall s, In s (BuildReport.stylesAdded webhook fetchResult) ->
          BuildReport.mdLink webhook (name (style_asset s)) (style_nodeId s)
          = name (style_asset s)).
Proof.
  intros service w R f.
  assert (C := f_equal componentMetas (fetchFigma_result service w)).
  assert (S' := f_equal styleMetas (fetchFigma_result service w)).
  cbn [componentMetas styleMetas] in C, S'. fold f in C, S'.
  assert (FC : forall k, BuildReport.getCompMeta f k = None).
  { intros k. unfold BuildReport.getCompMeta. rewrite C.
    apply findMeta_failures, slots_rejected, R. }
  assert (FS : forall k, BuildReport.getStyleMeta f k = None).
  { intros k. unfold BuildReport.getStyleMeta. rewrite S'.
    apply findMeta_failures, slots_rejected, R. }
  assert (ES : forall l, map (BuildReport.enrichStyle f) l
                         = map (fun s => mkStyle s None) l).
  { intros l. apply map_ext. intros s. unfold BuildReport.enrichStyle.
    now rewrite FS. }
  assert (EC : forall l, map (BuildReport.enrichComp f) l
                         = map (fun c => mkComponent c None (name c) None) l).
  { intros l. apply map_ext. intros c. unfold BuildReport.enrichComp.
    now rewrite FC. }
  unfold BuildReport.stylesAdded, BuildReport.stylesModified,
    BuildReport.componentsAdded, BuildReport.componentsModified.
  rewrite !ES, !EC. repeat split.
  intros s I. apply in_map_iff in I as [a [<- _]]. reflexivity.
Qed.

Lemma rejected_lookups_leave_plain_names_witness :
  BuildReport.componentsModified exampleWebhook
    (fst (FetchFigma.fetchFigma unreachable exampleWebhook []))
  = [ mkComponent (mkAsset (lit "Button/S") (lit "C1")) None (lit "Button/S") None;
      mkComponent (mkAsset (lit "Button/L") (lit "C2")) None (lit "Button/L") None ].
Proof.
  refine (proj1 (proj2 (proj2 (proj2
            (rejected_lookups_leave_plain_names unreachable exampleWebhook _))))).
  intros i url. now exists (lit "fetch failed").
Defined.

Lemma slots_answered (service : nat -> jsstring -> FetchFigma.Answer)
  (path : jsstring) (meta : jsstring -> Meta) (keys : list jsstring) :
  (forall i k, In k keys ->
     service i (lit "https://api.figma.com" ++ path ++ k) = FetchFigma.Json (Some (meta k))) ->
  forall first,
    slots service path first keys = map (fun k => Body (Some (meta k))) keys.
Proof.
  unfold slots. induction keys as [|k keys IH]; intros A first; [reflexivity|].
  cbn [List.length seq combine map fst snd].
  rewrite (A first k (or_introl eq_refl)). cbn [slot]. f_equal.
  apply IH. intros i k' I. apply A. now right.
Qed.

Lemma findMeta_answered (meta : jsstring -> Meta) (keys : list jsstring) (k : jsstring) :
  (forall k', meta_key (meta k') = k') ->
  In k keys ->
  BuildReport.findMeta (map (fun k' => Body (Some (meta k'))) keys) k
  = Some (meta k).
Proof.
  intros MK I. unfold BuildReport.findMeta.
  destruct (find _ (map _ keys)) as [m|] eqn:F.
  - apply find_some in F as [Im E].
    apply in_map_iff in Im as [k' [<- _]]. cbn [metaOf] in *.
    rewrite MK in E. apply eqb_eq in E. now subst.
  - pose proof (find_none _ _ F (Body (Some (meta k)))
                  (in_map (fun k' => Body (Some (meta k'))) keys k I)) as E.
    cbn [metaOf] in E. now rewrite MK, eqb_refl in E.
Qed.

(** X8.  When the service answers the lookup of every key with a [meta]
    that carries that key, each created or modified component, and each
    created or modified style, is enriched with the [meta] fetched for its
    own key, however often and wherever the key occurs. *)
Theorem enrichment_uses_own_lookup :
  forall (service : nat -> jsstring -> FetchFigma.Answer) (webhook : Webhook)
         (componentMeta styleMeta : jsstring -> Meta),
    (forall i k, service i (FetchFigma.componentUrl k)
                 = FetchFigma.Json (Some (componentMeta k))) ->
    (forall i k, service i (FetchFigma.styleUrl k)
                 = FetchFigma.Json (Some (styleMeta k))) ->
    (forall k, meta_key (componentMeta k) = k) ->
    (forall k, meta_key (styleMeta k) = k) ->
    let fetchResult := fst (FetchFigma.fetchFigma service webhook []) in
    (forall c, In c (orEmpty (created_components webhook)
                       ++ orEmpty (modified_components webhook)) ->
       BuildReport.getCompMeta fetchResult (key c) = Some (componentMeta (key c))
       /\ nodeId (BuildReport.enrichComp fetchResult c)
          = node_id (componentMeta (key c)))
    /\ (forall s, In s (orEmpty (created_styles webhook)
                          ++ orEmpty (modified_styles webhook)) ->
          BuildReport.getStyleMeta fetchResult (key s) = Some (styleMeta (key s))
          /\ BuildReport.enrichStyle fetchResult s
             = mkStyle s (node_id (styleMeta (key s)))).
Proof.
  intros service w cm sm AC AS MC MS f.
  assert (C := f_equal componentMetas (fetchFigma_result service w)).
  assert (S' := f_equal styleMetas (fetchFigma_result service w)).
  cbn [componentMetas styleMetas] in C, S'. fold f in C, S'.
  split.
  - intros c I.
    assert (G : BuildReport.getCompMeta f (key c) = Some (cm (key c))).
    { unfold BuildReport.getCompMeta. rewrite C.
      rewrite (slots_answered service _ cm) by (intros; apply AC).
      apply findMeta_answered; [exact MC|].
      unfold FetchFigma.componentKeys. now apply in_map. }
    split; [exact G|]. unfold BuildReport.enrichComp. now rewrite G.
  - intros s I.
    assert (G : BuildReport.getStyleMeta f (key s) = Some (sm (key s))).
    { unfold BuildReport.getStyleMeta. rewrite S'.
      rewrite (slots_answered service _ sm) by (intros; apply AS).
      apply findMeta_answered; [exact MS|].
      unfold FetchFigma.styleKeys. now apply in_map. }
    split; [exact G|]. unfold BuildReport.enrichStyle. now rewrite G.
Qed.

Lemma enrichment_uses_own_lookup_witness :
  BuildReport.enrichStyle
    (fst (FetchFigma.fetchFigma echoService exampleWebhook []))
    (mkAsset (lit "Primary") (lit "S1"))
  = mkStyle (mkAsset (lit "Primary") (lit "S1")) (Some (lit "1:S1")).
Proof.
  refine (proj2 (proj2 (enrichment_uses_own_lookup echoService exampleWebhook
                          echoMeta echoMeta _ _ _ _)
                   (mkAsset (lit "Primary") (lit "S1")) _)).
  - intros i k. reflexivity.
  - intros i k. reflexivity.
  - intros k. reflexivity.
  - intros k. reflexivity.
  - left. reflexivity.
Defined.

(** ** More on grouping *)

Lemma withKey_snoc (k : jsstring) (items : list Component) (c : Component) :
  withKey k (items ++ [c])
  = (withKey k items + if eqb (BuildReport.groupKey c) k then 1 else 0)%nat.
Proof.
  unfold withKey. rewrite filter_app, length_app. cbn [filter].
  now destruct (eqb (BuildReport.groupKey c) k).
Qed.

Lemma withKey_none (k : jsstring) (items : list Component) :
  (forall c, In c items -> BuildReport.groupKey c <> k) -> withKey k items = O.
Proof.
  intros H. unfold withKey. rewrite filter_none; [reflexivity|].
  intros c I. apply eqb_neq. now apply H.
Qed.

Lemma set_In_other {V} (o : JsObject.object V) (k : jsstring) (v e : V)
  (p : jsstring * V) :
  NoDup (map fst o) ->
  JsObject.getOwn o k = Some e ->
  In p (JsObject.set o k v) -> p = (k, v) \/ (In p o /\ fst p <> k).
Proof.
  intros ND G I. destruct (set_present o k v e G) as [o1 [o2 [Eo Es]]].
  rewrite Es in I. rewrite Eo in ND. rewrite map_app in ND. cbn [map fst] in ND.
  pose proof (NoDup_remove_2 _ _ _ ND) as Nk.
  apply in_app_or in I as [I|[<-|I]].
  - right. split; [rewrite Eo; apply in_or_app; now left|].
    intros E. apply Nk, in_or_app. left. rewrite <- E. now apply in_map.
  - now left.
  - right. split; [rewrite Eo; apply in_or_app; right; now right|].
    intros E. apply Nk, in_or_app. right. rewrite <- E. now apply in_map.
Qed.

Lemma countedFrom_step (items : list Component) (acc : JsObject.object Component)
  (c : Component) :
  groupedFrom items acc -> countedFrom items acc ->
  countedFrom (items ++ [c]) (BuildReport.groupStep acc c).
Proof.
  intros [[ND WF] _ _ K] Cn k e I. rewrite Forall_forall in WF.
  rewrite withKey_snoc.
  unfold BuildReport.groupStep, JsObject.get in I.
  destruct (JsObject.getOwn acc (BuildReport.groupKey c)) as [e0|] eqn:G.
  - apply (set_In_other _ _ _ _ _ ND G) in I as [[= -> ->]|[I Hk]].
    + rewrite eqb_refl. cbn [BuildReport.nextVariant variantCount].
      rewrite (Cn _ _ (getOwn_Some _ _ _ G)). cbn [option_map]. f_equal. lia.
    + cbn [fst] in Hk.
      destruct (eqb (BuildReport.groupKey c) k) eqn:E;
        [apply eqb_eq in E; congruence|].
      rewrite Nat.add_0_r. now apply Cn.
  - assert (Hk : In (k, e) acc -> eqb (BuildReport.groupKey c) k = false).
    { intros I'. apply eqb_neq. intros E. apply getOwn_None in G. apply G.
      rewrite E. now apply (in_map fst) in I'. }
    destruct (JsObject.isInherited (BuildReport.groupKey c)) eqn:Inh.
    + rewrite (Hk I), Nat.add_0_r. now apply Cn.
    + rewrite (set_fresh _ _ _ G) in I. apply in_app_or in I as [I|[[= <- <-]|[]]].
      * rewrite (Hk I), Nat.add_0_r. now apply Cn.
      * rewrite eqb_refl. cbn [BuildReport.firstVariant variantCount].
        rewrite withKey_none; [reflexivity|].
        intros c' I' E. apply getOwn_None in G. apply G. rewrite <- E.
        apply K. unfold stored. apply filter_In. split; [exact I'|].
        unfold notInherited. now rewrite E, Inh.
Qed.

Lemma countedFrom_fold (items : list Component) :
  countedFrom items (fold_left BuildReport.groupStep items JsObject.empty).
Proof.
  induction items as [|c items IH] using rev_ind; [intros k e []|].
  rewrite fold_left_app. cbn [fold_left].
  apply countedFrom_step; [apply groupedFrom_fold|exact IH].
Qed.

Lemma groupBySet_In (items : list Component) (e : Component) :
  In e (BuildReport.groupBySet items)
  <-> In (BuildReport.groupKey e, e)
        (fold_left BuildReport.groupStep items JsObject.empty).
Proof.
  pose proof (fold_groupStep_wellKeyed items _ empty_wellKeyed) as [_ WF].
  rewrite Forall_forall in WF.
  unfold BuildReport.groupBySet, JsObject.values. rewrite in_map_iff. split.
  - intros [[k e'] [E I]]. cbn [snd] in E. subst e'.
    apply (proj1 (ownProperties_In _ _)) in I.
    destruct (WF _ I) as [Hk _]. cbn [fst snd] in Hk. now rewrite Hk.
  - intros I. exists (BuildReport.groupKey e, e). split; [reflexivity|].
    now apply ownProperties_In.
Qed.

Lemma groupBySet_count (items : list Component) (e : Component) :
  In e (BuildReport.groupBySet items) ->
  variantCount e = Some (N.of_nat (withKey (BuildReport.groupKey e) items)).
Proof.
  intros I. apply groupBySet_In in I. exact (countedFrom_fold items _ _ I).
Qed.

Lemma groupBySet_keys_NoDup (items : list Component) :
  NoDup (map BuildReport.groupKey (BuildReport.groupBySet items)).
Proof.
  pose proof (fold_groupStep_wellKeyed items _ empty_wellKeyed) as W.
  unfold BuildReport.groupBySet. rewrite (values_keys _ W).
  now destruct (ownProperties_wellKeyed _ W).
Qed.

Lemma groupBySet_key_iff (items : list Component) (k : jsstring) :
  In k (map BuildReport.groupKey (BuildReport.groupBySet items))
  <-> (exists c, In c items /\ BuildReport.groupKey c = k)
      /\ JsObject.isInherited k = false.
Proof.
  pose proof (fold_groupStep_wellKeyed items _ empty_wellKeyed) as W.
  destruct (groupedFrom_fold items) as [_ _ F K].
  rewrite in_map_iff. split.
  - intros [e [<- I]]. apply groupBySet_In in I.
    destruct W as [_ WF]. rewrite Forall_forall in WF.
    destruct (WF _ I) as [_ Inh]. cbn [fst] in Inh. split; [|exact Inh].
    destruct (F _ _ I) as [c [Fc _]]. unfold firstWithKey in Fc.
    apply find_some in Fc as [Ic E]. apply eqb_eq in E. now exists c.
  - intros [[c [Ic <-]] Inh].
    assert (I : In (BuildReport.groupKey c)
                  (map fst (fold_left BuildReport.groupStep items JsObject.empty))).
    { apply K. unfold stored. apply filter_In. split; [exact Ic|].
      unfold notInherited. now rewrite Inh. }
    apply in_map_iff in I as [[k e] [Ek I]]. cbn [fst] in Ek. subst k.
    destruct W as [_ WF]. rewrite Forall_forall in WF.
    destruct (WF _ I) as [Hk _]. cbn [fst snd] in Hk.
    exists e. split; [exact Hk|]. apply groupBySet_In. now rewrite Hk.
Qed.

(** X9.  Each grouped entry counts exactly the records of the input that
    have its grouping key. *)
Theorem groupBySet_counts_its_key :
  forall (items : list Component) (e : Component),
    In e (BuildReport.groupBySet items) ->
    variantCount e = Some (N.of_nat (withKey (BuildReport.groupKey e) items))
    /\ (1 <= withKey (BuildReport.groupKey e) items)%nat.
Proof.
  intros items e I. pose proof (groupBySet_count items e I) as Cn.
  split; [exact Cn|]. apply groupBySet_In in I.
  destruct (groupedFrom_fold items) as [_ _ F _].
  destruct (F _ _ I) as [c [_ [n [-> Hn]]]]. cbn [variantCount] in Cn.
  injection Cn as Cn. lia.
Qed.

Lemma groupBySet_counts_its_key_witness :
  variantCount
    (mkComponent (mkAsset (lit "Button/S") (lit "Button/S")) None (lit "Button") (Some 2))
  = Some (N.of_nat
            (withKey (lit "Button")
               (variants [("Button/S", "Button"); ("Card", "Card");
                          ("Button/L", "Button")]%string))).
Proof.
  refine (proj1 (groupBySet_counts_its_key
                   (variants [("Button/S", "Button"); ("Card", "Card");
                              ("Button/L", "Button")]%string) _ _)).
  left. reflexivity.
Defined.

(** X11.  The grouped result has one entry for each distinct grouping key
    of the input that is not an inherited name, and no other entry. *)
Theorem groupBySet_one_entry_per_key :
  forall items : list Component,
    NoDup (map BuildReport.groupKey (BuildReport.groupBySet items))
    /\ forall k,
        In k (map BuildReport.groupKey (BuildReport.groupBySet items))
        <-> (exists c, In c items /\ BuildReport.groupKey c = k)
            /\ JsObject.isInherited k = false.
Proof.
  intros items. split.
  - apply groupBySet_keys_NoDup.
  - intros k. apply groupBySet_key_iff.
Qed.

Lemma filter_Permutation {A} (f : A -> bool) (l l' : list A) :
  Permutation l l' -> Permutation (filter f l) (filter f l').
Proof.
  induction 1 as [|a l l' _ IH|a b l|l l' l'' _ IH1 _ IH2]; cbn [filter].
  - constructor.
  - destruct (f a); [now constructor|exact IH].
  - destruct (f a), (f b); try reflexivity. apply perm_swap.
  - now transitivity (filter f l').
Qed.

(** X10.  Reordering the input changes neither the set of grouping keys
    of the result nor the count of any group; only the order of the
    entries and the record that represents a group may change. *)
Theorem groupBySet_counts_ignore_order :
  forall items items' : list Component,
    Permutation items items' ->
    (forall k, In k (map BuildReport.groupKey (BuildReport.groupBySet items))
               <-> In k (map BuildReport.groupKey (BuildReport.groupBySet items')))
    /\ (forall e e',
          In e (BuildReport.groupBySet items) ->
          In e' (BuildReport.groupBySet items') ->
          BuildReport.groupKey e = BuildReport.groupKey e' ->
          variantCount e = variantCount e')
    /\ List.length (BuildReport.groupBySet items)
       = List.length (BuildReport.groupBySet items').
Proof.
  intros items items' P.
  assert (Keys : forall k,
             In k (map BuildReport.groupKey (BuildReport.groupBySet items))
             <-> In k (map BuildReport.groupKey (BuildReport.groupBySet items'))).
  { intros k.
    rewrite (groupBySet_key_iff items k), (groupBySet_key_iff items' k).
    split; intros [[c [I E]] Inh]; (split; [|exact Inh]); exists c;
      (split; [|exact E]).
    - now apply (Permutation_in _ P).
    - now apply (Permutation_in _ (Permutation_sym P)). }
  split; [exact Keys|]. split.
  - intros e e' I I' E.
    rewrite (groupBySet_count items e I), (groupBySet_count items' e' I').
    rewrite E. unfold withKey.
    now rewrite (Permutation_length (filter_Permutation _ _ _ P)).
  - rewrite <- (length_map BuildReport.groupKey (BuildReport.groupBySet items)).
    rewrite <- (length_map BuildReport.groupKey (BuildReport.groupBySet items')).
    apply Permutation_length, NoDup_Permutation.
    + apply groupBySet_keys_NoDup.
    + apply groupBySet_keys_NoDup.
    + exact Keys.
Qed.

Lemma groupBySet_counts_ignore_order_witness :
  List.length
    (BuildReport.groupBySet
       (variants [("Button/S", "Button"); ("Card", "Card"); ("Button/L", "Button")]%string))
  = List.length
      (BuildReport.groupBySet
         (variants [("Card", "Card"); ("Button/L", "Button"); ("Button/S", "Button")]%string)).
Proof.
  refine (proj2 (proj2 (groupBySet_counts_ignore_order _ _ _))).
  apply Permutation_cons_app with (l1 := variants [("Card", "Card"); ("Button/L", "Button")]%string)
                                   (l2 := []).
  reflexivity.
Defined.

(** ** The notification *)

Lemma trimStart_keeps_last (l : jsstring) (x : N) :
  isTrimmable x = false -> exists l', trimStart (l ++ [x]) = l' ++ [x].
Proof.
  intros H. induction l as [|c l [l' IH]].
  - exists []. cbn [app trimStart]. now rewrite H.
  - cbn [app trimStart]. destruct (isTrimmable c).
    + now exists l'.
    + now exists (c :: l).
Qed.

Lemma trim_keeps_head (x : N) (t : jsstring) :
  isTrimmable x = false -> exists t', trim (x :: t) = x :: t'.
Proof.
  intros H. unfold trim, trimEnd. cbn [trimStart]. rewrite H. cbn [rev].
  destruct (trimStart_keeps_last (rev t) x H) as [l' ->].
  exists (rev l'). now rewrite rev_app_distr.
Qed.

Lemma buildSection_some (label : jsstring) (items : list jsstring) :
  items <> [] ->
  exists tail, NotifySlack.buildSection label items = Some (label ++ LF :: tail).
Proof.
  intros H. unfold NotifySlack.buildSection.
  destruct items as [|i items]; [contradiction|]. cbn [List.length Nat.eqb].
  eexists. cbn [app]. reflexivity.
Qed.

Lemma join_head (sep x : jsstring) (l : list jsstring) :
  exists tail, join sep (x :: l) = x ++ tail.
Proof.
  destruct l as [|y l]; cbn [join]; [exists []; now rewrite app_nil_r|].
  now eexists.
Qed.

(** X12.  The body of the notification is the "no changes" placeholder
    exactly when the report lists nothing: no variable, no style and no
    grouped component, whether added, modified or deleted. *)
Theorem placeholder_iff_nothing_listed :
  forall (webhook : Webhook) (report : Report),
    NotifySlack.bodyText webhook report = NotifySlack.noChanges
    <-> (variablesAdded report = [] /\ stylesAdded report = []
         /\ groupedAdded report = [])
        /\ (variablesModified report = [] /\ stylesModified report = []
            /\ groupedModified report = [])
        /\ (variablesDeleted report = [] /\ stylesDeleted report = []
            /\ groupedDeleted report = []).
Proof.
  intros w rep.
  assert (A : NotifySlack.addedItems w rep = []
              <-> variablesAdded rep = [] /\ stylesAdded rep = []
                  /\ groupedAdded rep = []).
  { unfold NotifySlack.addedItems. split.
    - intros E. apply app_eq_nil in E as [E1 E]. apply app_eq_nil in E as [E2 E3].
      apply map_eq_nil in E1, E2, E3. now repeat split.
    - intros [-> [-> ->]]. reflexivity. }
  assert (M : NotifySlack.modifiedItems w rep = []
              <-> variablesModified rep = [] /\ stylesModified rep = []
                  /\ groupedModified rep = []).
  { unfold NotifySlack.modifiedItems. split.
    - intros E. apply app_eq_nil in E as [E1 E]. apply app_eq_nil in E as [E2 E3].
      apply map_eq_nil in E2, E3.
      destruct (variablesModified rep); [now repeat split|discriminate E1].
    - intros [-> [-> ->]]. reflexivity. }
  assert (D : NotifySlack.deletedItems rep = []
              <-> variablesDeleted rep = [] /\ stylesDeleted rep = []
                  /\ groupedDeleted rep = []).
  { unfold NotifySlack.deletedItems. split.
    - intros E. apply app_eq_nil in E as [E1 E]. apply app_eq_nil in E as [E2 E3].
      apply map_eq_nil in E1, E2, E3. now repeat split.
    - intros [-> [-> ->]]. reflexivity. }
  rewrite <- A, <- M, <- D. clear A M D.
  unfold NotifySlack.bodyText, NotifySlack.itemsText, NotifySlack.sections.
  set (a := NotifySlack.addedItems w rep).
  set (m := NotifySlack.modifiedItems w rep).
  set (d := NotifySlack.deletedItems rep).
  assert (Head : (a = [] /\ m = [] /\ d = [])
                 \/ exists (t : jsstring) (rest : list jsstring),
                     NotifySlack.filterBoolean
                       [NotifySlack.buildSection NotifySlack.labelAdded a;
                        NotifySlack.buildSection NotifySlack.labelModified m;
                        NotifySlack.buildSection NotifySlack.labelDeleted d]
                     = @cons jsstring (0x3c0 :: t) rest).
  { destruct a as [|a0 a'].
    - destruct m as [|m0 m'].
      + destruct d as [|d0 d']; [now left|right].
        destruct (buildSection_some NotifySlack.labelDeleted (d0 :: d')
                    ltac:(discriminate)) as [tail ->].
        cbn. now eexists _, _.
      + right.
        destruct (buildSection_some NotifySlack.labelModified (m0 :: m')
                    ltac:(discriminate)) as [tail ->].
        cbn. now eexists _, _.
    - right.
      destruct (buildSection_some NotifySlack.labelAdded (a0 :: a')
                  ltac:(discriminate)) as [tail ->].
      cbn. now eexists _, _. }
  destruct Head as [[-> [-> ->]]|[t [rest Hs]]].
  - split; [now repeat split|reflexivity].
  - rewrite Hs.
    destruct (join_head [LF; LF] (0x3c0 :: t) rest) as [tail ->].
    cbn [app]. destruct (trim_keeps_head 0x3c0 (t ++ tail) eq_refl) as [t' ->].
    cbn [truthy]. split; [discriminate|].
    intros [Ea [Em Ed]]. exfalso.
    rewrite Ea, Em, Ed in Hs. discriminate Hs.
Qed.

Lemma buildReport_fields (w : Webhook) (r : ReadResult) (f : FetchResult)
  (clock : Z) (parse : jsstring -> option Z) (report : Report) :
  BuildReport.buildReport w r f clock parse = Ok report ->
  variablesAdded report = BuildReport.variablesAdded w
  /\ variablesDeleted report = BuildReport.variablesDeleted w
  /\ variablesModified report = BuildReport.variablesModified w
  /\ stylesAdded report = BuildReport.stylesAdded w f
  /\ stylesDeleted report = BuildReport.stylesDeleted w
  /\ stylesModified report = BuildReport.stylesModified w f
  /\ groupedAdded report = BuildReport.groupedAdded w f
  /\ groupedDeleted report = BuildReport.groupedDeleted w
  /\ groupedModified report = BuildReport.groupedModified w f.
Proof.
  unfold BuildReport.buildReport.
  destruct (BuildReport.newVersion w r f) as [v|]; [|discriminate].
  destruct (BuildReport.dateStr w clock parse) as [d|]; [|discriminate].
  cbn [bind]. intros [= <-]. repeat split.
Qed.

(** X13.  The two renderers read one report: the notification has as many
    added, modified and deleted items as the changelog section has lines
    under the corresponding title, so that a title appears in the
    changelog exactly when the notification has the section. *)
Theorem renderers_list_the_same_entries :
  forall (webhook : Webhook) (readResult : ReadResult) (fetchResult : FetchResult)
         (clock : Z) (Date_parse : jsstring -> option Z) (report : Report),
    BuildReport.buildReport webhook readResult fetchResult clock Date_parse
    = Ok report ->
    (List.length (NotifySlack.addedItems webhook report)
     = List.length (BuildReport.addedLines webhook fetchResult)
     /\ List.length (NotifySlack.modifiedItems webhook report)
        = List.length (BuildReport.modifiedLines webhook fetchResult)
     /\ List.length (NotifySlack.deletedItems report)
        = List.length (BuildReport.deletedLines webhook))
    /\ (NotifySlack.buildSection NotifySlack.labelAdded
          (NotifySlack.addedItems webhook report) = None
        <-> BuildReport.section BuildReport.titleAdded
              (BuildReport.addedLines webhook fetchResult) = [])
    /\ (NotifySlack.buildSection NotifySlack.labelModified
          (NotifySlack.modifiedItems webhook report) = None
        <-> BuildReport.section BuildReport.titleModified
              (BuildReport.modifiedLines webhook fetchResult) = [])
    /\ (NotifySlack.buildSection NotifySlack.labelDeleted
          (NotifySlack.deletedItems report) = None
        <-> BuildReport.section BuildReport.titleDeleted
              (BuildReport.deletedLines webhook) = []).
Proof.
  intros w r f clock parse report Run.
  destruct (buildReport_fields w r f clock parse report Run)
    as [VA [VD [VM [SA [SD [SM [GA [GD GM]]]]]]]].
  assert (L : List.length (NotifySlack.addedItems w report)
              = List.length (BuildReport.addedLines w f)
              /\ List.length (NotifySlack.modifiedItems w report)
                 = List.length (BuildReport.modifiedLines w f)
              /\ List.length (NotifySlack.deletedItems report)
                 = List.length (BuildReport.deletedLines w)).
  { unfold NotifySlack.addedItems, NotifySlack.modifiedItems,
      NotifySlack.deletedItems, BuildReport.addedLines,
      BuildReport.modifiedLines, BuildReport.deletedLines.
    rewrite VA, VD, VM, SA, SD, SM, GA, GD, GM.
    rewrite !length_app, !length_map. unfold BuildReport.len.
    repeat split.
    destruct (BuildReport.variablesModified w); reflexivity. }
  split; [exact L|].
  assert (B : forall label title items lines,
             List.length items = List.length lines ->
             NotifySlack.buildSection label items = None
             <-> BuildReport.section title lines = []).
  { intros label title items lines E.
    unfold NotifySlack.buildSection, BuildReport.section.
    destruct items, lines; try discriminate E; cbn; split;
      try reflexivity; discriminate. }
  destruct L as [L1 [L2 L3]]. repeat split; apply B; assumption.
Qed.

Lemma renderers_list_the_same_entries_witness :
  exists report,
    BuildReport.buildReport exampleWebhook (ReadGitHub.readGitHub sampleChangelog)
      exampleMetas 0%Z parseSample = Ok report
    /\ List.length (NotifySlack.modifiedItems exampleWebhook report)
       = List.length (BuildReport.modifiedLines exampleWebhook exampleMetas).
Proof.
  eexists. split; [vm_compute; reflexivity|].
  refine (proj1 (proj2 (proj1
            (renderers_list_the_same_entries exampleWebhook
               (ReadGitHub.readGitHub sampleChangelog) exampleMetas 0%Z
               parseSample _ _)))).
  vm_compute. reflexivity.
Defined.

(** ** When [buildReport] returns *)



(** ** What [parseWebhook] hands over *)

Section Lookup.

Context {V : Type}.

Implicit Types (o : JsObject.object V) (k : jsstring) (v : V).

Lemma getOwn_set_same o k v : JsObject.getOwn (JsObject.set o k v) k = Some v.
Proof.
  induction o as [|[k' v'] r IH]; cbn [JsObject.set JsObject.getOwn].
  - now rewrite eqb_refl.
  - destruct (eqb k' k) eqn:E; cbn [JsObject.getOwn]; now rewrite E.
Qed.

Lemma getOwn_set_other o k k' v :
  k <> k' -> JsObject.getOwn (JsObject.set o k v) k' = JsObject.getOwn o k'.
Proof.
  intros N0. induction o as [|[k0 v0] r IH]; cbn [JsObject.set JsObject.getOwn].
  - apply eqb_neq in N0. now rewrite N0.
  - destruct (eqb k0 k) eqn:E; cbn [JsObject.getOwn].
    + apply eqb_eq in E. subst k0. apply eqb_neq in N0. now rewrite N0.
    + destruct (eqb k0 k'); [reflexivity|exact IH].
Qed.

Lemma getOwn_In o k v :
  NoDup (map fst o) -> (JsObject.getOwn o k = Some v <-> In (k, v) o).
Proof.
  intros ND. split; [apply getOwn_Some|].
  induction o as [|[k' v'] r IH]; [intros []|].
  cbn [map fst] in ND. apply NoDup_cons_iff in ND as [Nk ND].
  cbn [JsObject.getOwn]. intros [[= -> ->]|I].
  - now rewrite eqb_refl.
  - destruct (eqb k' k) eqn:E; [|now apply IH].
    apply eqb_eq in E. subst k'. elim Nk. now apply (in_map fst) in I.
Qed.

Lemma getOwn_Permutation o o' k :
  NoDup (map fst o) -> Permutation o o' ->
  JsObject.getOwn o k = JsObject.getOwn o' k.
Proof.
  intros ND P.
  assert (ND' : NoDup (map fst o'))
    by (eapply Permutation_NoDup; [apply Permutation_map, P|exact ND]).
  destruct (JsObject.getOwn o k) as [v|] eqn:G.
  - symmetry. apply (getOwn_In o' k v ND').
    apply (Permutation_in _ P). now apply getOwn_Some.
  - destruct (JsObject.getOwn o' k) as [v|] eqn:G'; [|reflexivity].
    apply getOwn_Some in G'. apply (Permutation_in _ (Permutation_sym P)) in G'.
    apply (getOwn_In o k v ND) in G'. congruence.
Qed.

Lemma getOwn_ownProperties o k :
  NoDup (map fst o) ->
  JsObject.getOwn (JsObject.ownProperties o) k = JsObject.getOwn o k.
Proof.
  intros ND. symmetry. apply getOwn_Permutation; [exact ND|].
  apply Permutation_sym, ownProperties_Permutation.
Qed.

Lemma getOwn_filter_key o (name k : jsstring) :
  JsObject.getOwn (filter (fun p => negb (eqb (fst p) name)) o) k
  = if eqb k name then None else JsObject.getOwn o k.
Proof.
  induction o as [|[k' v'] r IH]; cbn [filter JsObject.getOwn fst].
  - now destruct (eqb k name).
  - destruct (eqb k' name) eqn:E; cbn [negb JsObject.getOwn].
    + rewrite IH. destruct (eqb k name) eqn:E'; [reflexivity|].
      destruct (eqb k' k) eqn:E''; [|reflexivity].
      apply eqb_eq in E, E''. subst. now rewrite eqb_refl in E'.
    + destruct (eqb k' k) eqn:E''; [|exact IH].
      apply eqb_eq in E''. subst k'. now rewrite E.
Qed.

Lemma getOwn_copied (l : JsObject.object V) :
  NoDup (map fst l) ->
  forall acc k,
    JsObject.getOwn
      (fold_left (fun o p => JsObject.set o (fst p) (snd p)) l acc) k
    = match JsObject.getOwn l k with
      | Some v => Some v
      | None => JsObject.getOwn acc k
      end.
Proof.
  induction l as [|[k1 v1] l IH]; intros ND acc k; [reflexivity|].
  cbn [map fst] in ND. apply NoDup_cons_iff in ND as [Nk ND].
  cbn [fold_left fst snd JsObject.getOwn]. rewrite (IH ND).
  destruct (eqb k1 k) eqn:E.
  - apply eqb_eq in E. subst k1.
    rewrite (proj2 (getOwn_None l k) Nk). apply getOwn_set_same.
  - apply eqb_neq in E. now rewrite getOwn_set_other.
Qed.

End Lookup.

Lemma NoDup_filter_keys {V} (f : jsstring * V -> bool) (o : JsObject.object V) :
  NoDup (map fst o) -> NoDup (map fst (filter f o)).
Proof.
  induction o as [|p r IH]; intros ND; [constructor|].
  cbn [map] in ND. apply NoDup_cons_iff in ND as [Nk ND].
  cbn [filter]. destruct (f p); [|now apply IH].
  cbn [map]. constructor; [|now apply IH].
  intros I. apply Nk. apply in_map_iff in I as [q [E I]].
  apply filter_In in I as [I _]. rewrite <- E. now apply in_map.
Qed.

Lemma ownProperties_NoDup {V} (o : JsObject.object V) :
  NoDup (map fst o) -> NoDup (map fst (JsObject.ownProperties o)).
Proof.
  intros ND. eapply Permutation_NoDup; [|exact ND].
  apply Permutation_map, Permutation_sym, ownProperties_Permutation.
Qed.

(** X14.  In an accepted payload the fields of [changes] come out on top:
    a property of the [changes] object shadows the top-level property of
    that name, every other top-level property (the passcode and the event
    type included) is kept, and [changes] itself is gone.  Without
    [changes] the payload is handed over as it is. *)
Theorem parseWebhook_changes_on_top :
  forall (properties webhook : JsObject.object json),
    NoDup (map fst properties) ->
    ParseWebhook.parseWebhook (JObject properties) = ParseWebhook.Payload webhook ->
    (forall changes,
        JsObject.getOwn properties (lit "changes") = Some (JObject changes) ->
        NoDup (map fst changes) ->
        forall k,
          JsObject.getOwn webhook k
          = match JsObject.getOwn changes k with
            | Some v => Some v
            | None =>
                if eqb k (lit "changes") then None
                else JsObject.getOwn properties k
            end)
    /\ (JsObject.getOwn properties (lit "changes") = None ->
        forall k, JsObject.getOwn webhook k = JsObject.getOwn properties k).
Proof.
  intros props webhook ND Run. unfold ParseWebhook.parseWebhook in Run.
  destruct (Json.isString _ ParseWebhook.PING); [discriminate|].
  destruct (negb _); [discriminate|].
  injection Run as <-.
  cbn [Json.field Json.ownEnumerable]. unfold Json.spread.
  rewrite fold_left_app.
  assert (Rest : forall k,
             JsObject.getOwn
               (fold_left (fun o p => JsObject.set o (fst p) (snd p))
                  (filter (fun p => negb (eqb (fst p) (lit "changes")))
                     (JsObject.ownProperties props)
                   : JsObject.object json) JsObject.empty) k
             = if eqb k (lit "changes") then None
               else JsObject.getOwn props k).
  { intros k. rewrite getOwn_copied
      by (apply NoDup_filter_keys, ownProperties_NoDup, ND).
    rewrite getOwn_filter_key, (getOwn_ownProperties props k ND).
    destruct (eqb k (lit "changes")); [reflexivity|].
    now destruct (JsObject.getOwn props k). }
  split.
  - intros changes C NDc k. rewrite C.
    cbn [ParseWebhook.orEmptyObject Json.truthy Json.ownEnumerable].
    rewrite getOwn_copied by (apply ownProperties_NoDup, NDc).
    rewrite (getOwn_ownProperties changes k NDc), Rest. reflexivity.
  - intros C k. rewrite C.
    cbn [ParseWebhook.orEmptyObject Json.ownEnumerable JsObject.ownProperties
           filter JsObject.sortByIndex JsObject.sortBy fold_right app fold_left].
    rewrite Rest. destruct (eqb k (lit "changes")) eqn:E; [|reflexivity].
    apply eqb_eq in E. now subst k.
Qed.

Lemma parseWebhook_changes_on_top_witness :
  exists webhook,
    ParseWebhook.parseWebhook samplePayload = ParseWebhook.Payload webhook
    /\ JsObject.getOwn webhook (lit "file_key") = Some (JString (lit "OTHER"))
    /\ JsObject.getOwn webhook (lit "passcode")
       = Some (JString (lit "ids-changelog-2026"))
    /\ JsObject.getOwn webhook (lit "changes") = None.
Proof.
  eexists. split; [vm_compute; reflexivity|].
  assert (ND : NoDup (map fst [ (lit "event_type", JString (lit "LIBRARY_PUBLISH"));
                                (lit "passcode", JString (lit "ids-changelog-2026"));
                                (lit "file_key", JString (lit "FILE"));
                                (lit "changes",
                                  JObject [ (lit "file_key", JString (lit "OTHER"));
                                            (lit "created_styles", JArray []) ]) ])).
  { repeat constructor; cbn; intuition discriminate. }
  assert (NDc : NoDup (map fst [ (lit "file_key", JString (lit "OTHER"));
                                 (lit "created_styles", JArray []) ])).
  { repeat constructor; cbn; intuition discriminate. }
  pose proof (proj1 (parseWebhook_changes_on_top _ _ ND eq_refl) _ eq_refl NDc) as H.
  split; [exact (H (lit "file_key"))|].
  split; [exact (H (lit "passcode"))|exact (H (lit "changes"))].
Defined.

(** ** The run *)

Example main_publishes :
  runMain (sampleEnvironment publishPayload true)
  = Some (Main.mkOutcome
            [ Main.Figma (lit "https://api.figma.com/v1/styles/S1");
              Main.GitHub (Main.GetRef (Some (lit "june")) (Some (lit "ids"))
                             (lit "heads/main"));
              Main.GitHub (Main.GetCommit (Some (lit "june")) (Some (lit "ids"))
                             (lit "sha-head"));
              Main.GitHub
                (Main.CreateBlob (Some (lit "june")) (Some (lit "ids"))
                   (lit "# Changelog" ++ [LF; LF]
                      ++ lit "## 1.3.0 - 2026-01-06" ++ [LF; LF]
                      ++ lit "### " ++ BuildReport.titleAdded ++ [LF]
                      ++ lit "- [Primary](https://www.figma.com/file/FILE?node-id=10:1)"
                      ++ [LF; LF]
                      ++ lit "## 1.2.3 - 2026-01-05" ++ [LF; LF] ++ lit "### x" ++ [LF])
                   (lit "base64"));
              Main.GitHub
                (Main.CreateTree (Some (lit "june")) (Some (lit "ids"))
                   (lit "sha-tree") (lit "changelog/CHANGELOG.md") (lit "100644")
                   (lit "blob") (lit "sha-blob"));
              Main.GitHub
                (Main.CreateCommit (Some (lit "june")) (Some (lit "ids"))
                   (lit "1.3.0") (lit "sha-new-tree") [lit "sha-head"]);
              Main.GitHub
                (Main.UpdateRef (Some (lit "june")) (Some (lit "ids"))
                   (lit "heads/main") (lit "sha-commit"));
              Main.Slack
                (lit "*<https://github.com/june/ids/blob/main/changelog/CHANGELOG.md|1.3.0>* "
                   ++ [0x392; 0xb7; 32] ++ lit "june")
                (NotifySlack.labelAdded ++ [LF] ++ NotifySlack.bullet
                   ++ lit "<https://www.figma.com/file/FILE?node-id=10:1|Primary>") ]
            0).
Proof. vm_compute. reflexivity. Qed.

Lemma runMain_cases (e : Environment) (out : Main.outcome) :
  runMain e = Some out ->
  effects_nil_or_stages e out.
Proof.
  unfold runMain, Main.main, effects_nil_or_stages.
  destruct (env_payload e) as [raw|]; [|intros [= <-]; now left].
  destruct (ParseWebhook.parseWebhook raw) as [| |object].
  - intros [= <-]. now left.
  - intros [= <-]. now left.
  - destruct (Payload.view object) as [w|]; [|discriminate].
    intros [= <-]. right. now exists w.
Qed.

(** Runs the stages on every answer the collaborators may give. *)
Ltac stage_cases e w :=
  cbv beta iota zeta delta
    [runStages Main.stages Main.andThen Main.readGitHub Main.fetchFigma
       Main.buildReport Main.writeGitHub Main.notifySlack Main.ownerAndRepo
       Main.octokit Main.ret Main.throw];
  destruct (env_changelog e) as [content|]; cbv beta iota zeta;
  [destruct (FetchFigma.fetchFigma (env_service e) w []) as [fetched log];
   cbv beta iota zeta;
   let B := fresh "Built" in
   destruct (BuildReport.buildReport w (ReadGitHub.readGitHub content) fetched
               (env_clock e) (env_Date_parse e)) as [report|failed] eqn:B;
   cbv beta iota zeta;
   [destruct (env_repository e) as [repository|]; cbv beta iota zeta;
    [repeat match goal with
            | |- context [env_github e ?c] =>
                let G := fresh "G" in
                destruct (env_github e c) eqn:G; cbv beta iota zeta
            end;
     try match goal with
         | |- context [env_slack e ?h ?b] =>
             let S := fresh "Sl" in
             destruct (env_slack e h b) eqn:S; cbv beta iota zeta
         end
    |]
   |]
  |].

Lemma in_figma_slack (header body : jsstring) (log : list jsstring) :
  ~ In (Main.Slack header body) (map Main.Figma log).
Proof. intros I. apply in_map_iff in I as [x [E _]]. discriminate E. Qed.

(** X16.  Slack is contacted only once the branch has been moved: in
    every run in which a message is sent, accepted or not, the trace holds
    an [updateRef] that GitHub answered.  A refused message leaves the
    commit in place and the run exits with 1. *)
Theorem no_notification_without_commit :
  forall (e : Environment) (out : Main.outcome),
    runMain e = Some out ->
    slackContacted (Main.effects out) ->
    branchMoved e (Main.effects out)
    /\ (Main.exitCode out = 1 ->
        exists header body,
          In (Main.Slack header body) (Main.effects out)
          /\ env_slack e header body = false).
Proof.
  intros e out Run [h [b I]].
  destruct (runMain_cases e out Run) as [E|[w ->]];
    [rewrite E in I; destruct I|].
  revert I. stage_cases e w; cbn [Main.finish Main.effects Main.exitCode app];
    rewrite ?app_nil_l, ?in_app_iff; cbn [In];
    intros I;
    repeat match goal with
           | H : _ \/ _ |- _ => destruct H
           | H : In _ (map Main.Figma _) |- _ => now apply in_figma_slack in H
           | H : False |- _ => destruct H
           | H : Main.GitHub _ = Main.Slack _ _ |- _ => discriminate H
           end.
  - split; [|discriminate].
    eexists _, _, _, _. split;
      [rewrite !in_app_iff; cbn [In]; left; right; left; reflexivity|congruence].
  - split.
    + eexists _, _, _, _. split;
        [rewrite !in_app_iff; cbn [In]; left; right; left; reflexivity|congruence].
    + intros _. eexists _, _. split;
        [rewrite !in_app_iff; cbn [In]; right; left; reflexivity|assumption].
Qed.

(** X15.  A PING, and a payload without the passcode, end the run there:
    nothing is looked up, committed or posted, whatever the environment
    holds, and the exit code is 0. *)
Theorem skipped_run_does_nothing :
  forall (e : Environment) (raw : json),
    env_payload e = Some raw ->
    raw <> JNull ->
    Json.isString (Json.field raw (lit "event_type")) ParseWebhook.PING = true
    \/ Json.isString (Json.field raw (lit "passcode")) ParseWebhook.passcode = false ->
    runMain e = Some (Main.mkOutcome [] 0).
Proof.
  intros e raw P NN H. unfold runMain, Main.main. rewrite P.
  assert (E : ParseWebhook.parseWebhook raw = ParseWebhook.Null).
  { unfold ParseWebhook.parseWebhook.
    destruct raw; try contradiction;
      destruct H as [-> | ->]; try reflexivity;
      match goal with
      | |- context [if ?c then _ else _] => now destruct c
      end. }
  now rewrite E.
Qed.

Lemma skipped_run_does_nothing_witness :
  runMain (sampleEnvironment pingPayload true) = Some (Main.mkOutcome [] 0).
Proof.
  apply (skipped_run_does_nothing (sampleEnvironment pingPayload true) pingPayload).
  - reflexivity.
  - discriminate.
  - left. reflexivity.
Defined.

Lemma filter_kind_figma (log : list jsstring) :
  filter isFigma (map Main.Figma log) = map Main.Figma log
  /\ filter isGitHub (map Main.Figma log) = []
  /\ filter isSlack (map Main.Figma log) = [].
Proof.
  induction log as [|u log [IH1 [IH2 IH3]]]; [now repeat split|].
  cbn [map filter isFigma isGitHub isSlack]. now rewrite IH1, IH2, IH3.
Qed.

(** X18.  The requests of a run come in three rounds that never mix:
    first the Figma lookups, then the GitHub calls, six at most, then at
    most one message to Slack. *)
Theorem run_is_lookups_then_commit_then_message :
  forall (e : Environment) (out : Main.outcome),
    runMain e = Some out ->
    let trace := Main.effects out in
    trace = filter isFigma trace ++ filter isGitHub trace ++ filter isSlack trace
    /\ (List.length (filter isGitHub trace) <= 6)%nat
    /\ (List.length (filter isSlack trace) <= 1)%nat.
Proof.
  intros e out Run trace. unfold trace. clear trace.
  destruct (runMain_cases e out Run) as [E|[w ->]];
    [rewrite E; cbn; repeat split; lia|].
  stage_cases e w; cbn [Main.finish Main.effects app];
    rewrite ?filter_app;
    rewrite ?(proj1 (filter_kind_figma log)),
      ?(proj1 (proj2 (filter_kind_figma log))),
      ?(proj2 (proj2 (filter_kind_figma log)));
    cbn [filter isFigma isGitHub isSlack app List.length];
    rewrite ?app_nil_r, <- ?app_assoc; cbn [app];
    repeat split; try reflexivity; lia.
Qed.

(** X19.  A run that exits with 0 either stopped at [parseWebhook] and
    sent nothing, or moved the branch and had its message accepted by
    Slack. *)
Theorem clean_exit_means_skipped_or_published :
  forall (e : Environment) (out : Main.outcome),
    runMain e = Some out ->
    Main.exitCode out = 0 ->
    Main.effects out = []
    \/ (branchMoved e (Main.effects out)
        /\ exists header body,
            In (Main.Slack header body) (Main.effects out)
            /\ env_slack e header body = true).
Proof.
  intros e out Run.
  destruct (runMain_cases e out Run) as [E|[w ->]]; [now left|].
  stage_cases e w; cbn [Main.finish Main.effects Main.exitCode app];
    intros Ex; try discriminate Ex.
  right. split.
  - eexists _, _, _, _. split;
      [rewrite !in_app_iff; cbn [In]; left; right; left; reflexivity|congruence].
  - eexists _, _. split;
      [rewrite !in_app_iff; cbn [In]; right; left; reflexivity|assumption].
Qed.

Lemma clean_exit_means_skipped_or_published_witness :
  exists out,
    runMain (sampleEnvironment publishPayload true) = Some out
    /\ (Main.effects out = []
        \/ (branchMoved (sampleEnvironment publishPayload true) (Main.effects out)
            /\ exists header body,
                In (Main.Slack header body) (Main.effects out)
                /\ env_slack (sampleEnvironment publishPayload true) header body
                   = true)).
Proof.
  eexists. split; [vm_compute; reflexivity|].
  apply (clean_exit_means_skipped_or_published
           (sampleEnvironment publishPayload true)).
  - vm_compute. reflexivity.
  - reflexivity.
Defined.

Lemma no_notification_without_commit_witness :
  exists out,
    runMain (sampleEnvironment publishPayload false) = Some out
    /\ Main.exitCode out = 1
    /\ branchMoved (sampleEnvironment publishPayload false) (Main.effects out).
Proof.
  eexists. split; [vm_compute; reflexivity|]. split; [reflexivity|].
  refine (proj1 (no_notification_without_commit
                   (sampleEnvironment publishPayload false) _ _ _)).
  - vm_compute. reflexivity.
  - eexists _, _. cbn [Main.effects]. do 7 right. left. reflexivity.
Defined.

(** X20.  When [buildReport] throws, the run has sent its Figma lookups
    and nothing else: no call to GitHub, no message to Slack. *)
Theorem failed_report_stops_the_run :
  forall (e : Environment) (webhook : Webhook) (changelogContent : jsstring)
         (failed : failure),
    env_changelog e = Some changelogContent ->
    BuildReport.buildReport webhook (ReadGitHub.readGitHub changelogContent)
      (fst (FetchFigma.fetchFigma (env_service e) webhook []))
      (env_clock e) (env_Date_parse e) = Err failed ->
    runStages e webhook
    = (None, map Main.Figma (FetchFigma.requests (env_service e) webhook)).
Proof.
  intros e w content failed C B.
  cbv beta iota zeta delta
    [runStages Main.stages Main.andThen Main.readGitHub Main.fetchFigma
       Main.buildReport Main.ret Main.throw FetchFigma.requests].
  rewrite C. cbv beta iota zeta.
  destruct (FetchFigma.fetchFigma (env_service e) w []) as [fetched log].
  cbn [fst snd] in *. cbv beta iota zeta. now rewrite B.
Qed.

Lemma failed_report_stops_the_run_witness :
  runStages (sampleEnvironment publishPayload true)
    (mkWebhook None None None None None None None None None None
       (TsString (lit "yesterday")) None)
  = (None, []).
Proof.
  refine (failed_report_stops_the_run (sampleEnvironment publishPayload true)
            _ sampleChangelog InvalidTimeValue eq_refl _).
  vm_compute. reflexivity.
Defined.



Lemma run_is_lookups_then_commit_then_message_witness :
  exists out,
    runMain (sampleEnvironment publishPayload true) = Some out
    /\ List.length (filter isFigma (Main.effects out)) = 1%nat
    /\ List.length (filter isGitHub (Main.effects out)) = 6%nat
    /\ (List.length (filter isSlack (Main.effects out)) <= 1)%nat.
Proof.
  eexists. split; [exact main_publishes|].
  split; [reflexivity|]. split; [reflexivity|].
  exact (proj2 (proj2 (run_is_lookups_then_commit_then_message
                         (sampleEnvironment publishPayload true) _ main_publishes))).
Defined.
